(** * Credit simulator: the scoring engine of [src/main.jsx]

    A shallow embedding of the three functions that make up the engine,
    [calculateWeights], [calculateWorstCaseImpact] and [runSimulation],
    together with the pieces of JavaScript they lean on ([Number(v) || d],
    [Math.max], [Math.min], [Math.round], [toFixed], [parseFloat]).

    JavaScript numbers are IEEE 754 binary64 values.  The engine is written
    once, over an interface [NumberModel] listing the operations the source
    uses, and instantiated twice:
    - [Binary64Numbers]: Rocq's primitive floats, the arithmetic the program
      runs; every worked scenario and every counterexample is evaluated
      there, and so is every property that can be decided by comparisons;
    - [ExactNumbers]: rational arithmetic without rounding, NaN or
      infinities, in which the two score bounds are stated a second time;
      nothing that is claimed of the program rests on it alone. *)

From Stdlib Require Import ZArith QArith Qround Qminmax Floats.
From Stdlib Require Import String Ascii DecimalString List Bool Lia Lqa.
Import ListNotations.

Set Warnings "-inexact-float".

Local Open Scope string_scope.

(** ** Decimal text shared by both number models *)

Definition pow10 (d : nat) : Z := (10 ^ Z.of_nat d)%Z.

(** Nearest integer, ties towards +infinity. *)
Definition roundHalfUp (q : Q) : Z := Qfloor (q + (1 # 2)).

Definition decimalDigits (n : Z) : string :=
  NilZero.string_of_uint (N.to_uint (Z.to_N n)).

Fixpoint zeros (k : nat) : string :=
  match k with
  | O => EmptyString
  | S k' => String "0" (zeros k')
  end.

(** A digit string without the zeros at its end. *)
Fixpoint dropTrailingZeros (s : string) : string :=
  match s with
  | EmptyString => EmptyString
  | String c rest =>
      match dropTrailingZeros rest with
      | EmptyString => if Ascii.eqb c "0" then EmptyString else String c EmptyString
      | rest' => String c rest'
      end
  end.

(** [Number.prototype.toFixed] on a non-negative value below 10^21: the
    integer [n] closest to [q * 10^digits] (the larger one on a tie), printed
    with a decimal point before its last [digits] digits. *)
Definition toFixedQ (q : Q) (digits : nat) : string :=
  let n := roundHalfUp (q * inject_Z (pow10 digits)) in
  let m := decimalDigits n in
  match digits with
  | O => m
  | _ =>
      let k := String.length m in
      let m := if (k <=? digits)%nat then zeros (digits + 1 - k) ++ m else m in
      let k := String.length m in
      substring 0 (k - digits) m ++ "." ++ substring (k - digits) digits m
  end.

Definition isDigit (c : ascii) : bool :=
  ((48 <=? nat_of_ascii c) && (nat_of_ascii c <=? 57))%nat.

Definition digitValue (c : ascii) : Z := Z.of_nat (nat_of_ascii c - 48).

Definition isWhiteSpace (c : ascii) : bool :=
  let n := nat_of_ascii c in
  ((n =? 32) || ((9 <=? n) && (n <=? 13)))%nat.

Fixpoint skipWhiteSpace (s : string) : string :=
  match s with
  | String c rest => if isWhiteSpace c then skipWhiteSpace rest else s
  | EmptyString => s
  end.

(** Reads a run of decimal digits: their value, their number, and the rest. *)
Fixpoint readDigits (s : string) (acc : Z) (count : nat) : Z * nat * string :=
  match s with
  | String c rest =>
      if isDigit c then readDigits rest (10 * acc + digitValue c)%Z (S count)
      else (acc, count, s)
  | EmptyString => (acc, count, s)
  end.

(** The exponent part [e[+-]ddd] of a decimal literal, 0 when there is none. *)
Definition readExponent (s : string) : Z :=
  match s with
  | String c rest =>
      if (nat_of_ascii c =? 101)%nat || (nat_of_ascii c =? 69)%nat then
        let '(neg, rest') :=
          match rest with
          | String "-" r => (true, r)
          | String "+" r => (false, r)
          | _ => (false, rest)
          end in
        let '(v, n, _) := readDigits rest' 0%Z O in
        match n with
        | O => 0%Z
        | _ => if neg then (- v)%Z else v
        end
      else 0%Z
  | EmptyString => 0%Z
  end.

(** What [parseFloat] reads at the front of a string. *)
Inductive Parsed : Type :=
| PNaN
| PInfinity (negative : bool)
| PDecimal (negative : bool) (magnitude : Q).

Definition parseFloatText (s : string) : Parsed :=
  let s := skipWhiteSpace s in
  let '(neg, s) :=
    match s with
    | String "-" r => (true, r)
    | String "+" r => (false, r)
    | _ => (false, s)
    end in
  if String.prefix "Infinity" s then PInfinity neg
  else
    let '(ip, ni, s1) := readDigits s 0%Z O in
    let '(fp, nf, s2) :=
      match s1 with
      | String "." r => readDigits r 0%Z O
      | _ => (0%Z, O, s1)
      end in
    match (ni + nf)%nat with
    | O => PNaN
    | _ =>
        let mantissa := (inject_Z (ip * pow10 nf + fp) / inject_Z (pow10 nf))%Q in
        PDecimal neg (Qred (mantissa * Qpower 10 (readExponent s2)))
    end.

(** ** The numbers of the source *)

(** The operations the engine applies to numbers.  [lit] is a numeric literal
    of the source text; [ltb a b] is [a < b] and [leb a b] is [a <= b];
    [truthy] is JavaScript's truthiness of a number (false on 0 and NaN). *)
Class NumberModel (num : Type) : Type := {
  lit : Q -> num;
  add : num -> num -> num;
  sub : num -> num -> num;
  mul : num -> num -> num;
  div : num -> num -> num;
  ltb : num -> num -> bool;
  leb : num -> num -> bool;
  truthy : num -> bool;
  Math_max : num -> num -> num;
  Math_min : num -> num -> num;
  Math_round : num -> num;
  toFixed : num -> nat -> string;
  parseFloat : string -> num
}.

Declare Scope js_scope.
Delimit Scope js_scope with js.
Infix "+" := add : js_scope.
Infix "-" := sub : js_scope.
Infix "*" := mul : js_scope.
Infix "/" := div : js_scope.
Notation "a < b" := (ltb a b) : js_scope.
Notation "a <= b" := (leb a b) : js_scope.
Notation "a > b" := (ltb b a) : js_scope.
Notation "a >= b" := (leb b a) : js_scope.

(** *** IEEE 754 binary64 *)

Module Binary64.

(** The rational [(-1)^s * m * 2^e] of a finite double. *)
Definition finiteValue (s : bool) (m : positive) (e : Z) : Q :=
  let v :=
    match e with
    | Zneg k => Zpos m # Pos.shiftl 1 (Npos k)
    | _ => inject_Z (Zpos m * 2 ^ e)
    end in
  if s then Qopp v else v.

(** The rational a finite double stands for; [None] on NaN and infinities. *)
Definition F2Q (x : float) : option Q :=
  match Prim2SF x with
  | S754_zero _ => Some 0%Q
  | S754_finite s m e => Some (finiteValue s m e)
  | _ => None
  end.

(** The double nearest to a rational, ties to even (overflow gives an
    infinity): the quotient is formed as for a float division and rounded by
    the library's [binary_round_aux]. *)
Definition Q2F (q : Q) : float :=
  match Qnum q with
  | Z0 => PrimFloat.zero
  | Zpos p =>
      let '(m, e, l) := SFdiv_core_binary prec emax (Zpos p) 0 (Zpos (Qden q)) 0 in
      SF2Prim (binary_round_aux prec emax false m e l)
  | Zneg p =>
      let '(m, e, l) := SFdiv_core_binary prec emax (Zpos p) 0 (Zpos (Qden q)) 0 in
      SF2Prim (binary_round_aux prec emax true m e l)
  end.

(** The double of an integer; [negZero] chooses the sign of a zero. *)
Definition Z2F (n : Z) (negZero : bool) : float :=
  SF2Prim (binary_normalize prec emax n 0 negZero).

(** [Math.max]: NaN if either argument is NaN, and +0 counts above -0. *)
Definition max (x y : float) : float :=
  if is_nan x || is_nan y then nan
  else if PrimFloat.ltb x y then y
  else if PrimFloat.ltb y x then x
  else if get_sign x then y else x.

(** [Math.min]: NaN if either argument is NaN, and -0 counts below +0. *)
Definition min (x y : float) : float :=
  if is_nan x || is_nan y then nan
  else if PrimFloat.ltb x y then x
  else if PrimFloat.ltb y x then y
  else if get_sign x then x else y.

(** [Math.round]: [x] itself when it is NaN, an infinity, a zero or already
    integral (no fractional bit, [0 <= e]); otherwise the integer closest to
    the exact value of [x], the one towards +infinity on a tie, a result of
    zero keeping the sign of [x]. *)
Definition round (x : float) : float :=
  match Prim2SF x with
  | S754_finite s m e =>
      if (0 <=? e)%Z then x else Z2F (roundHalfUp (finiteValue s m e)) s
  | _ => x
  end.

(** The digits of [Number::toString] for a double [x] whose exact value is
    the integer [X] of [D] decimal digits: the least [k] for which a
    [k]-digit integer [s], scaled by a power of ten, reads back as [x], and
    for that [k] the [s] closest to [X] (the even one on a tie).  The result
    is [s * 10^(D - k)]. *)
Fixpoint shortestDecimal (fuel k : nat) (x : float) (X : Z) (D : nat) : Z :=
  match fuel with
  | O => X
  | S fuel' =>
      let scale := pow10 (D - k) in
      let lo := (X / scale * scale)%Z in
      let hi := (lo + scale)%Z in
      let readsBack := fun v : Z => PrimFloat.eqb (Q2F (inject_Z v)) x in
      match readsBack lo, readsBack hi with
      | true, true =>
          if (X - lo <? hi - X)%Z then lo
          else if (hi - X <? X - lo)%Z then hi
          else if Z.even (X / scale) then lo else hi
      | true, false => lo
      | false, true => hi
      | false, false => shortestDecimal fuel' (S k) x X D
      end
  end.

(** [Number::toString] of a double at or above 10^21, whose value is the
    integer [X]: exponential notation. *)
Definition exponentialText (x : float) (X : Z) : string :=
  let D := String.length (decimalDigits X) in
  let v := shortestDecimal 17 1 x X D in
  let all := decimalDigits v in
  let n := String.length all in
  let digits := dropTrailingZeros all in
  let exponent := decimalDigits (Z.of_nat (n - 1)) in
  match digits with
  | String d EmptyString => String d EmptyString ++ "e+" ++ exponent
  | String d rest => String d EmptyString ++ "." ++ rest ++ "e+" ++ exponent
  | EmptyString => EmptyString
  end.

(** [x.toFixed(digits)]: the text of [Number::toString] for NaN, the
    infinities and magnitudes of 10^21 and more, fixed notation below. *)
Definition toFixed (x : float) (digits : nat) : string :=
  match F2Q x with
  | Some q =>
      let negative := PrimFloat.ltb x PrimFloat.zero in
      let magnitude := if negative then Qopp q else q in
      let text :=
        if Qle_bool (inject_Z (pow10 21)) magnitude
        then exponentialText (PrimFloat.abs x) (Qfloor magnitude)
        else toFixedQ magnitude digits in
      if negative then "-" ++ text else text
  | None =>
      if is_nan x then "NaN"
      else if PrimFloat.ltb x PrimFloat.zero then "-Infinity" else "Infinity"
  end.

Definition parseFloat (s : string) : float :=
  match parseFloatText s with
  | PNaN => nan
  | PInfinity neg => if neg then PrimFloat.neg_infinity else PrimFloat.infinity
  | PDecimal neg q =>
      match Qnum q with
      | Z0 => if neg then PrimFloat.neg_zero else PrimFloat.zero
      | _ => Q2F (if neg then Qopp q else q)
      end
  end.

Definition truthy (x : float) : bool := negb (is_nan x || is_zero x).

End Binary64.

#[export] Instance Binary64Numbers : NumberModel float := {
  lit := Binary64.Q2F;
  add := PrimFloat.add;
  sub := PrimFloat.sub;
  mul := PrimFloat.mul;
  div := PrimFloat.div;
  ltb := PrimFloat.ltb;
  leb := PrimFloat.leb;
  truthy := Binary64.truthy;
  Math_max := Binary64.max;
  Math_min := Binary64.min;
  Math_round := Binary64.round;
  toFixed := Binary64.toFixed;
  parseFloat := Binary64.parseFloat
}.

(** *** Exact rational arithmetic *)

Module Exact.

Definition round (x : Q) : Q := inject_Z (roundHalfUp x).

Definition toFixed (x : Q) (digits : nat) : string :=
  if (Qnum x <? 0)%Z then "-" ++ toFixedQ (Qopp x) digits
  else toFixedQ x digits.

(** There is no NaN and no infinity here: text that [parseFloat] cannot read
    as a decimal is read as 0. *)
Definition parseFloat (s : string) : Q :=
  match parseFloatText s with
  | PDecimal neg q => if neg then Qopp q else q
  | _ => 0%Q
  end.

Definition truthy (x : Q) : bool := negb (Qeq_bool x 0).

End Exact.

#[export] Instance ExactNumbers : NumberModel Q := {
  lit := fun q => q;
  add := Qplus;
  sub := Qminus;
  mul := Qmult;
  div := Qdiv;
  ltb := fun x y => negb (Qle_bool y x);
  leb := Qle_bool;
  truthy := Exact.truthy;
  Math_max := Qmax;
  Math_min := Qmin;
  Math_round := Exact.round;
  toFixed := Exact.toFixed;
  parseFloat := Exact.parseFloat
}.

(** ** Data model *)

Set Implicit Arguments.

(** The five factor weights ([baseWeights] in the source). *)
Module Weights.
Record t (num : Type) : Type := mk {
  paymentHistory : num;
  utilization : num;
  accountAge : num;
  creditMix : num;
  newCredit : num
}.
End Weights.

(** A value found in a numeric field of the record handed to
    [runSimulation].  A string is given by what [Number] makes of it: the
    blank field [''] reads 0, ["70"] reads 70, and text that is not a number
    does not read at all (NaN). *)
Inductive JsValue (num : Type) : Type :=
| JsUndefined
| JsNull
| JsBoolean (b : bool)
| JsNumber (x : num)
| JsText (reads : option num).
Arguments JsUndefined {num}.
Arguments JsNull {num}.
Arguments JsBoolean {num}.
Arguments JsNumber {num}.
Arguments JsText {num}.

(** The fields of [userData] the engine reads. *)
Module UserData.
Record t (num : Type) : Type := mk {
  ficoScore : JsValue num;
  totalDebt : JsValue num;
  monthlyIncome : JsValue num;
  utilization : JsValue num;
  accountsEnrolling : JsValue num;
  positiveAccounts : JsValue num;
  oldestAccountAge : JsValue num;
  programTimeline : JsValue num;
  totalCreditLimit : JsValue num;
  monthsInProgram : JsValue num;
  scenarioType : string;
  securedCard : bool;
  creditBuilder : bool;
  authorizedUser : bool
}.
End UserData.

(** [numericData]: the same record after the coercions of [runSimulation]. *)
Module NumericData.
Record t (num : Type) : Type := mk {
  ficoScore : num;
  totalDebt : num;
  monthlyIncome : num;
  utilization : num;
  accountsEnrolling : num;
  positiveAccounts : num;
  oldestAccountAge : num;
  programTimeline : num;
  totalCreditLimit : num;
  monthsInProgram : num;
  scenarioType : string;
  securedCard : bool;
  creditBuilder : bool;
  authorizedUser : bool
}.
End NumericData.

(** The record [runSimulation] returns.  Its [recoveryTime] field, the text
    [`${recoveryMonths} months`], repeats [recoveryMonths] and is left out. *)
Module Results.
Record t (num : Type) : Type := mk {
  initialScore : num;
  lowPointScore : num;
  projectedScore : num;
  scoreGain : num;
  postDTI : string;
  savings : num;
  impactPenalty : num;
  recoveryMonths : num;
  weights : Weights.t num;
  milestoneDipScore : num;
  milestoneStabilizationScore : num;
  milestoneRecoveryScore : num
}.
End Results.

Unset Implicit Arguments.

(** ** The engine *)

Section Engine.

Context {num : Type} `{NumberModel num}.

Local Open Scope js_scope.

(** [Number(v)]; [None] is a NaN that comes from the conversion itself. *)
Definition Number (v : JsValue num) : option num :=
  match v with
  | JsUndefined => None
  | JsNull => Some (lit 0)
  | JsBoolean b => Some (if b then lit 1 else lit 0)
  | JsNumber x => Some x
  | JsText reads => reads
  end.

(** [n || d] on the result of [Number]: [d] when [n] is 0 or NaN. *)
Definition orElse (n : option num) (d : num) : num :=
  match n with
  | Some x => if truthy x then x else d
  | None => d
  end.

Definition baseWeights : Weights.t num :=
  {| Weights.paymentHistory := lit 0.35;
     Weights.utilization := lit 0.30;
     Weights.accountAge := lit 0.15;
     Weights.creditMix := lit 0.10;
     Weights.newCredit := lit 0.10 |}.

(** The assignments made in each branch of the rules below. *)
Definition highTier (w : Weights.t num) : Weights.t num :=
  {| Weights.paymentHistory := lit 0.25;
     Weights.utilization := lit 0.40;
     Weights.accountAge := lit 0.20;
     Weights.creditMix := Weights.creditMix w;
     Weights.newCredit := Weights.newCredit w |}.

Definition lowTier (w : Weights.t num) : Weights.t num :=
  {| Weights.paymentHistory := lit 0.45;
     Weights.utilization := lit 0.25;
     Weights.accountAge := Weights.accountAge w;
     Weights.creditMix := Weights.creditMix w;
     Weights.newCredit := lit 0.15 |}.

Definition highDti (w : Weights.t num) : Weights.t num :=
  let utilization := Math_min (lit 0.45) (Weights.utilization w + lit 0.05) in
  let paymentHistory := Math_max (lit 0.25) (Weights.paymentHistory w - lit 0.05) in
  {| Weights.paymentHistory := paymentHistory;
     Weights.utilization := utilization;
     Weights.accountAge := Weights.accountAge w;
     Weights.creditMix := Weights.creditMix w;
     Weights.newCredit := Weights.newCredit w |}.

Definition lowOverallUtilization (w : Weights.t num) : Weights.t num :=
  {| Weights.paymentHistory := Weights.paymentHistory w;
     Weights.utilization := Math_max (lit 0.20) (Weights.utilization w - lit 0.05);
     Weights.accountAge := Weights.accountAge w;
     Weights.creditMix := Weights.creditMix w;
     Weights.newCredit := Weights.newCredit w |}.

Definition positiveAnchor (w : Weights.t num) : Weights.t num :=
  let paymentHistory := Math_max (lit 0.30) (Weights.paymentHistory w - lit 0.05) in
  let creditMix := Math_min (lit 0.20) (Weights.creditMix w + lit 0.05) in
  {| Weights.paymentHistory := paymentHistory;
     Weights.utilization := Weights.utilization w;
     Weights.accountAge := Weights.accountAge w;
     Weights.creditMix := creditMix;
     Weights.newCredit := Weights.newCredit w |}.

Definition youngAccounts (w : Weights.t num) : Weights.t num :=
  let accountAge := Math_max (lit 0.05) (Weights.accountAge w - lit 0.05) in
  let newCredit := Math_min (lit 0.20) (Weights.newCredit w + lit 0.05) in
  {| Weights.paymentHistory := Weights.paymentHistory w;
     Weights.utilization := Weights.utilization w;
     Weights.accountAge := accountAge;
     Weights.creditMix := Weights.creditMix w;
     Weights.newCredit := newCredit |}.

Definition oldAccounts (w : Weights.t num) : Weights.t num :=
  {| Weights.paymentHistory := Weights.paymentHistory w;
     Weights.utilization := Weights.utilization w;
     Weights.accountAge := Math_min (lit 0.25) (Weights.accountAge w + lit 0.05);
     Weights.creditMix := Weights.creditMix w;
     Weights.newCredit := Weights.newCredit w |}.

Definition unchanged (w : Weights.t num) : Weights.t num := w.

(** 1. Adjust for FICO tier. *)
Definition tierRule (ficoScore : num) (w : Weights.t num) : Weights.t num :=
  if ficoScore >= lit 740 then highTier w
  else if ficoScore <= lit 580 then lowTier w
  else unchanged w.

(** [dti] of the source: the ratio of debt to yearly income, 1 when there is
    no income. *)
Definition debtToIncome (totalDebt monthlyIncome : num) : num :=
  if monthlyIncome > lit 0 then totalDebt / (monthlyIncome * lit 12) else lit 1.

(** 2. Adjust for DTI. *)
Definition dtiRule (totalDebt monthlyIncome : num) (w : Weights.t num)
  : Weights.t num :=
  let dti := debtToIncome totalDebt monthlyIncome in
  if dti > lit 0.45 then highDti w else unchanged w.

(** Check overall utilization if a limit is provided. *)
Definition overallUtilizationRule (totalDebt totalCreditLimit : num)
  (w : Weights.t num) : Weights.t num :=
  if totalCreditLimit > lit 0 then
    let trueOverallUtilization := (totalDebt / totalCreditLimit) * lit 100 in
    if trueOverallUtilization < lit 30 then lowOverallUtilization w
    else unchanged w
  else unchanged w.

(** 3. Adjust for profile anchors (positive accounts). *)
Definition anchorRule (positiveAccounts : num) (w : Weights.t num)
  : Weights.t num :=
  if positiveAccounts > lit 0 then positiveAnchor w else unchanged w.

(** 4. Adjust for account age. *)
Definition ageRule (oldestAccountAge : num) (w : Weights.t num)
  : Weights.t num :=
  if oldestAccountAge < lit 4 then youngAccounts w
  else if oldestAccountAge > lit 10 then oldAccounts w
  else unchanged w.

(** The weights as they stand before step 5, after the rules have been
    applied in the order of the source. *)
Definition adjustWeights
  (ficoScore totalDebt monthlyIncome positiveAccounts oldestAccountAge
     totalCreditLimit : num) : Weights.t num :=
  ageRule oldestAccountAge
    (anchorRule positiveAccounts
       (overallUtilizationRule totalDebt totalCreditLimit
          (dtiRule totalDebt monthlyIncome
             (tierRule ficoScore baseWeights)))).

(** Every way the rules can fall out: one branch per rule. *)
Definition tierChoices : list (Weights.t num -> Weights.t num) :=
  [highTier; lowTier; unchanged].
Definition dtiChoices : list (Weights.t num -> Weights.t num) :=
  [highDti; unchanged].
Definition overallUtilizationChoices : list (Weights.t num -> Weights.t num) :=
  [lowOverallUtilization; unchanged].
Definition anchorChoices : list (Weights.t num -> Weights.t num) :=
  [positiveAnchor; unchanged].
Definition ageChoices : list (Weights.t num -> Weights.t num) :=
  [youngAccounts; oldAccounts; unchanged].

Definition allAdjusted : list (Weights.t num) :=
  flat_map (fun t =>
  flat_map (fun d =>
  flat_map (fun o =>
  flat_map (fun p =>
  map (fun a => a (p (o (d (t baseWeights))))) ageChoices)
    anchorChoices) overallUtilizationChoices) dtiChoices) tierChoices.

(** [Object.values(baseWeights).reduce((a, b) => a + b, 0)], in key order. *)
Definition sumWeights (w : Weights.t num) : num :=
  fold_left add
    [Weights.paymentHistory w; Weights.utilization w; Weights.accountAge w;
     Weights.creditMix w; Weights.newCredit w]
    (lit 0).

(** 5. Normalize: each weight is divided by the sum taken before the loop
    and rounded to four decimals through [toFixed] and [parseFloat]. *)
Definition normalizeWeights (w : Weights.t num) : Weights.t num :=
  let sum := sumWeights w in
  let norm := fun x => parseFloat (toFixed (x / sum) 4) in
  {| Weights.paymentHistory := norm (Weights.paymentHistory w);
     Weights.utilization := norm (Weights.utilization w);
     Weights.accountAge := norm (Weights.accountAge w);
     Weights.creditMix := norm (Weights.creditMix w);
     Weights.newCredit := norm (Weights.newCredit w) |}.

Definition calculateWeights
  (ficoScore totalDebt monthlyIncome positiveAccounts oldestAccountAge
     totalCreditLimit : num) : Weights.t num :=
  normalizeWeights
    (adjustWeights ficoScore totalDebt monthlyIncome positiveAccounts
       oldestAccountAge totalCreditLimit).

(** The value of [drop] when [calculateWorstCaseImpact] reaches its last
    line. *)
Definition rawDrop (data : NumericData.t num) (weights : Weights.t num) : num :=
  let drop := lit 0 in
  let utilizationFactor :=
    Math_max (lit 0) ((lit 100 - NumericData.utilization data) / lit 10) in
  let drop := drop + utilizationFactor * lit 5 * (Weights.utilization weights * lit 2) in
  let severityFactor :=
    Math_max (lit 0) ((NumericData.ficoScore data - lit 500) / lit 20) in
  let drop := drop + severityFactor * lit 5 in
  let drop := drop - NumericData.positiveAccounts data * lit 10 in
  if NumericData.oldestAccountAge data > lit 10 then drop - lit 15 else drop.

Definition calculateWorstCaseImpact (data : NumericData.t num)
  (weights : Weights.t num) : num :=
  Math_min (lit 150) (Math_max (lit 20) (Math_round (rawDrop data weights))).

(** "Ensure all data is numeric for calculation". *)
Definition numericData (data : UserData.t num) : NumericData.t num :=
  {| NumericData.ficoScore := orElse (Number (UserData.ficoScore data)) (lit 0);
     NumericData.totalDebt := orElse (Number (UserData.totalDebt data)) (lit 0);
     NumericData.monthlyIncome := orElse (Number (UserData.monthlyIncome data)) (lit 0);
     NumericData.utilization := orElse (Number (UserData.utilization data)) (lit 0);
     NumericData.accountsEnrolling := orElse (Number (UserData.accountsEnrolling data)) (lit 0);
     NumericData.positiveAccounts := orElse (Number (UserData.positiveAccounts data)) (lit 0);
     NumericData.oldestAccountAge := orElse (Number (UserData.oldestAccountAge data)) (lit 0);
     NumericData.programTimeline := orElse (Number (UserData.programTimeline data)) (lit 36);
     NumericData.totalCreditLimit := orElse (Number (UserData.totalCreditLimit data)) (lit 0);
     NumericData.monthsInProgram := orElse (Number (UserData.monthsInProgram data)) (lit 0);
     NumericData.scenarioType := UserData.scenarioType data;
     NumericData.securedCard := UserData.securedCard data;
     NumericData.creditBuilder := UserData.creditBuilder data;
     NumericData.authorizedUser := UserData.authorizedUser data |}.

(** The call [calculateWeights(numericData.ficoScore, ...)]. *)
Definition weightsOf (numericData : NumericData.t num) : Weights.t num :=
  calculateWeights
    (NumericData.ficoScore numericData)
    (NumericData.totalDebt numericData)
    (NumericData.monthlyIncome numericData)
    (NumericData.positiveAccounts numericData)
    (NumericData.oldestAccountAge numericData)
    (NumericData.totalCreditLimit numericData).

(** The two branches on [scenarioType]: the values they leave in
    [lowPointScore], [recoveryMonths] and [impactPenalty]. *)
Definition scenarioBranch (numericData : NumericData.t num)
  (weights : Weights.t num) : num * num * num :=
  let initialScore := NumericData.ficoScore numericData in
  if String.eqb (NumericData.scenarioType numericData) "pre-enrollment" then
    let impactPenalty := calculateWorstCaseImpact numericData weights in
    let lowPointScore := Math_max (lit 300) (initialScore - impactPenalty) in
    (lowPointScore, NumericData.programTimeline numericData, impactPenalty)
  else
    let lowPointScore := initialScore in
    let recoveryMonths :=
      Math_max (lit 12)
        (NumericData.programTimeline numericData
         - NumericData.monthsInProgram numericData) in
    (lowPointScore, recoveryMonths, lit 0).

(** "Calculate Potential Gain". *)
Definition potentialGain (numericData : NumericData.t num)
  (weights : Weights.t num) (recoveryMonths : num) : num :=
  let totalPotentialGain := lit 0 in
  let totalPotentialGain :=
    totalPotentialGain + Weights.utilization weights * lit 250 in
  let historyGain :=
    (Weights.paymentHistory weights * lit 150) * (recoveryMonths / lit 36) in
  let totalPotentialGain := totalPotentialGain + historyGain in
  let totalPotentialGain :=
    totalPotentialGain
    + (Weights.accountAge weights * lit 50) * (recoveryMonths / lit 36) in
  let toolGain := lit 0 in
  let toolGain :=
    if NumericData.securedCard numericData then toolGain + lit 30 else toolGain in
  let toolGain :=
    if NumericData.creditBuilder numericData then toolGain + lit 25 else toolGain in
  let toolGain :=
    if NumericData.authorizedUser numericData then toolGain + lit 10 else toolGain in
  totalPotentialGain + toolGain.

(** "Calculate Financials": [postDTI] before it is capped and printed. *)
Definition postDTIOf (numericData : NumericData.t num) (debtSavings : num) : num :=
  let postProgramDebt := NumericData.totalDebt numericData - debtSavings in
  let annualPostDebtPayment := postProgramDebt * lit 0.05 in
  let monthlyPostDebtPayment := annualPostDebtPayment / lit 12 in
  if NumericData.monthlyIncome numericData > lit 0 then
    (monthlyPostDebtPayment / NumericData.monthlyIncome numericData) * lit 100
  else lit 0.

(** The part of [runSimulation] that follows the coercions. *)
Definition simulate (numericData : NumericData.t num) : Results.t num :=
  let initialScore := NumericData.ficoScore numericData in
  let weights := weightsOf numericData in
  let '(lowPointScore, recoveryMonths, impactPenalty) :=
    scenarioBranch numericData weights in
  let totalPotentialGain := potentialGain numericData weights recoveryMonths in
  let projectedScore :=
    Math_min (lit 850) (Math_round (lowPointScore + totalPotentialGain)) in
  let debtSavings := NumericData.totalDebt numericData * lit 0.55 in
  let postDTI := postDTIOf numericData debtSavings in
  let totalGain := projectedScore - lowPointScore in
  let stabilizationScore :=
    Math_min initialScore (lowPointScore + Math_round (totalGain * lit 0.15)) in
  let recoveryScore := lowPointScore + Math_round (totalGain * lit 0.65) in
  {| Results.initialScore := initialScore;
     Results.lowPointScore := lowPointScore;
     Results.projectedScore := projectedScore;
     Results.scoreGain := projectedScore - initialScore;
     Results.postDTI := toFixed (Math_min (lit 50) postDTI) 1;
     Results.savings := debtSavings;
     Results.impactPenalty := impactPenalty;
     Results.recoveryMonths := recoveryMonths;
     Results.weights := weights;
     Results.milestoneDipScore := lowPointScore;
     Results.milestoneStabilizationScore := stabilizationScore;
     Results.milestoneRecoveryScore := recoveryScore |}.

Definition runSimulation (data : UserData.t num) : Results.t num :=
  simulate (numericData data).

End Engine.

(** ** Properties stated on the results *)

Section Bounds.

Context {num : Type} `{NumberModel num}.

Local Open Scope js_scope.

(** The clamp ranges of the rules of [calculateWeights]. *)
Definition withinClampBounds (w : Weights.t num) : bool :=
  (lit 0.25 <= Weights.paymentHistory w)
  && (lit 0.20 <= Weights.utilization w) && (Weights.utilization w <= lit 0.45)
  && (lit 0.05 <= Weights.accountAge w) && (Weights.accountAge w <= lit 0.25)
  && (Weights.creditMix w <= lit 0.20)
  && (Weights.newCredit w <= lit 0.20).

(** [a] and [b] compare equal. *)
Definition sameNumber (a b : num) : bool := (a <= b) && (b <= a).

Definition oneOf (choices : list Q) (x : num) : bool :=
  existsb (fun c => sameNumber x (lit c)) choices.

(** The precondition contract of the calling layer ([handleNext] and the
    option lists of the form), read on the coerced record. *)
Definition withinContract (d : NumericData.t num) : bool :=
  (lit 300 <= NumericData.ficoScore d) && (NumericData.ficoScore d <= lit 850)
  && (NumericData.totalDebt d > lit 1000)
  && (NumericData.accountsEnrolling d >= lit 1)
  && (NumericData.monthlyIncome d > lit 0)
  && oneOf [30; 50; 70; 90; 100] (NumericData.utilization d)
  && (NumericData.positiveAccounts d >= lit 0)
  && (NumericData.oldestAccountAge d >= lit 0)
  && (NumericData.totalCreditLimit d >= lit 0)
  && oneOf [12; 24; 36; 48; 60] (NumericData.programTimeline d)
  && (if String.eqb (NumericData.scenarioType d) "progress-tracker"
      then NumericData.monthsInProgram d > lit 0 else true).

(** The ten coerced fields, in the order of the source. *)
Definition numericFields (d : NumericData.t num) : list num :=
  [NumericData.ficoScore d; NumericData.totalDebt d;
   NumericData.monthlyIncome d; NumericData.utilization d;
   NumericData.accountsEnrolling d; NumericData.positiveAccounts d;
   NumericData.oldestAccountAge d; NumericData.programTimeline d;
   NumericData.totalCreditLimit d; NumericData.monthsInProgram d].

Definition nonNegativeWeights (w : Weights.t num) : bool :=
  (lit 0 <= Weights.paymentHistory w) && (lit 0 <= Weights.utilization w)
  && (lit 0 <= Weights.accountAge w) && (lit 0 <= Weights.creditMix w)
  && (lit 0 <= Weights.newCredit w).

End Bounds.

(** The sum of five doubles as a rational, without rounding. *)
Definition exactSum (w : Weights.t float) : option Q :=
  match Binary64.F2Q (Weights.paymentHistory w),
        Binary64.F2Q (Weights.utilization w),
        Binary64.F2Q (Weights.accountAge w),
        Binary64.F2Q (Weights.creditMix w),
        Binary64.F2Q (Weights.newCredit w) with
  | Some a, Some b, Some c, Some d, Some e => Some (Qred (a + b + c + d + e))
  | _, _, _, _, _ => None
  end.

Definition sumsToOneWithin (tolerance : Q) (w : Weights.t float) : bool :=
  match exactSum w with
  | Some s => Qle_bool (1 - tolerance) s && Qle_bool s (1 + tolerance)
  | None => false
  end.

Definition scenarioA : UserData.t float :=
  {| UserData.ficoScore := JsNumber 650%float;
     UserData.totalDebt := JsNumber 20000%float;
     UserData.monthlyIncome := JsNumber 4000%float;
     UserData.utilization := JsText (Some 70%float);
     UserData.accountsEnrolling := JsNumber 1%float;
     UserData.positiveAccounts := JsNumber 1%float;
     UserData.oldestAccountAge := JsNumber 8%float;
     UserData.programTimeline := JsNumber 36%float;
     UserData.totalCreditLimit := JsNumber 30000%float;
     UserData.monthsInProgram := JsNumber 0%float;
     UserData.scenarioType := "pre-enrollment";
     UserData.securedCard := true;
     UserData.creditBuilder := true;
     UserData.authorizedUser := false |}.

(** Scenario B: the profile of scenario A, twelve months into the program. *)
Definition scenarioB : UserData.t float :=
  {| UserData.ficoScore := JsNumber 650%float;
     UserData.totalDebt := JsNumber 20000%float;
     UserData.monthlyIncome := JsNumber 4000%float;
     UserData.utilization := JsText (Some 70%float);
     UserData.accountsEnrolling := JsNumber 1%float;
     UserData.positiveAccounts := JsNumber 1%float;
     UserData.oldestAccountAge := JsNumber 8%float;
     UserData.programTimeline := JsNumber 36%float;
     UserData.totalCreditLimit := JsNumber 30000%float;
     UserData.monthsInProgram := JsNumber 12%float;
     UserData.scenarioType := "progress-tracker";
     UserData.securedCard := true;
     UserData.creditBuilder := true;
     UserData.authorizedUser := false |}.

(** A profile of the lowest tier with little debt against its credit limit
    and an old account: ficoScore 580, totalDebt 2000, monthlyIncome 4000,
    positiveAccounts 0, oldestAccountAge 12, totalCreditLimit 10000. *)
Definition lowTierLowUtilization : Weights.t float :=
  calculateWeights 580%float 2000%float 4000%float 0%float 12%float 10000%float.

(** Scenario A with two infinite fields: utilization -Infinity and
    positiveAccounts Infinity. *)
Definition infiniteProfile : UserData.t float :=
  {| UserData.ficoScore := JsNumber 650%float;
     UserData.totalDebt := JsNumber 20000%float;
     UserData.monthlyIncome := JsNumber 4000%float;
     UserData.utilization := JsNumber neg_infinity;
     UserData.accountsEnrolling := JsNumber 1%float;
     UserData.positiveAccounts := JsNumber infinity;
     UserData.oldestAccountAge := JsNumber 8%float;
     UserData.programTimeline := JsNumber 36%float;
     UserData.totalCreditLimit := JsNumber 30000%float;
     UserData.monthsInProgram := JsNumber 0%float;
     UserData.scenarioType := "pre-enrollment";
     UserData.securedCard := true;
     UserData.creditBuilder := true;
     UserData.authorizedUser := false |}.

(** Scenario A with one infinite field: utilization -Infinity. *)
Definition infiniteUtilization : UserData.t float :=
  {| UserData.ficoScore := JsNumber 650%float;
     UserData.totalDebt := JsNumber 20000%float;
     UserData.monthlyIncome := JsNumber 4000%float;
     UserData.utilization := JsNumber neg_infinity;
     UserData.accountsEnrolling := JsNumber 1%float;
     UserData.positiveAccounts := JsNumber 1%float;
     UserData.oldestAccountAge := JsNumber 8%float;
     UserData.programTimeline := JsNumber 36%float;
     UserData.totalCreditLimit := JsNumber 30000%float;
     UserData.monthsInProgram := JsNumber 0%float;
     UserData.scenarioType := "pre-enrollment";
     UserData.securedCard := true;
     UserData.creditBuilder := true;
     UserData.authorizedUser := false |}.


(** The numeric literals of the engine, as rationals. *)
Definition sourceLiterals : list Q :=
  [0.35; 0.30; 0.15; 0.10; 0.25; 0.40; 0.20; 0.45; 0.05; 0.55; 0.65;
   740; 580; 12; 100; 30; 10; 5; 2; 500; 20; 15; 150; 36; 300; 250; 50; 25;
   850; 4; 0; 1]%Q.

(** The progress-tracker scenario B with a ficoScore of 250. *)
Definition lowScoreTracker : UserData.t float :=
  {| UserData.ficoScore := JsNumber 250%float;
     UserData.totalDebt := JsNumber 20000%float;
     UserData.monthlyIncome := JsNumber 4000%float;
     UserData.utilization := JsText (Some 70%float);
     UserData.accountsEnrolling := JsNumber 1%float;
     UserData.positiveAccounts := JsNumber 1%float;
     UserData.oldestAccountAge := JsNumber 8%float;
     UserData.programTimeline := JsNumber 36%float;
     UserData.totalCreditLimit := JsNumber 30000%float;
     UserData.monthsInProgram := JsNumber 12%float;
     UserData.scenarioType := "progress-tracker";
     UserData.securedCard := true;
     UserData.creditBuilder := true;
     UserData.authorizedUser := false |}.

(** The progress-tracker scenario B with a ficoScore of 900. *)
Definition highScoreTracker : UserData.t float :=
  {| UserData.ficoScore := JsNumber 900%float;
     UserData.totalDebt := JsNumber 20000%float;
     UserData.monthlyIncome := JsNumber 4000%float;
     UserData.utilization := JsText (Some 70%float);
     UserData.accountsEnrolling := JsNumber 1%float;
     UserData.positiveAccounts := JsNumber 1%float;
     UserData.oldestAccountAge := JsNumber 8%float;
     UserData.programTimeline := JsNumber 36%float;
     UserData.totalCreditLimit := JsNumber 30000%float;
     UserData.monthsInProgram := JsNumber 12%float;
     UserData.scenarioType := "progress-tracker";
     UserData.securedCard := true;
     UserData.creditBuilder := true;
     UserData.authorizedUser := false |}.

(** A valid pre-enrollment profile: the top score, the shortest timeline, no
    positive account and no credit-building tool. *)
Definition topScoreShortTimeline : UserData.t float :=
  {| UserData.ficoScore := JsNumber 850%float;
     UserData.totalDebt := JsNumber 20000%float;
     UserData.monthlyIncome := JsNumber 4000%float;
     UserData.utilization := JsText (Some 30%float);
     UserData.accountsEnrolling := JsNumber 1%float;
     UserData.positiveAccounts := JsNumber 0%float;
     UserData.oldestAccountAge := JsNumber 5%float;
     UserData.programTimeline := JsNumber 12%float;
     UserData.totalCreditLimit := JsNumber 0%float;
     UserData.monthsInProgram := JsNumber 0%float;
     UserData.scenarioType := "pre-enrollment";
     UserData.securedCard := false;
     UserData.creditBuilder := false;
     UserData.authorizedUser := false |}.


(** The progress-tracker scenario B with a ficoScore of 849.2. *)
Definition fractionalScoreTracker : UserData.t float :=
  {| UserData.ficoScore := JsNumber 849.2%float;
     UserData.totalDebt := JsNumber 20000%float;
     UserData.monthlyIncome := JsNumber 4000%float;
     UserData.utilization := JsText (Some 70%float);
     UserData.accountsEnrolling := JsNumber 1%float;
     UserData.positiveAccounts := JsNumber 1%float;
     UserData.oldestAccountAge := JsNumber 8%float;
     UserData.programTimeline := JsNumber 36%float;
     UserData.totalCreditLimit := JsNumber 30000%float;
     UserData.monthsInProgram := JsNumber 12%float;
     UserData.scenarioType := "progress-tracker";
     UserData.securedCard := true;
     UserData.creditBuilder := true;
     UserData.authorizedUser := false |}.

(** A double that is finite and above zero. *)
Definition isPositiveFinite (x : float) : bool :=
  match Prim2SF x with
  | S754_finite false _ _ => true
  | _ => false
  end.

(** ** The engine with its objects

    [calculateWeights] builds the object [baseWeights] and writes to it,
    property by property, before it returns it; [runSimulation] reads the
    weights through that reference and returns it in its result.  Here the
    three functions are written a second time, statement by statement, over
    a store of such objects: a reference is the position of an object in the
    store, an object literal appends a fresh object, and a property is read
    and written in place.  The record handed in is only read, and
    [numericData] and the result are built by one object literal each and
    never written, so they stay values. *)

Module Objects.

Section WithNumbers.

Context {num : Type} `{NumberModel num}.

Local Open Scope js_scope.

(** The keys of [baseWeights], in the order of the object literal. *)
Inductive Key : Type :=
| paymentHistory
| utilization
| accountAge
| creditMix
| newCredit.

Definition keys : list Key :=
  [paymentHistory; utilization; accountAge; creditMix; newCredit].

Definition getKey (k : Key) (o : Weights.t num) : num :=
  match k with
  | paymentHistory => Weights.paymentHistory o
  | utilization => Weights.utilization o
  | accountAge => Weights.accountAge o
  | creditMix => Weights.creditMix o
  | newCredit => Weights.newCredit o
  end.

Definition setKey (k : Key) (x : num) (o : Weights.t num) : Weights.t num :=
  match k with
  | paymentHistory =>
      {| Weights.paymentHistory := x;
         Weights.utilization := Weights.utilization o;
         Weights.accountAge := Weights.accountAge o;
         Weights.creditMix := Weights.creditMix o;
         Weights.newCredit := Weights.newCredit o |}
  | utilization =>
      {| Weights.paymentHistory := Weights.paymentHistory o;
         Weights.utilization := x;
         Weights.accountAge := Weights.accountAge o;
         Weights.creditMix := Weights.creditMix o;
         Weights.newCredit := Weights.newCredit o |}
  | accountAge =>
      {| Weights.paymentHistory := Weights.paymentHistory o;
         Weights.utilization := Weights.utilization o;
         Weights.accountAge := x;
         Weights.creditMix := Weights.creditMix o;
         Weights.newCredit := Weights.newCredit o |}
  | creditMix =>
      {| Weights.paymentHistory := Weights.paymentHistory o;
         Weights.utilization := Weights.utilization o;
         Weights.accountAge := Weights.accountAge o;
         Weights.creditMix := x;
         Weights.newCredit := Weights.newCredit o |}
  | newCredit =>
      {| Weights.paymentHistory := Weights.paymentHistory o;
         Weights.utilization := Weights.utilization o;
         Weights.accountAge := Weights.accountAge o;
         Weights.creditMix := Weights.creditMix o;
         Weights.newCredit := x |}
  end.

(** The store: the objects allocated so far, oldest first. *)
Definition Store : Type := list (Weights.t num).

Definition Ref : Type := nat.

Fixpoint replaceAt (r : Ref) (o : Weights.t num) (s : Store) : Store :=
  match s, r with
  | [], _ => []
  | _ :: rest, O => o :: rest
  | first :: rest, S r' => first :: replaceAt r' o rest
  end.

(** A computation on the store; [None] is a read or a write through a
    reference that points at nothing. *)
Definition Run (A : Type) : Type := Store -> option (A * Store).

Definition ret {A : Type} (a : A) : Run A := fun s => Some (a, s).

Definition bind {A B : Type} (m : Run A) (k : A -> Run B) : Run B :=
  fun s =>
    match m s with
    | Some (a, s') => k a s'
    | None => None
    end.

Definition andThen {B : Type} (m : Run unit) (k : Run B) : Run B :=
  bind m (fun _ => k).

(** An object literal. *)
Definition newObject (o : Weights.t num) : Run Ref :=
  fun s => Some (List.length s, (s ++ [o])%list).

(** [ref.key] *)
Definition readKey (ref : Ref) (k : Key) : Run num :=
  fun s =>
    match nth_error s ref with
    | Some o => Some (getKey k o, s)
    | None => None
    end.

(** [ref.key = x] *)
Definition writeKey (ref : Ref) (k : Key) (x : num) : Run unit :=
  fun s =>
    match nth_error s ref with
    | Some o => Some (tt, replaceAt ref (setKey k x o) s)
    | None => None
    end.

Definition skip : Run unit := ret tt.

(** [Object.values(ref)] *)
Fixpoint readKeys (ref : Ref) (ks : list Key) : Run (list num) :=
  match ks with
  | [] => ret []
  | k :: rest =>
      bind (readKey ref k) (fun x =>
      bind (readKeys ref rest) (fun xs => ret (x :: xs)))
  end.

(** [for (const key in ref) body(key)] *)
Fixpoint forKeys (ks : list Key) (body : Key -> Run unit) : Run unit :=
  match ks with
  | [] => skip
  | k :: rest => andThen (body k) (forKeys rest body)
  end.

Notation "x <- m ;; k" := (bind m (fun x => k))
  (at level 61, m at next level, right associativity).
Notation "m ;;; k" := (andThen m k) (at level 61, right associativity).

(** 1. Adjust for FICO tier. *)
Definition adjustForTier (baseWeights : Ref) (ficoScore : num) : Run unit :=
  if ficoScore >= lit 740 then
    writeKey baseWeights paymentHistory (lit 0.25) ;;;
    writeKey baseWeights utilization (lit 0.40) ;;;
    writeKey baseWeights accountAge (lit 0.20)
  else if ficoScore <= lit 580 then
    writeKey baseWeights paymentHistory (lit 0.45) ;;;
    writeKey baseWeights utilization (lit 0.25) ;;;
    writeKey baseWeights newCredit (lit 0.15)
  else skip.

(** 2. Adjust for DTI. *)
Definition adjustForDti (baseWeights : Ref) (totalDebt monthlyIncome : num)
  : Run unit :=
  let dti :=
    if monthlyIncome > lit 0 then totalDebt / (monthlyIncome * lit 12)
    else lit 1 in
  if dti > lit 0.45 then
    u <- readKey baseWeights utilization ;;
    writeKey baseWeights utilization (Math_min (lit 0.45) (u + lit 0.05)) ;;;
    p <- readKey baseWeights paymentHistory ;;
    writeKey baseWeights paymentHistory (Math_max (lit 0.25) (p - lit 0.05))
  else skip.

(** Check overall utilization if a limit is provided. *)
Definition adjustForOverallUtilization (baseWeights : Ref)
  (totalDebt totalCreditLimit : num) : Run unit :=
  if totalCreditLimit > lit 0 then
    let trueOverallUtilization := (totalDebt / totalCreditLimit) * lit 100 in
    if trueOverallUtilization < lit 30 then
      u <- readKey baseWeights utilization ;;
      writeKey baseWeights utilization (Math_max (lit 0.20) (u - lit 0.05))
    else skip
  else skip.

(** 3. Adjust for profile anchors (positive accounts). *)
Definition adjustForAnchors (baseWeights : Ref) (positiveAccounts : num)
  : Run unit :=
  if positiveAccounts > lit 0 then
    p <- readKey baseWeights paymentHistory ;;
    writeKey baseWeights paymentHistory (Math_max (lit 0.30) (p - lit 0.05)) ;;;
    c <- readKey baseWeights creditMix ;;
    writeKey baseWeights creditMix (Math_min (lit 0.20) (c + lit 0.05))
  else skip.

(** 4. Adjust for account age. *)
Definition adjustForAge (baseWeights : Ref) (oldestAccountAge : num)
  : Run unit :=
  if oldestAccountAge < lit 4 then
    a <- readKey baseWeights accountAge ;;
    writeKey baseWeights accountAge (Math_max (lit 0.05) (a - lit 0.05)) ;;;
    n <- readKey baseWeights newCredit ;;
    writeKey baseWeights newCredit (Math_min (lit 0.20) (n + lit 0.05))
  else if oldestAccountAge > lit 10 then
    a <- readKey baseWeights accountAge ;;
    writeKey baseWeights accountAge (Math_min (lit 0.25) (a + lit 0.05))
  else skip.

(** 5. Normalize weights: the sum is taken once, then each key is
    overwritten in turn. *)
Definition normalize (baseWeights : Ref) : Run unit :=
  values <- readKeys baseWeights keys ;;
  let sum := fold_left add values (lit 0) in
  forKeys keys (fun key =>
    x <- readKey baseWeights key ;;
    writeKey baseWeights key (parseFloat (toFixed (x / sum) 4))).

Definition calculateWeights
  (ficoScore totalDebt monthlyIncome positiveAccounts oldestAccountAge
     totalCreditLimit : num) : Run Ref :=
  baseWeights <-
    newObject {| Weights.paymentHistory := lit 0.35;
                 Weights.utilization := lit 0.30;
                 Weights.accountAge := lit 0.15;
                 Weights.creditMix := lit 0.10;
                 Weights.newCredit := lit 0.10 |} ;;
  adjustForTier baseWeights ficoScore ;;;
  adjustForDti baseWeights totalDebt monthlyIncome ;;;
  adjustForOverallUtilization baseWeights totalDebt totalCreditLimit ;;;
  adjustForAnchors baseWeights positiveAccounts ;;;
  adjustForAge baseWeights oldestAccountAge ;;;
  normalize baseWeights ;;;
  ret baseWeights.

Definition calculateWorstCaseImpact (data : NumericData.t num) (weights : Ref)
  : Run num :=
  let drop := lit 0 in
  let utilizationFactor :=
    Math_max (lit 0) ((lit 100 - NumericData.utilization data) / lit 10) in
  weightsUtilization <- readKey weights utilization ;;
  let drop := drop + utilizationFactor * lit 5 * (weightsUtilization * lit 2) in
  let severityFactor :=
    Math_max (lit 0) ((NumericData.ficoScore data - lit 500) / lit 20) in
  let drop := drop + severityFactor * lit 5 in
  let drop := drop - NumericData.positiveAccounts data * lit 10 in
  let drop :=
    if NumericData.oldestAccountAge data > lit 10 then drop - lit 15 else drop in
  ret (Math_min (lit 150) (Math_max (lit 20) (Math_round drop))).

(** The object [runSimulation] returns: [weights] is the reference that
    [calculateWeights] handed back. *)
Record Returned : Type := mkReturned {
  initialScore : num;
  lowPointScore : num;
  projectedScore : num;
  scoreGain : num;
  postDTI : string;
  savings : num;
  impactPenalty : num;
  recoveryMonths : num;
  weights : Ref;
  milestoneDipScore : num;
  milestoneStabilizationScore : num;
  milestoneRecoveryScore : num
}.

Definition runSimulation (data : UserData.t num) : Run Returned :=
  let numericData := numericData data in
  let initialScore := NumericData.ficoScore numericData in
  weights <-
    calculateWeights
      (NumericData.ficoScore numericData)
      (NumericData.totalDebt numericData)
      (NumericData.monthlyIncome numericData)
      (NumericData.positiveAccounts numericData)
      (NumericData.oldestAccountAge numericData)
      (NumericData.totalCreditLimit numericData) ;;
  branch <-
    (if String.eqb (NumericData.scenarioType numericData) "pre-enrollment" then
       impactPenalty <- calculateWorstCaseImpact numericData weights ;;
       let lowPointScore := Math_max (lit 300) (initialScore - impactPenalty) in
       ret (lowPointScore, NumericData.programTimeline numericData, impactPenalty)
     else
       let lowPointScore := initialScore in
       let recoveryMonths :=
         Math_max (lit 12)
           (NumericData.programTimeline numericData
            - NumericData.monthsInProgram numericData) in
       ret (lowPointScore, recoveryMonths, lit 0)) ;;
  let '(lowPointScore, recoveryMonths, impactPenalty) := branch in
  let totalPotentialGain := lit 0 in
  weightsUtilization <- readKey weights utilization ;;
  let totalPotentialGain := totalPotentialGain + weightsUtilization * lit 250 in
  weightsPaymentHistory <- readKey weights paymentHistory ;;
  let historyGain :=
    (weightsPaymentHistory * lit 150) * (recoveryMonths / lit 36) in
  let totalPotentialGain := totalPotentialGain + historyGain in
  weightsAccountAge <- readKey weights accountAge ;;
  let totalPotentialGain :=
    totalPotentialGain + (weightsAccountAge * lit 50) * (recoveryMonths / lit 36) in
  let toolGain := lit 0 in
  let toolGain :=
    if NumericData.securedCard numericData then toolGain + lit 30 else toolGain in
  let toolGain :=
    if NumericData.creditBuilder numericData then toolGain + lit 25 else toolGain in
  let toolGain :=
    if NumericData.authorizedUser numericData then toolGain + lit 10 else toolGain in
  let totalPotentialGain := totalPotentialGain + toolGain in
  let projectedScore :=
    Math_min (lit 850) (Math_round (lowPointScore + totalPotentialGain)) in
  let debtSavings := NumericData.totalDebt numericData * lit 0.55 in
  let postProgramDebt := NumericData.totalDebt numericData - debtSavings in
  let annualPostDebtPayment := postProgramDebt * lit 0.05 in
  let monthlyPostDebtPayment := annualPostDebtPayment / lit 12 in
  let postDTI :=
    if NumericData.monthlyIncome numericData > lit 0 then
      (monthlyPostDebtPayment / NumericData.monthlyIncome numericData) * lit 100
    else lit 0 in
  let totalGain := projectedScore - lowPointScore in
  let stabilizationScore :=
    Math_min initialScore (lowPointScore + Math_round (totalGain * lit 0.15)) in
  let recoveryScore := lowPointScore + Math_round (totalGain * lit 0.65) in
  ret {| initialScore := initialScore;
         lowPointScore := lowPointScore;
         projectedScore := projectedScore;
         scoreGain := projectedScore - initialScore;
         postDTI := toFixed (Math_min (lit 50) postDTI) 1;
         savings := debtSavings;
         impactPenalty := impactPenalty;
         recoveryMonths := recoveryMonths;
         weights := weights;
         milestoneDipScore := lowPointScore;
         milestoneStabilizationScore := stabilizationScore;
         milestoneRecoveryScore := recoveryScore |}.

(** What a caller reads in a returned object, the weights through their
    reference. *)
Definition contents (s : Store) (r : Returned) : option (Results.t num) :=
  match nth_error s (weights r) with
  | Some w =>
      Some {| Results.initialScore := initialScore r;
              Results.lowPointScore := lowPointScore r;
              Results.projectedScore := projectedScore r;
              Results.scoreGain := scoreGain r;
              Results.postDTI := postDTI r;
              Results.savings := savings r;
              Results.impactPenalty := impactPenalty r;
              Results.recoveryMonths := recoveryMonths r;
              Results.weights := w;
              Results.milestoneDipScore := milestoneDipScore r;
              Results.milestoneStabilizationScore := milestoneStabilizationScore r;
              Results.milestoneRecoveryScore := milestoneRecoveryScore r |}
  | None => None
  end.

End WithNumbers.

End Objects.

(** ** The coercion by cases, and more records *)






(** Scenario A with a ficoScore of 250. *)
Definition lowScorePreEnrollment : UserData.t float :=
  {| UserData.ficoScore := JsNumber 250%float;
     UserData.totalDebt := JsNumber 20000%float;
     UserData.monthlyIncome := JsNumber 4000%float;
     UserData.utilization := JsText (Some 70%float);
     UserData.accountsEnrolling := JsNumber 1%float;
     UserData.positiveAccounts := JsNumber 1%float;
     UserData.oldestAccountAge := JsNumber 8%float;
     UserData.programTimeline := JsNumber 36%float;
     UserData.totalCreditLimit := JsNumber 30000%float;
     UserData.monthsInProgram := JsNumber 0%float;
     UserData.scenarioType := "pre-enrollment";
     UserData.securedCard := true;
     UserData.creditBuilder := true;
     UserData.authorizedUser := false |}.

(** ** The form around the engine

    The state of the [App] component and the handlers that change it:
    [handleChange], [handleNext], [handlePrevious], the timer started by
    [calculateAndShowResults] and the "Start New Simulation" button; and the
    coordinates computed by [ScoreChart]. *)

(** *** Text read as a number

    A JavaScript string is modelled by the string of its code units, which
    are taken below 256. *)

(** The white space and line terminators among them: TAB, LF, VT, FF, CR,
    SP and NBSP. *)
Definition isStrWhiteSpaceChar (c : ascii) : bool :=
  let n := nat_of_ascii c in
  ((n =? 32) || ((9 <=? n) && (n <=? 13)) || (n =? 160))%nat.

Fixpoint trimStart (s : string) : string :=
  match s with
  | String c rest => if isStrWhiteSpaceChar c then trimStart rest else s
  | EmptyString => s
  end.

Fixpoint trimEnd (s : string) : string :=
  match s with
  | String c rest =>
      match trimEnd rest with
      | EmptyString =>
          if isStrWhiteSpaceChar c then EmptyString else String c EmptyString
      | kept => String c kept
      end
  | EmptyString => s
  end.

(** The value of [c] as a digit of the given radix, if it is one. *)
Definition digitOfRadix (radix : Z) (c : ascii) : option Z :=
  let n := Z.of_nat (nat_of_ascii c) in
  let d :=
    if ((48 <=? n) && (n <=? 57))%Z then (n - 48)%Z
    else if ((97 <=? n) && (n <=? 122))%Z then (n - 87)%Z
    else if ((65 <=? n) && (n <=? 90))%Z then (n - 55)%Z
    else radix in
  if (d <? radix)%Z then Some d else None.

(** Reads a run of digits of the given radix: their value, their number, and
    the rest. *)
Fixpoint readRadixDigits (radix : Z) (s : string) (acc : Z) (count : nat)
  : Z * nat * string :=
  match s with
  | String c rest =>
      match digitOfRadix radix c with
      | Some d => readRadixDigits radix rest (radix * acc + d)%Z (S count)
      | None => (acc, count, s)
      end
  | EmptyString => (acc, count, s)
  end.

(** The prefixes [0x], [0o] and [0b] of a non-decimal integer literal. *)
Definition nonDecimalRadix (s : string) : option (Z * string) :=
  match s with
  | String "0" (String c rest) =>
      let n := nat_of_ascii c in
      if ((n =? 120) || (n =? 88))%nat then Some (16%Z, rest)
      else if ((n =? 111) || (n =? 79))%nat then Some (8%Z, rest)
      else if ((n =? 98) || (n =? 66))%nat then Some (2%Z, rest)
      else None
  | _ => None
  end.

(** What may follow the mantissa of a decimal literal: nothing, or an
    exponent part with at least one digit and nothing after it. *)
Definition exponentOrEnd (s : string) : bool :=
  match s with
  | EmptyString => true
  | String c rest =>
      ((nat_of_ascii c =? 101)%nat || (nat_of_ascii c =? 69)%nat)
      && (let rest' :=
            match rest with
            | String "-" r => r
            | String "+" r => r
            | _ => rest
            end in
          match readDigits rest' 0%Z O with
          | (_, S _, EmptyString) => true
          | _ => false
          end)
  end.

(** The whole of [s] is a signed decimal literal: [Infinity], or digits with
    an optional point and an optional exponent. *)
Definition isStrDecimalLiteral (s : string) : bool :=
  let s :=
    match s with
    | String "-" r => r
    | String "+" r => r
    | _ => s
    end in
  if String.eqb s "Infinity" then true
  else
    let '(_, ni, s1) := readDigits s 0%Z O in
    let '(_, nf, s2) :=
      match s1 with
      | String "." r => readDigits r 0%Z O
      | _ => (0%Z, O, s1)
      end in
    match (ni + nf)%nat with
    | O => false
    | _ => exponentOrEnd s2
    end.

(** [Number(text)] on a string: surrounding white space is dropped, the
    empty string is 0, a literal is its value and anything else is NaN. *)
Definition StringToNumber (text : string) : float :=
  let s := trimEnd (trimStart text) in
  match s with
  | EmptyString => PrimFloat.zero
  | _ =>
      match nonDecimalRadix s with
      | Some (radix, digits) =>
          match readRadixDigits radix digits 0%Z O with
          | (v, S _, EmptyString) => Binary64.Z2F v false
          | _ => nan
          end
      | None => if isStrDecimalLiteral s then Binary64.parseFloat s else nan
      end
  end.

(** What [parseInt(text)] reads: a sign and an integer, in radix 16 after
    [0x] and in radix 10 otherwise; [None] stands for NaN. *)
Definition parseIntText (text : string) : option (bool * Z) :=
  let s := trimStart text in
  let '(neg, s) :=
    match s with
    | String "-" r => (true, r)
    | String "+" r => (false, r)
    | _ => (false, s)
    end in
  let '(radix, s) :=
    match s with
    | String "0" (String c r) =>
        if ((nat_of_ascii c =? 120) || (nat_of_ascii c =? 88))%nat
        then (16%Z, r) else (10%Z, s)
    | _ => (10%Z, s)
    end in
  match readRadixDigits radix s 0%Z O with
  | (_, O, _) => None
  | (v, _, _) => Some (neg, v)
  end.

(** *** The values of [userData] *)

(** A value held under a key of [userData]: a string, a number or a
    boolean. *)
Inductive FormValue : Type :=
| FText (s : string)
| FNumber (x : float)
| FBoolean (b : bool).

(** The object [userData], as its keys with their values; the key looked up
    is the first one of that name. *)
Definition Store : Type := list (string * FormValue).

(** [userData[key]]; [None] is [undefined]. *)
Fixpoint get (key : string) (o : Store) : option FormValue :=
  match o with
  | (k, v) :: rest => if String.eqb k key then Some v else get key rest
  | [] => None
  end.

(** [{ ...o, [key]: v }]: the key keeps its place when [o] has it and comes
    last otherwise. *)
Fixpoint assign (key : string) (v : FormValue) (o : Store) : Store :=
  match o with
  | (k, w) :: rest =>
      if String.eqb k key then (k, v) :: rest else (k, w) :: assign key v rest
  | [] => [(key, v)]
  end.

Definition defaultUserData : Store :=
  [ ("ficoScore", FText "");
    ("totalDebt", FText "");
    ("monthlyIncome", FText "");
    ("utilization", FText "");
    ("accountsEnrolling", FText "");
    ("positiveAccounts", FText "");
    ("oldestAccountAge", FText "");
    ("programTimeline", FNumber 36%float);
    ("totalCreditLimit", FText "");
    ("scenarioType", FText "pre-enrollment");
    ("monthsInProgram", FNumber 0%float);
    ("settledAccounts", FNumber 0%float);
    ("programPhase", FText "negotiation");
    ("securedCard", FBoolean true);
    ("creditBuilder", FBoolean false);
    ("authorizedUser", FBoolean false);
    ("email", FText "");
    ("firstName", FText "");
    ("phone", FText "") ].

(** The number a value stands for in a comparison with a number. *)
Definition toNumber (v : option FormValue) : float :=
  match v with
  | Some (FText s) => StringToNumber s
  | Some (FNumber x) => x
  | Some (FBoolean b) => if b then 1%float else 0%float
  | None => nan
  end.

(** [isNaN(parseFloat(v))].  [parseFloat] reads the text of its argument.
    The text of a number is [NaN], [Infinity], [-Infinity] or a numeral that
    starts with a digit, after a [-] when the number is negative, so that
    only NaN is read as NaN; the text of a boolean or of [undefined] is a
    word. *)
Definition isNaN_parseFloat (v : option FormValue) : bool :=
  match v with
  | Some (FText s) => is_nan (Binary64.parseFloat (trimStart s))
  | Some (FNumber x) => is_nan x
  | Some (FBoolean _) => true
  | None => true
  end.

(** [isNaN(parseInt(v))].  [parseInt] reads the text of its argument as
    well, and finds no digit at the front of [NaN], [Infinity] and
    [-Infinity]. *)
Definition isNaN_parseInt (v : option FormValue) : bool :=
  match v with
  | Some (FText s) =>
      match parseIntText s with
      | Some _ => false
      | None => true
      end
  | Some (FNumber x) =>
      match Prim2SF x with
      | S754_nan => true
      | S754_infinity _ => true
      | _ => false
      end
  | Some (FBoolean _) => true
  | None => true
  end.

(** [v === text]. *)
Definition isText (text : string) (v : option FormValue) : bool :=
  match v with
  | Some (FText s) => String.eqb s text
  | _ => false
  end.

(** The truthiness of a value. *)
Definition isTruthy (v : option FormValue) : bool :=
  match v with
  | Some (FText s) => negb (String.eqb s "")
  | Some (FNumber x) => Binary64.truthy x
  | Some (FBoolean b) => b
  | None => false
  end.

(** A field as [runSimulation] finds it. *)
Definition asJsValue (v : option FormValue) : JsValue float :=
  match v with
  | Some (FText s) =>
      let x := StringToNumber s in
      JsText (if is_nan x then None else Some x)
  | Some (FNumber x) => JsNumber x
  | Some (FBoolean b) => JsBoolean b
  | None => JsUndefined
  end.

(** The argument of the call [runSimulation(userData)].  The engine compares
    [scenarioType] with ['pre-enrollment'] only, so that a value which is not
    a string counts as the empty string, and it tests the three tools for
    truthiness. *)
Definition readUserData (userData : Store) : UserData.t float :=
  {| UserData.ficoScore := asJsValue (get "ficoScore" userData);
     UserData.totalDebt := asJsValue (get "totalDebt" userData);
     UserData.monthlyIncome := asJsValue (get "monthlyIncome" userData);
     UserData.utilization := asJsValue (get "utilization" userData);
     UserData.accountsEnrolling := asJsValue (get "accountsEnrolling" userData);
     UserData.positiveAccounts := asJsValue (get "positiveAccounts" userData);
     UserData.oldestAccountAge := asJsValue (get "oldestAccountAge" userData);
     UserData.programTimeline := asJsValue (get "programTimeline" userData);
     UserData.totalCreditLimit := asJsValue (get "totalCreditLimit" userData);
     UserData.monthsInProgram := asJsValue (get "monthsInProgram" userData);
     UserData.scenarioType :=
       match get "scenarioType" userData with
       | Some (FText s) => s
       | _ => ""
       end;
     UserData.securedCard := isTruthy (get "securedCard" userData);
     UserData.creditBuilder := isTruthy (get "creditBuilder" userData);
     UserData.authorizedUser := isTruthy (get "authorizedUser" userData) |}.

(** *** The state of the component *)

(** [e.target] of a change event. *)
Module Event.
Record t : Type := mk {
  name : string;
  value : string;
  type : string;
  checked : bool
}.
End Event.

(** The state variables of [App] that the handlers below read or set; the
    Firebase handles are left out. *)
Module App.
Record t : Type := mk {
  currentStep : Z;
  userData : Store;
  results : option (Results.t float);
  error : option string;
  isLoading : bool
}.
End App.

Definition initialState : App.t :=
  {| App.currentStep := 1;
     App.userData := defaultUserData;
     App.results := None;
     App.error := None;
     App.isLoading := false |}.

Definition setCurrentStep (step : Z) (st : App.t) : App.t :=
  {| App.currentStep := step;
     App.userData := App.userData st;
     App.results := App.results st;
     App.error := App.error st;
     App.isLoading := App.isLoading st |}.

Definition setUserData (userData : Store) (st : App.t) : App.t :=
  {| App.currentStep := App.currentStep st;
     App.userData := userData;
     App.results := App.results st;
     App.error := App.error st;
     App.isLoading := App.isLoading st |}.

Definition setResults (results : option (Results.t float)) (st : App.t) : App.t :=
  {| App.currentStep := App.currentStep st;
     App.userData := App.userData st;
     App.results := results;
     App.error := App.error st;
     App.isLoading := App.isLoading st |}.

Definition setError (error : option string) (st : App.t) : App.t :=
  {| App.currentStep := App.currentStep st;
     App.userData := App.userData st;
     App.results := App.results st;
     App.error := error;
     App.isLoading := App.isLoading st |}.

Definition setIsLoading (isLoading : bool) (st : App.t) : App.t :=
  {| App.currentStep := App.currentStep st;
     App.userData := App.userData st;
     App.results := App.results st;
     App.error := App.error st;
     App.isLoading := isLoading |}.

(** [showError] sets the message; the timer it starts is [errorTimer]. *)
Definition showError (message : string) (st : App.t) : App.t :=
  setError (Some message) st.

Definition errorTimer (st : App.t) : App.t := setError None st.

(** The value [handleChange] stores for an event. *)
Definition processedValue (e : Event.t) : FormValue :=
  if String.eqb (Event.type e) "checkbox" then FBoolean (Event.checked e)
  else if String.eqb (Event.type e) "number"
          || String.eqb (Event.name e) "programTimeline" then
    if String.eqb (Event.value e) "" then FText ""
    else FNumber (StringToNumber (Event.value e))
  else FText (Event.value e).

Definition handleChange (e : Event.t) (st : App.t) : App.t :=
  setUserData (assign (Event.name e) (processedValue e) (App.userData st)) st.

(** The checks of step 1, in the order of the source: the message of the
    first one that fails. *)
Definition step1Error (userData : Store) : option string :=
  let ficoScore := get "ficoScore" userData in
  let totalDebt := get "totalDebt" userData in
  let accountsEnrolling := get "accountsEnrolling" userData in
  let monthlyIncome := get "monthlyIncome" userData in
  let utilization := get "utilization" userData in
  let positiveAccounts := get "positiveAccounts" userData in
  let oldestAccountAge := get "oldestAccountAge" userData in
  let totalCreditLimit := get "totalCreditLimit" userData in
  if isNaN_parseFloat ficoScore
     || PrimFloat.ltb (toNumber ficoScore) 300
     || PrimFloat.ltb 850 (toNumber ficoScore) then
    Some "Please enter a valid FICO Score (300-850)."
  else if isNaN_parseFloat totalDebt
          || PrimFloat.leb (toNumber totalDebt) 1000 then
    Some "Please enter a valid Total Debt (over $1,000)."
  else if isNaN_parseFloat accountsEnrolling
          || PrimFloat.ltb (toNumber accountsEnrolling) 1 then
    Some "Please enter at least 1 account for enrollment."
  else if isNaN_parseFloat monthlyIncome
          || PrimFloat.leb (toNumber monthlyIncome) 0 then
    Some "Please enter a valid Monthly Income."
  else if isText "" utilization then
    Some "Please select your Credit Utilization range."
  else if isNaN_parseInt positiveAccounts
          || PrimFloat.ltb (toNumber positiveAccounts) 0 then
    Some "Please enter a valid number of positive accounts (0 or more)."
  else if isNaN_parseInt oldestAccountAge
          || PrimFloat.ltb (toNumber oldestAccountAge) 0 then
    Some "Please enter a valid age for your oldest account (0 or more)."
  else if isNaN_parseInt totalCreditLimit
          || PrimFloat.ltb (toNumber totalCreditLimit) 0 then
    Some "Please enter a valid Total Credit Limit (0 or more)."
  else None.

(** The check of step 2. *)
Definition step2Error (userData : Store) : option string :=
  if isText "progress-tracker" (get "scenarioType" userData) then
    if isNaN_parseInt (get "monthsInProgram" userData)
       || PrimFloat.leb (toNumber (get "monthsInProgram" userData)) 0 then
      Some "Please enter how many months you've been in the program."
    else None
  else None.

(** [calculateAndShowResults] shows the spinner and starts a timer; what the
    timer does is [resultsTimer]. *)
Definition calculateAndShowResults (st : App.t) : App.t :=
  setIsLoading true st.

(** The callback of that timer.  It computes from the [userData] of the
    render that started it; no input is on screen while the spinner is, so
    that this is the [userData] of the state the timer finds.  The copy sent
    to Firestore by [saveSimulation] does not come back into the state. *)
Definition resultsTimer (st : App.t) : App.t :=
  let calculatedResults := runSimulation (readUserData (App.userData st)) in
  setCurrentStep 4 (setIsLoading false (setResults (Some calculatedResults) st)).

Definition handlePrevious (st : App.t) : App.t :=
  if (1 <? App.currentStep st)%Z then
    setResults None (setCurrentStep (App.currentStep st - 1) st)
  else st.

Definition handleNext (st : App.t) : App.t :=
  let currentStep := App.currentStep st in
  match (if (currentStep =? 1)%Z then step1Error (App.userData st) else None) with
  | Some message => showError message st
  | None =>
      match (if (currentStep =? 2)%Z then step2Error (App.userData st) else None) with
      | Some message => showError message st
      | None =>
          if (currentStep =? 3)%Z then calculateAndShowResults st
          else if (currentStep <? 4)%Z then setCurrentStep (currentStep + 1) st
          else st
      end
  end.

(** The button "Start New Simulation". *)
Definition startNewSimulation (st : App.t) : App.t :=
  setUserData defaultUserData (setResults None (setCurrentStep 1 st)).

(** *** What is on screen *)

Definition fromInput (name type : string) (e : Event.t) : bool :=
  String.eqb (Event.name e) name && String.eqb (Event.type e) type.

(** An element whose value is one of the values written in the source: a
    [select] with its options, a radio button. *)
Definition fromChoice (name type : string) (values : list string) (e : Event.t)
  : bool :=
  fromInput name type e && existsb (String.eqb (Event.value e)) values.

(** The inputs of [Step1Profile]. *)
Definition step1Inputs (e : Event.t) : bool :=
  fromInput "ficoScore" "number" e
  || fromInput "totalDebt" "number" e
  || fromInput "accountsEnrolling" "number" e
  || fromInput "monthlyIncome" "number" e
  || fromChoice "utilization" "select-one" [""; "30"; "50"; "70"; "90"; "100"] e
  || fromInput "totalCreditLimit" "number" e
  || fromInput "positiveAccounts" "number" e
  || fromInput "oldestAccountAge" "number" e.

(** The inputs of [Step2Scenario]; the progress details are there for a
    progress tracker only. *)
Definition step2Inputs (userData : Store) (e : Event.t) : bool :=
  fromChoice "scenarioType" "radio" ["pre-enrollment"; "progress-tracker"] e
  || (isText "progress-tracker" (get "scenarioType" userData)
      && (fromInput "monthsInProgram" "number" e
          || fromInput "settledAccounts" "number" e
          || fromChoice "programPhase" "select-one"
               ["negotiation"; "settlement"; "graduation"] e))
  || fromInput "programTimeline" "range" e.

(** The inputs of [Step3Tools]. *)
Definition step3Inputs (e : Event.t) : bool :=
  fromInput "securedCard" "checkbox" e
  || fromInput "creditBuilder" "checkbox" e
  || fromInput "authorizedUser" "checkbox" e.

(** The inputs of [Step4Results], which has none without results. *)
Definition step4Inputs (results : option (Results.t float)) (e : Event.t) : bool :=
  match results with
  | Some _ => fromInput "firstName" "text" e || fromInput "email" "email" e
  | None => false
  end.

(** The change events [renderCurrentStep] makes possible. *)
Definition rendered (st : App.t) (e : Event.t) : bool :=
  if App.isLoading st then false
  else if (App.currentStep st =? 2)%Z then step2Inputs (App.userData st) e
  else if (App.currentStep st =? 3)%Z then step3Inputs e
  else if (App.currentStep st =? 4)%Z then step4Inputs (App.results st) e
  else step1Inputs e.

(** What can happen to the component: a change event, a click on one of the
    three navigation buttons, or one of the two timers going off. *)
Inductive Action : Type :=
| Change (e : Event.t)
| Next
| Back
| StartNew
| ResultsTimer
| ErrorTimer.

(** The navigation buttons are hidden behind the spinner; "Next Step" is
    there before step 4, "Back" is disabled on steps 1 and 4, "Start New
    Simulation" is there on step 4, and the timer of the results runs while
    the spinner shows. *)
Definition enabled (st : App.t) (a : Action) : bool :=
  match a with
  | Change e => rendered st e
  | Next => negb (App.isLoading st) && (App.currentStep st <? 4)%Z
  | Back =>
      negb (App.isLoading st)
      && negb ((App.currentStep st =? 1)%Z || (App.currentStep st =? 4)%Z)
  | StartNew => negb (App.isLoading st) && (App.currentStep st =? 4)%Z
  | ResultsTimer => App.isLoading st
  | ErrorTimer => true
  end.

Definition perform (a : Action) (st : App.t) : App.t :=
  match a with
  | Change e => handleChange e st
  | Next => handleNext st
  | Back => handlePrevious st
  | StartNew => startNewSimulation st
  | ResultsTimer => resultsTimer st
  | ErrorTimer => errorTimer st
  end.

(** The state after a run of actions, those that are not possible being
    skipped. *)
Fixpoint run (actions : list Action) (st : App.t) : App.t :=
  match actions with
  | a :: rest => run rest (if enabled st a then perform a st else st)
  | [] => st
  end.

(** What the inputs can leave in [userData]: [''] or a number under the keys
    of the number inputs and of the slider, one of its options under
    [utilization], one of the two scenarios, and a boolean for each tool. *)
Definition blankOrNumber (v : option FormValue) : bool :=
  match v with
  | Some (FText s) => String.eqb s ""
  | Some (FNumber _) => true
  | _ => false
  end.

Definition oneOfTexts (values : list string) (v : option FormValue) : bool :=
  match v with
  | Some (FText s) => existsb (String.eqb s) values
  | _ => false
  end.

Definition isBoolean (v : option FormValue) : bool :=
  match v with
  | Some (FBoolean _) => true
  | _ => false
  end.

Definition numberInputs : list string :=
  ["ficoScore"; "totalDebt"; "accountsEnrolling"; "monthlyIncome";
   "totalCreditLimit"; "positiveAccounts"; "oldestAccountAge";
   "monthsInProgram"; "programTimeline"].

Definition wellFormed (userData : Store) : bool :=
  forallb (fun key => blankOrNumber (get key userData)) numberInputs
  && oneOfTexts [""; "30"; "50"; "70"; "90"; "100"] (get "utilization" userData)
  && oneOfTexts ["pre-enrollment"; "progress-tracker"]
       (get "scenarioType" userData)
  && forallb (fun key => isBoolean (get key userData))
       ["securedCard"; "creditBuilder"; "authorizedUser"].

(** What holds in every state of the component. *)
Definition Invariant (st : App.t) : Prop :=
  wellFormed (App.userData st) = true
  /\ (1 <= App.currentStep st <= 4)%Z
  /\ (App.isLoading st = true -> App.currentStep st = 3%Z)
  /\ ((2 <= App.currentStep st)%Z -> step1Error (App.userData st) = None)
  /\ ((3 <= App.currentStep st)%Z -> step2Error (App.userData st) = None)
  /\ (App.currentStep st = 4%Z ->
      App.results st
      = Some (runSimulation (readUserData (App.userData st))))
  /\ ((App.currentStep st < 4)%Z -> App.results st = None).

(** The keys of the ten coerced fields, in the order of the source, and the
    values they fall back to. *)
Definition numericFieldNames : list string :=
  ["ficoScore"; "totalDebt"; "monthlyIncome"; "utilization";
   "accountsEnrolling"; "positiveAccounts"; "oldestAccountAge";
   "programTimeline"; "totalCreditLimit"; "monthsInProgram"].

Definition numericFieldDefaults : list float :=
  [0; 0; 0; 0; 0; 0; 0; 36; 0; 0]%float.

(** A change event of an input other than a checkbox, and one of a
    checkbox. *)
Definition changeOf (name value type : string) : Action :=
  Change {| Event.name := name; Event.value := value; Event.type := type;
            Event.checked := false |}.

Definition check (name : string) (checked : bool) : Action :=
  Change {| Event.name := name; Event.value := "on"; Event.type := "checkbox";
            Event.checked := checked |}.

(** Scenario A as it is typed into the form, with the three clicks on "Next
    Step" and the timer of the results. *)
Definition enterScenarioA : list Action :=
  [ changeOf "ficoScore" "650" "number";
    changeOf "totalDebt" "20000" "number";
    changeOf "accountsEnrolling" "1" "number";
    changeOf "monthlyIncome" "4000" "number";
    changeOf "utilization" "70" "select-one";
    changeOf "totalCreditLimit" "30000" "number";
    changeOf "positiveAccounts" "1" "number";
    changeOf "oldestAccountAge" "8" "number";
    Next;
    changeOf "programTimeline" "36" "range";
    Next;
    check "creditBuilder" true;
    Next;
    ResultsTimer ].

(** The state once the profile of scenario A is typed into step 1. *)
Definition profileEntered : App.t := run (firstn 8 enterScenarioA) initialState.

(** An existing client with the top score: scenario A with ficoScore 850,
    twelve months into the program. *)
Definition enterTopScoreTracker : list Action :=
  [ changeOf "ficoScore" "850" "number";
    changeOf "totalDebt" "20000" "number";
    changeOf "accountsEnrolling" "1" "number";
    changeOf "monthlyIncome" "4000" "number";
    changeOf "utilization" "70" "select-one";
    changeOf "totalCreditLimit" "30000" "number";
    changeOf "positiveAccounts" "1" "number";
    changeOf "oldestAccountAge" "8" "number";
    Next;
    changeOf "scenarioType" "progress-tracker" "radio";
    changeOf "monthsInProgram" "12" "number";
    Next;
    Next;
    ResultsTimer ].

(** A client with the top score before enrollment: a credit limit of five
    times the debt, the shortest timeline and no credit-building tool. *)
Definition enterTopScoreShortProgram : list Action :=
  [ changeOf "ficoScore" "850" "number";
    changeOf "totalDebt" "20000" "number";
    changeOf "accountsEnrolling" "1" "number";
    changeOf "monthlyIncome" "4000" "number";
    changeOf "utilization" "30" "select-one";
    changeOf "totalCreditLimit" "100000" "number";
    changeOf "positiveAccounts" "0" "number";
    changeOf "oldestAccountAge" "8" "number";
    Next;
    changeOf "programTimeline" "12" "range";
    Next;
    check "securedCard" false;
    Next;
    ResultsTimer ].

(** *** The chart *)

(** A point of [ScoreChart]; of its two labels the number of months printed
    in [timeLabel] is kept. *)
Module ChartPoint.
Record t (num : Type) : Type := mk {
  score : num;
  time : num;
  timeLabel : num;
  x : num;
  y : num
}.
Arguments mk {num}.
Arguments score {num}.
Arguments time {num}.
Arguments timeLabel {num}.
Arguments x {num}.
Arguments y {num}.
End ChartPoint.

Section Chart.

Context {num : Type} `{NumberModel num}.

Local Open Scope js_scope.

(** The array [points] of [ScoreChart]; the property [end] is [finish]
    here. *)
Definition ScoreChart (start dip stabilization recovery finish timeline : num)
  : list (ChartPoint.t num) :=
  let totalGain := finish - dip in
  let dipTime := timeline * lit 0.1 in
  let stabilizationTime := timeline * lit 0.25 in
  let recoveryTime := timeline * lit 0.75 in
  [ {| ChartPoint.score := start; ChartPoint.time := lit 0;
       ChartPoint.timeLabel := lit 0; ChartPoint.x := lit 0;
       ChartPoint.y := (start - dip) / totalGain * lit 100 |};
    {| ChartPoint.score := dip; ChartPoint.time := dipTime;
       ChartPoint.timeLabel := Math_round dipTime; ChartPoint.x := lit 10;
       ChartPoint.y := lit 0 |};
    {| ChartPoint.score := stabilization; ChartPoint.time := stabilizationTime;
       ChartPoint.timeLabel := Math_round stabilizationTime;
       ChartPoint.x := lit 25;
       ChartPoint.y := (stabilization - dip) / totalGain * lit 100 |};
    {| ChartPoint.score := recovery; ChartPoint.time := recoveryTime;
       ChartPoint.timeLabel := Math_round recoveryTime; ChartPoint.x := lit 75;
       ChartPoint.y := (recovery - dip) / totalGain * lit 100 |};
    {| ChartPoint.score := finish; ChartPoint.time := timeline;
       ChartPoint.timeLabel := timeline; ChartPoint.x := lit 100;
       ChartPoint.y := lit 100 |} ].

(** The chart [Step4Results] draws from a result. *)
Definition chartOf (r : Results.t num) (timeline : num) : list (ChartPoint.t num) :=
  ScoreChart (Results.initialScore r) (Results.milestoneDipScore r)
    (Results.milestoneStabilizationScore r) (Results.milestoneRecoveryScore r)
    (Results.projectedScore r) timeline.

End Chart.

(** *** The weights that come back *)

(** The ranges of the five weights after step 5. *)
Definition withinReturnedBounds (w : Weights.t float) : bool :=
  PrimFloat.leb 0.2174 (Weights.paymentHistory w)
  && PrimFloat.leb (Weights.paymentHistory w) 0.4286
  && PrimFloat.leb 0.1818 (Weights.utilization w)
  && PrimFloat.leb (Weights.utilization w) 0.4091
  && PrimFloat.leb 0.0909 (Weights.accountAge w)
  && PrimFloat.leb (Weights.accountAge w) 0.2381
  && PrimFloat.leb 0.087 (Weights.creditMix w)
  && PrimFloat.leb (Weights.creditMix w) 0.1579
  && PrimFloat.leb 0.08 (Weights.newCredit w)
  && PrimFloat.leb (Weights.newCredit w) 0.1905.

(** Profiles at the ends of those ranges, as the arguments of
    [calculateWeights]: ficoScore, totalDebt, monthlyIncome,
    positiveAccounts, oldestAccountAge, totalCreditLimit. *)
Definition weightsOfProfile (p : float * float * float * float * float * float)
  : Weights.t float :=
  let '(ficoScore, totalDebt, monthlyIncome, positiveAccounts,
        oldestAccountAge, totalCreditLimit) := p in
  calculateWeights ficoScore totalDebt monthlyIncome positiveAccounts
    oldestAccountAge totalCreditLimit.

Definition highTierInDebtOld : float * float * float * float * float * float :=
  (740, 20000, 1000, 0, 12, 0)%float.
Definition highTierInDebtYoung : float * float * float * float * float * float :=
  (740, 20000, 1000, 0, 2, 0)%float.
Definition highTierInDebtAnchoredOld
  : float * float * float * float * float * float :=
  (740, 20000, 1000, 1, 12, 0)%float.
Definition highTierRelievedOld : float * float * float * float * float * float :=
  (740, 2000, 4000, 0, 12, 100000)%float.
Definition lowTierRelievedYoung : float * float * float * float * float * float :=
  (580, 2000, 4000, 0, 2, 100000)%float.
Definition lowTierRelievedOld : float * float * float * float * float * float :=
  (580, 2000, 4000, 0, 12, 100000)%float.
Definition lowTierYoung : float * float * float * float * float * float :=
  (580, 2000, 4000, 0, 2, 0)%float.
Definition middleTierRelievedAnchoredYoung
  : float * float * float * float * float * float :=
  (650, 2000, 4000, 1, 2, 100000)%float.

(** *** Milestones on integer scores *)

(** [Math.round(j * c)] for an integer [j], when the product is zero or has a
    fractional bit: the integer the rounding gives. *)
Definition roundedShare (c : float) (j : Z) : option Z :=
  match Prim2SF (Binary64.Z2F j false * c) with
  | S754_zero false => Some 0%Z
  | S754_finite false m e =>
      if (e <? 0)%Z then Some (roundHalfUp (Binary64.finiteValue false m e))
      else None
  | _ => None
  end.

(** The two shares of a gain of [j] points, 15% and 65%, rounded: neither is
    negative, the second is not below the first, and it is not above [j]. *)
Definition sharesWithinGain (j : Z) : bool :=
  match roundedShare 0.15 j, roundedShare 0.65 j with
  | Some a, Some b => ((0 <=? a) && (a <=? b) && (b <=? j))%Z
  | _, _ => false
  end.

(** The gains there can be between 300 and 850. *)
Definition gains : list Z := map Z.of_nat (seq 0 551).

(** *** Heights in the chart *)

(** The integers 0..550 with their doubles. *)
Definition doubles : list (Z * float) :=
  map (fun j => (j, Binary64.Z2F j false)) gains.

(** For a point [i] above the dip and a gain [j] that is not zero: the
    height [i / j * 100] is not below 0, it is at or below 100 exactly when
    [i <= j], and below [j] the next point is not lower. *)
Definition heightsInOrder (p q : Z * float) : bool :=
  let (i, a) := p in
  let (j, b) := q in
  (j =? 0)%Z
  || (let y := (a / b * 100)%float in
      PrimFloat.leb 0 y
      && Bool.eqb (PrimFloat.leb y 100) (i <=? j)%Z
      && ((j <=? i)%Z || PrimFloat.leb y ((a + 1) / b * 100)%float)).

(** ** Facts about binary64 comparisons and NaN *)

Section Binary64Facts.

Local Open Scope Z_scope.

Lemma is_nan_Prim2SF (x : float) :
  is_nan x = true <-> Prim2SF x = S754_nan.
Proof.
  unfold Prim2SF.
  destruct (is_nan x); [ split; reflexivity | ].
  split; [ discriminate | ].
  destruct (is_zero x); [ discriminate | ].
  destruct (is_infinity x); [ discriminate | ].
  destruct (Z.frexp x) as [r ex].
  destruct (shr_fexp prec emax (Uint63.to_Z (normfr_mantissa r)) (ex - prec) loc_Exact)
    as [rec e'].
  destruct (shr_m rec); discriminate.
Qed.

Lemma not_nan_Prim2SF (x : float) :
  is_nan x = false <-> Prim2SF x <> S754_nan.
Proof.
  rewrite <- is_nan_Prim2SF.
  destruct (is_nan x); split; congruence.
Qed.

Lemma SFcompare_antisym (x y : spec_float) :
  SFcompare y x = option_map CompOpp (SFcompare x y).
Proof.
  destruct x as [sx | sx | | sx mx ex], y as [sy | sy | | sy my ey];
    try reflexivity;
    try (destruct sx; try destruct sy; reflexivity);
    try (destruct sy; reflexivity).
  simpl. destruct sx, sy; simpl; try reflexivity;
    rewrite (Z.compare_antisym ex ey);
    destruct (ex ?= ey); simpl; try reflexivity;
    rewrite (Pos.compare_cont_antisym mx my Eq); simpl;
    try rewrite CompOpp_involutive; reflexivity.
Qed.

Lemma SFcompare_not_nan (x y : spec_float) :
  x <> S754_nan -> y <> S754_nan -> SFcompare x y <> None.
Proof.
  destruct x, y; simpl; congruence.
Qed.

Lemma ltb_leb (x y : float) :
  PrimFloat.ltb x y = true -> PrimFloat.leb x y = true.
Proof.
  rewrite ltb_spec, leb_spec. unfold SFltb, SFleb.
  destruct (SFcompare (Prim2SF x) (Prim2SF y)) as [[ | | ] | ];
    congruence.
Qed.

Lemma not_ltb_leb (x y : float) :
  is_nan x = false -> is_nan y = false ->
  PrimFloat.ltb x y = false -> PrimFloat.leb y x = true.
Proof.
  rewrite !not_nan_Prim2SF, ltb_spec, leb_spec. unfold SFltb, SFleb.
  intros Hx Hy.
  rewrite (SFcompare_antisym (Prim2SF x) (Prim2SF y)).
  pose proof (SFcompare_not_nan _ _ Hx Hy) as Hc.
  destruct (SFcompare (Prim2SF x) (Prim2SF y)) as [[ | | ] | ];
    simpl; congruence.
Qed.

Lemma ltb_not_nan (x y : float) :
  PrimFloat.ltb x y = true -> is_nan x = false /\ is_nan y = false.
Proof.
  rewrite ltb_spec, !not_nan_Prim2SF. unfold SFltb.
  destruct (Prim2SF x), (Prim2SF y); simpl; intro Hc;
    split; congruence.
Qed.

Lemma leb_not_nan (x y : float) :
  PrimFloat.leb x y = true -> is_nan x = false /\ is_nan y = false.
Proof.
  rewrite leb_spec, !not_nan_Prim2SF. unfold SFleb.
  destruct (Prim2SF x), (Prim2SF y); simpl; intro Hc;
    split; congruence.
Qed.

(** Rounding a non-negative mantissa never yields NaN. *)
Lemma shr_1_nonneg (mrs : shr_record) :
  0 <= shr_m mrs -> 0 <= shr_m (shr_1 mrs).
Proof.
  destruct mrs as [m r s]; simpl.
  destruct m as [ | [p | p | ] | p ]; simpl; lia.
Qed.

Lemma iter_shr_1_nonneg (p : positive) :
  forall mrs, 0 <= shr_m mrs -> 0 <= shr_m (iter_pos shr_1 p mrs).
Proof.
  induction p as [p IH | p IH | ]; intros mrs Hm; simpl.
  - apply IH, IH, shr_1_nonneg, Hm.
  - apply IH, IH, Hm.
  - apply shr_1_nonneg, Hm.
Qed.

Lemma shr_fexp_nonneg (m e : Z) (l : location) :
  0 <= m -> 0 <= shr_m (fst (shr_fexp prec emax m e l)).
Proof.
  intro Hm. unfold shr_fexp, shr.
  assert (H0 : 0 <= shr_m (shr_record_of_loc m l))
    by (destruct l as [ | [ | | ] ]; exact Hm).
  destruct (fexp prec emax (Zdigits2 m + e) - e); simpl;
    [ exact H0 | apply iter_shr_1_nonneg, H0 | exact H0 ].
Qed.

Lemma round_nearest_even_nonneg (m : Z) (l : location) :
  0 <= m -> 0 <= round_nearest_even m l.
Proof.
  intro Hm. destruct l as [ | [ | | ] ]; simpl; try lia.
  destruct (Z.even m); lia.
Qed.

Lemma binary_round_aux_not_nan (s : bool) (m e : Z) (l : location) :
  0 <= m -> binary_round_aux prec emax s m e l <> S754_nan.
Proof.
  intro Hm. unfold binary_round_aux.
  pose proof (shr_fexp_nonneg m e l Hm) as H1.
  destruct (shr_fexp prec emax m e l) as [mrs' e']; simpl in H1.
  pose proof (shr_fexp_nonneg
                (round_nearest_even (shr_m mrs') (loc_of_shr_record mrs'))
                e' loc_Exact (round_nearest_even_nonneg _ _ H1)) as H2.
  destruct (shr_fexp prec emax _ e' loc_Exact) as [mrs'' e'']; simpl in H2.
  destruct (shr_m mrs'') as [ | p | p ]; try discriminate; try lia.
  destruct (e'' <=? emax - prec); discriminate.
Qed.

Lemma binary_round_not_nan (s : bool) (m : positive) (e : Z) :
  binary_round prec emax s m e <> S754_nan.
Proof.
  unfold binary_round.
  destruct (shl_align m e (fexp prec emax (Z.pos (digits2_pos m) + e))) as [mz ez].
  apply binary_round_aux_not_nan. lia.
Qed.

Lemma binary_normalize_not_nan (n e : Z) (s : bool) :
  binary_normalize prec emax n e s <> S754_nan.
Proof.
  destruct n; simpl; try discriminate; apply binary_round_not_nan.
Qed.

Lemma SF2Prim_not_nan (y : spec_float) :
  y <> S754_nan -> is_nan (SF2Prim y) = false.
Proof.
  intro Hy. destruct y as [s | s | | s m e].
  - destruct s; reflexivity.
  - destruct s; reflexivity.
  - congruence.
  - apply not_nan_Prim2SF. unfold SF2Prim.
    assert (Hf : forall z, Prim2SF (Z.ldexp (of_uint63 (Uint63.of_Z (Z.pos m))) z)
                           <> S754_nan).
    { intro z. rewrite Z_ldexp_spec, of_uint63_spec.
      pose proof (binary_normalize_not_nan
                    (Uint63.to_Z (Uint63.of_Z (Z.pos m))) 0 false) as Hn.
      destruct (binary_normalize prec emax _ 0 false); simpl;
        try congruence; try discriminate.
      apply binary_round_not_nan. }
    destruct s; [ rewrite opp_spec | ]; specialize (Hf e);
      destruct (Prim2SF (Z.ldexp _ e)); simpl; congruence.
Qed.

Lemma Z2F_not_nan (n : Z) (s : bool) : is_nan (Binary64.Z2F n s) = false.
Proof.
  apply SF2Prim_not_nan, binary_normalize_not_nan.
Qed.

(** A number without a rational value is an infinity. *)
Lemma F2Q_None (x : float) :
  Binary64.F2Q x = None -> is_nan x = false ->
  x = infinity \/ x = neg_infinity.
Proof.
  unfold Binary64.F2Q. rewrite not_nan_Prim2SF. intros HQ Hn.
  rewrite <- (SF2Prim_Prim2SF x).
  destruct (Prim2SF x) as [s | s | | s m e]; try discriminate; try congruence.
  destruct s; [ right | left ]; reflexivity.
Qed.

Lemma round_not_nan (x : float) :
  is_nan x = false -> is_nan (Binary64.round x) = false.
Proof.
  intro Hx. unfold Binary64.round.
  destruct (Prim2SF x) as [s | s | | s m e]; try exact Hx.
  destruct (0 <=? e); [ exact Hx | apply Z2F_not_nan ].
Qed.

End Binary64Facts.

(** ** The doubles of small integers *)

Section SmallIntegers.

Local Open Scope Z_scope.

Lemma digits2_pos_bounds (p : positive) :
  2 ^ (Z.pos (digits2_pos p) - 1) <= Z.pos p < 2 ^ Z.pos (digits2_pos p).
Proof.
  induction p as [p IH | p IH | ]; simpl digits2_pos.
  - rewrite Pos2Z.inj_succ, Z.pow_succ_r by lia.
    replace (Z.succ (Z.pos (digits2_pos p)) - 1) with (Z.succ (Z.pos (digits2_pos p) - 1)) by lia.
    rewrite Z.pow_succ_r by lia. lia.
  - rewrite Pos2Z.inj_succ, Z.pow_succ_r by lia.
    replace (Z.succ (Z.pos (digits2_pos p)) - 1) with (Z.succ (Z.pos (digits2_pos p) - 1)) by lia.
    rewrite Z.pow_succ_r by lia. lia.
  - simpl. lia.
Qed.

Lemma iter_xO_value (p k : positive) :
  Z.pos (Pos.iter xO p k) = Z.pos p * 2 ^ Z.pos k.
Proof.
  induction k as [ | k IH ] using Pos.peano_ind.
  - simpl. lia.
  - rewrite Pos.iter_succ, Pos2Z.inj_xO, IH, Pos2Z.inj_succ, Z.pow_succ_r by lia.
    ring.
Qed.

Lemma iter_xO_digits (p k : positive) :
  digits2_pos (Pos.iter xO p k) = (digits2_pos p + k)%positive.
Proof.
  induction k as [ | k IH ] using Pos.peano_ind.
  - simpl. lia.
  - rewrite Pos.iter_succ. simpl digits2_pos. rewrite IH. lia.
Qed.

(** A mantissa of 53 bits with an exponent in range is left as it is. *)
Lemma binary_round_aux_exact (s : bool) (m : positive) (e : Z) :
  Z.pos (digits2_pos m) = 53 -> -1074 <= e <= 971 ->
  binary_round_aux prec emax s (Z.pos m) e loc_Exact = S754_finite s m e.
Proof.
  intros Hd He. unfold binary_round_aux.
  assert (Hshift : forall l, shr_fexp prec emax (Z.pos m) e l
                             = (shr_record_of_loc (Z.pos m) l, e)).
  { intro l. unfold shr_fexp, Zdigits2. rewrite Hd.
    replace (fexp prec emax (53 + e) - e) with 0
      by (unfold fexp, emin, prec, emax; lia).
    reflexivity. }
  rewrite Hshift. simpl. rewrite Hshift. simpl.
  destruct (Z.leb_spec e 971); [ reflexivity | lia ].
Qed.

(** Rounding a positive integer of at most 53 bits only moves its bits to
    the top of the mantissa. *)
Lemma binary_round_small (s : bool) (p : positive) :
  Z.pos (digits2_pos p) <= 53 ->
  exists mz : positive,
    binary_round prec emax s p 0
    = S754_finite s mz (Z.pos (digits2_pos p) - 53)
    /\ Z.pos (digits2_pos mz) = 53
    /\ Z.pos mz = Z.pos p * 2 ^ (53 - Z.pos (digits2_pos p)).
Proof.
  intro Hd. unfold binary_round.
  replace (fexp prec emax (Z.pos (digits2_pos p) + 0)) with (Z.pos (digits2_pos p) - 53)
    by (unfold fexp, emin, prec, emax; lia).
  unfold shl_align.
  destruct (Z.pos (digits2_pos p) - 53 - 0) as [ | k | k ] eqn:Ek; try lia.
  - assert (Hd53 : Z.pos (digits2_pos p) = 53) by lia.
    exists p.
    split; [ | split; [ exact Hd53 | rewrite Hd53; simpl; lia ] ].
    replace (Z.pos (digits2_pos p) - 53) with 0 by lia.
    apply binary_round_aux_exact; lia.
  - assert (Hk : Z.pos k = 53 - Z.pos (digits2_pos p)) by lia.
    assert (Hdig : Z.pos (digits2_pos (Pos.iter xO p k)) = 53)
      by (rewrite iter_xO_digits; lia).
    exists (Pos.iter xO p k).
    split; [ | split; [ exact Hdig | rewrite iter_xO_value, Hk; reflexivity ] ].
    apply binary_round_aux_exact; [ exact Hdig | lia ].
Qed.

(** The double of a non-zero integer of at most 53 bits, as the primitive
    operations see it. *)
Lemma Prim2SF_Z2F_small (s : bool) (p : positive) (zs : bool) :
  Z.pos (digits2_pos p) <= 53 ->
  exists mz : positive,
    Prim2SF (Binary64.Z2F (if s then Z.neg p else Z.pos p) zs)
    = S754_finite s mz (Z.pos (digits2_pos p) - 53)
    /\ Z.pos mz = Z.pos p * 2 ^ (53 - Z.pos (digits2_pos p)).
Proof.
  intro Hd.
  destruct (binary_round_small s p Hd) as (mz & Hround & Hdig & Hval).
  exists mz. split; [ | exact Hval ].
  unfold Binary64.Z2F.
  replace (binary_normalize prec emax (if s then Z.neg p else Z.pos p) 0 zs)
    with (binary_round prec emax s p 0) by (destruct s; reflexivity).
  rewrite Hround. apply Prim2SF_SF2Prim.
  unfold valid_binary, bounded, canonical_mantissa. rewrite Hdig.
  pose proof (digits2_pos_bounds p) as Hb.
  assert (Hpos : 0 < Z.pos (digits2_pos p)) by lia.
  apply andb_true_intro. split.
  - apply Z.eqb_eq. unfold fexp, emin, prec, emax. lia.
  - apply Z.leb_le. unfold prec, emax. lia.
Qed.

(** Comparing the double of an integer of at most 53 bits with 20 and 150
    compares the integer. *)
Lemma Z2F_between (n : Z) (zs : bool) :
  Z.abs n <= 2 ^ 52 ->
  PrimFloat.ltb 20 (Binary64.Z2F n zs) = true ->
  PrimFloat.ltb 150 (Binary64.Z2F n zs) = false ->
  20 < n <= 150.
Proof.
  intros Hn H20 H150.
  destruct n as [ | p | p ].
  - destruct zs; discriminate H20.
  - pose proof (digits2_pos_bounds p) as Hb.
    assert (Hd : Z.pos (digits2_pos p) <= 53).
    { destruct (Z.le_gt_cases (Z.pos (digits2_pos p)) 53) as [H | H]; [ exact H | ].
      assert (2 ^ 53 <= 2 ^ (Z.pos (digits2_pos p) - 1))
        by (apply Z.pow_le_mono_r; lia).
      lia. }
    destruct (Prim2SF_Z2F_small false p zs Hd) as (mz & Hr & Hmz).
    cbv iota in Hr. rewrite ltb_spec, Hr in H20, H150.
    change (Prim2SF 20) with (S754_finite false 5629499534213120 (-48)) in H20.
    change (Prim2SF 150) with (S754_finite false 5277655813324800 (-45)) in H150.
    unfold SFltb, SFcompare in H20, H150.
    rewrite Pos.compare_cont_spec in H20, H150. simpl Pos.switch_Eq in H20, H150.
    set (d := Z.pos (digits2_pos p)) in *.
    split.
    + revert H20.
      destruct (Z.compare_spec (-48) (d - 53)) as [E | E | E];
        [ destruct (Pos.compare_spec 5629499534213120 mz) as [E' | E' | E'] | | ];
        intro H20; cbv iota in H20; try discriminate H20.
      * assert (Hd5 : d = 5) by (clear - E; lia). rewrite Hd5 in Hmz.
        apply Pos2Z.pos_lt_pos in E'. rewrite Hmz in E'.
        change (2 ^ (53 - 5)) with 281474976710656 in E'.
        clear - E'. lia.
      * assert (H32 : 2 ^ 5 <= 2 ^ (d - 1))
          by (apply Z.pow_le_mono_r; clear - E; lia).
        change (2 ^ 5) with 32 in H32. clear - H32 Hb. lia.
    + revert H150.
      destruct (Z.compare_spec (-45) (d - 53)) as [E | E | E];
        [ destruct (Pos.compare_spec 5277655813324800 mz) as [E' | E' | E'] | | ];
        intro H150; cbv iota in H150; try discriminate H150.
      * assert (Hd8 : d = 8) by (clear - E; lia). rewrite Hd8 in Hmz.
        rewrite <- E' in Hmz.
        change (2 ^ (53 - 8)) with 35184372088832 in Hmz.
        clear - Hmz. lia.
      * assert (Hd8 : d = 8) by (clear - E; lia). rewrite Hd8 in Hmz.
        apply Pos2Z.pos_lt_pos in E'. rewrite Hmz in E'.
        change (2 ^ (53 - 8)) with 35184372088832 in E'.
        clear - E'. lia.
      * assert (H128 : 2 ^ d <= 2 ^ 7)
          by (apply Z.pow_le_mono_r; clear - E; lia).
        change (2 ^ 7) with 128 in H128. clear - H128 Hb. lia.
  - pose proof (digits2_pos_bounds p) as Hb.
    assert (Hd : Z.pos (digits2_pos p) <= 53).
    { destruct (Z.le_gt_cases (Z.pos (digits2_pos p)) 53) as [H | H]; [ exact H | ].
      assert (2 ^ 53 <= 2 ^ (Z.pos (digits2_pos p) - 1))
        by (apply Z.pow_le_mono_r; lia).
      lia. }
    destruct (Prim2SF_Z2F_small true p zs Hd) as (mz & Hr & Hmz).
    cbv iota in Hr. rewrite ltb_spec, Hr in H20. discriminate H20.
Qed.

(** A double with a fractional bit is below 2^52 in magnitude, and so is its
    rounding to an integer. *)
Lemma roundHalfUp_finiteValue_bound (s : bool) (m : positive) (e : Z) :
  SpecFloat.valid_binary prec emax (S754_finite s m e) = true -> e < 0 ->
  Z.abs (roundHalfUp (Binary64.finiteValue s m e)) <= 2 ^ 52.
Proof.
  unfold valid_binary, bounded, canonical_mantissa.
  intros Hv He. apply andb_prop in Hv as [Hc _]. apply Z.eqb_eq in Hc.
  pose proof (digits2_pos_bounds m) as Hb.
  assert (Hd : Z.pos (digits2_pos m) <= 53)
    by (revert Hc; unfold fexp, emin, prec, emax; lia).
  assert (Hm : Z.pos m < 2 ^ 53).
  { assert (2 ^ Z.pos (digits2_pos m) <= 2 ^ 53) by (apply Z.pow_le_mono_r; lia).
    lia. }
  destruct e as [ | k | k ]; try lia.
  unfold Binary64.finiteValue, Pos.shiftl.
  set (D := Pos.iter xO 1%positive k).
  assert (HD : 2 <= Z.pos D).
  { unfold D. rewrite iter_xO_value.
    assert (2 ^ 1 <= 2 ^ Z.pos k) by (apply Z.pow_le_mono_r; lia).
    change (2 ^ 1) with 2 in *. lia. }
  assert (Hv : (Z.pos m # D < inject_Z (2 ^ 52))%Q).
  { unfold Qlt. simpl Qnum. simpl Qden.
    change (2 ^ 53) with (2 * 2 ^ 52) in Hm. nia. }
  assert (Hv0 : (0 < Z.pos m # D)%Q) by reflexivity.
  unfold roundHalfUp.
  set (x := (if s then - (Z.pos m # D) else Z.pos m # D)%Q).
  pose proof (Qfloor_le (x + (1 # 2))) as Hlo.
  pose proof (Qlt_floor (x + (1 # 2))) as Hhi.
  rewrite inject_Z_plus in Hhi. change (inject_Z 1) with 1%Q in Hhi.
  assert (Hx : (- inject_Z (2 ^ 52) < x /\ x < inject_Z (2 ^ 52))%Q)
    by (unfold x; destruct s; split; lra).
  destruct Hx as [Hx1 Hx2].
  assert (H1 : (inject_Z (Qfloor (x + (1 # 2))) < inject_Z (2 ^ 52 + 1))%Q)
    by (rewrite inject_Z_plus; change (inject_Z 1) with 1%Q; lra).
  assert (H2 : (inject_Z (- 2 ^ 52 - 1) < inject_Z (Qfloor (x + (1 # 2))))%Q).
  { unfold Z.sub. rewrite inject_Z_plus, inject_Z_opp.
    change (inject_Z (- (1))) with (- (1))%Q. lra. }
  rewrite <- Zlt_Qlt in H1, H2. lia.
Qed.

End SmallIntegers.

(** ** Signs and NaN through the binary64 operations *)

Section Binary64Signs.

Local Open Scope Z_scope.

(** What rounding can return: a zero, a finite number or an infinity of the
    sign it was given. *)
Lemma binary_round_aux_shape (s : bool) (m e : Z) (l : location) :
  0 <= m ->
  binary_round_aux prec emax s m e l = S754_zero s
  \/ (exists m' e', binary_round_aux prec emax s m e l = S754_finite s m' e')
  \/ binary_round_aux prec emax s m e l = S754_infinity s.
Proof.
  intro Hm. pose proof (binary_round_aux_not_nan s m e l Hm) as Hn.
  revert Hn. unfold binary_round_aux.
  destruct (shr_fexp prec emax m e l) as [mrs' e'].
  destruct (shr_fexp prec emax _ e' loc_Exact) as [mrs'' e''].
  destruct (shr_m mrs'') as [ | p | p ]; [ auto | | congruence ].
  destruct (e'' <=? emax - prec); eauto.
Qed.

Lemma binary_round_shape (s : bool) (m : positive) (e : Z) :
  binary_round prec emax s m e = S754_zero s
  \/ (exists m' e', binary_round prec emax s m e = S754_finite s m' e')
  \/ binary_round prec emax s m e = S754_infinity s.
Proof.
  unfold binary_round.
  destruct (shl_align m e (fexp prec emax (Z.pos (digits2_pos m) + e))) as [mz ez].
  apply binary_round_aux_shape. lia.
Qed.

(** [0 <= x] says that [x] is a number and not below zero. *)
Lemma leb_zero_shape (x : float) :
  PrimFloat.leb 0 x = true <->
  (exists s, Prim2SF x = S754_zero s)
  \/ (exists m e, Prim2SF x = S754_finite false m e)
  \/ Prim2SF x = S754_infinity false.
Proof.
  rewrite leb_spec. change (Prim2SF 0) with (S754_zero false).
  destruct (Prim2SF x) as [s | s | | s m e]; simpl.
  - split; eauto.
  - destruct s; simpl; split; auto; try discriminate.
    intros [[s H] | [(m & e & H) | H]]; discriminate.
  - split; [ discriminate | ].
    intros [[s H] | [(m & e & H) | H]]; discriminate.
  - destruct s; simpl; split; eauto; try discriminate.
    intros [[s H] | [(m' & e' & H) | H]]; discriminate.
Qed.

Lemma shape_leb_zero (y : spec_float) (x : float) :
  Prim2SF x = y ->
  y = S754_zero false
  \/ (exists m e, y = S754_finite false m e)
  \/ y = S754_infinity false ->
  PrimFloat.leb 0 x = true.
Proof.
  intros Hx Hy. apply leb_zero_shape. rewrite Hx.
  destruct Hy as [-> | [(m & e & ->) | ->]]; eauto.
Qed.

Lemma mul_not_negative (x c : float) :
  PrimFloat.leb 0 x = true -> isPositiveFinite c = true ->
  PrimFloat.leb 0 (x * c) = true.
Proof.
  unfold isPositiveFinite. intros Hx Hc.
  destruct (Prim2SF c) as [ | | | [ | ] mc ec] eqn:Ec; try discriminate.
  apply leb_zero_shape in Hx.
  destruct Hx as [[s Ex] | [(m & e & Ex) | Ex]].
  - apply leb_zero_shape. rewrite mul_spec, Ex, Ec. simpl. eauto.
  - apply (shape_leb_zero _ _ (mul_spec x c)).
    rewrite Ex, Ec. unfold SF64mul, SFmul.
    apply binary_round_aux_shape. lia.
  - apply leb_zero_shape. rewrite mul_spec, Ex, Ec. simpl. auto.
Qed.

Lemma add_not_negative (x y : float) :
  PrimFloat.leb 0 x = true -> PrimFloat.leb 0 y = true ->
  PrimFloat.leb 0 (x + y) = true.
Proof.
  intros Hx Hy. apply leb_zero_shape in Hx, Hy.
  destruct Hx as [[sx Ex] | [(mx & ex & Ex) | Ex]],
           Hy as [[sy Ey] | [(my & ey & Ey) | Ey]];
    try (apply leb_zero_shape; rewrite add_spec, Ex, Ey; simpl;
         try destruct sx; try destruct sy; eauto; fail).
  apply (shape_leb_zero _ _ (add_spec x y)).
  rewrite Ex, Ey. unfold SF64add, SFadd, cond_Zopp, binary_normalize.
  rewrite <- Pos2Z.inj_add.
  apply binary_round_shape.
Qed.

(** The quotient of two mantissas is not negative. *)
Lemma SFdiv_core_binary_nonneg (m1 m2 : positive) (e1 e2 : Z) :
  0 <= fst (fst (SFdiv_core_binary prec emax (Z.pos m1) e1 (Z.pos m2) e2)).
Proof.
  unfold SFdiv_core_binary.
  set (s := e1 - e2 - _).
  set (m' := match s with Z.pos _ => Z.shiftl (Z.pos m1) s | 0 => Z.pos m1 | Z.neg _ => 0 end).
  assert (Hm' : 0 <= m').
  { unfold m'. destruct s; try lia. apply Z.shiftl_nonneg. lia. }
  pose proof (Z_div_mod m' (Z.pos m2) eq_refl) as Hdiv.
  destruct (Z.div_eucl m' (Z.pos m2)) as [q r]. simpl.
  destruct Hdiv as [Heq Hr]. nia.
Qed.

Lemma div_not_nan (x c : float) :
  is_nan x = false -> isPositiveFinite c = true -> is_nan (x / c) = false.
Proof.
  unfold isPositiveFinite. rewrite !not_nan_Prim2SF, div_spec. intros Hx Hc.
  destruct (Prim2SF c) as [ | | | [ | ] mc ec]; try discriminate.
  destruct (Prim2SF x) as [s | s | | s m e]; try discriminate; try congruence.
  unfold SF64div, SFdiv.
  pose proof (SFdiv_core_binary_nonneg m mc e ec) as Hq.
  destruct (SFdiv_core_binary prec emax (Z.pos m) e (Z.pos mc) ec) as [[mz ez] lz].
  apply binary_round_aux_not_nan. exact Hq.
Qed.

Lemma mul_not_nan (x c : float) :
  is_nan x = false -> isPositiveFinite c = true -> is_nan (x * c) = false.
Proof.
  unfold isPositiveFinite. rewrite !not_nan_Prim2SF, mul_spec. intros Hx Hc.
  destruct (Prim2SF c) as [ | | | [ | ] mc ec]; try discriminate.
  destruct (Prim2SF x) as [s | s | | s m e]; try discriminate; try congruence.
  unfold SF64mul, SFmul. apply binary_round_aux_not_nan. lia.
Qed.

(** Subtracting from, or subtracting, a finite positive constant. *)
Lemma const_sub_not_nan (c x : float) :
  isPositiveFinite c = true -> is_nan x = false -> is_nan (c - x) = false.
Proof.
  unfold isPositiveFinite. rewrite !not_nan_Prim2SF, sub_spec. intros Hc Hx.
  destruct (Prim2SF c) as [ | | | [ | ] mc ec]; try discriminate.
  destruct (Prim2SF x) as [s | s | | s m e]; try discriminate; try congruence.
  unfold SF64sub, SFsub. apply binary_normalize_not_nan.
Qed.

Lemma sub_const_not_nan (x c : float) :
  is_nan x = false -> isPositiveFinite c = true -> is_nan (x - c) = false.
Proof.
  unfold isPositiveFinite. rewrite !not_nan_Prim2SF, sub_spec. intros Hx Hc.
  destruct (Prim2SF c) as [ | | | [ | ] mc ec]; try discriminate.
  destruct (Prim2SF x) as [s | s | | s m e]; try discriminate; try congruence.
  unfold SF64sub, SFsub. apply binary_normalize_not_nan.
Qed.

(** A number that is not below zero, less a number below +Infinity. *)
Lemma sub_not_nan (x y : float) :
  PrimFloat.leb 0 x = true -> PrimFloat.ltb y infinity = true ->
  is_nan (x - y) = false.
Proof.
  intros Hx Hy. apply leb_zero_shape in Hx.
  rewrite ltb_spec in Hy. change (Prim2SF infinity) with (S754_infinity false) in Hy.
  rewrite not_nan_Prim2SF, sub_spec.
  destruct (Prim2SF y) as [sy | sy | | sy my ey]; try discriminate;
    destruct Hx as [[sx ->] | [(mx & ex & ->) | ->]];
    unfold SF64sub, SFsub; try discriminate;
    try (destruct sx; destruct sy; discriminate);
    try (destruct sy; discriminate).
  apply binary_normalize_not_nan.
Qed.

Lemma const_mul_not_negative (c x : float) :
  isPositiveFinite c = true -> PrimFloat.leb 0 x = true ->
  PrimFloat.leb 0 (c * x) = true.
Proof.
  unfold isPositiveFinite. intros Hc Hx.
  destruct (Prim2SF c) as [ | | | [ | ] mc ec] eqn:Ec; try discriminate.
  apply leb_zero_shape in Hx.
  destruct Hx as [[s Ex] | [(m & e & Ex) | Ex]].
  - apply leb_zero_shape. rewrite mul_spec, Ex, Ec. simpl. eauto.
  - apply (shape_leb_zero _ _ (mul_spec c x)).
    rewrite Ex, Ec. unfold SF64mul, SFmul.
    apply binary_round_aux_shape. lia.
  - apply leb_zero_shape. rewrite mul_spec, Ex, Ec. simpl. auto.
Qed.

Lemma div_not_negative (x c : float) :
  PrimFloat.leb 0 x = true -> isPositiveFinite c = true ->
  PrimFloat.leb 0 (x / c) = true.
Proof.
  unfold isPositiveFinite. intros Hx Hc.
  destruct (Prim2SF c) as [ | | | [ | ] mc ec] eqn:Ec; try discriminate.
  apply leb_zero_shape in Hx.
  destruct Hx as [[s Ex] | [(m & e & Ex) | Ex]].
  - apply leb_zero_shape. rewrite div_spec, Ex, Ec. simpl. eauto.
  - apply (shape_leb_zero _ _ (div_spec x c)).
    rewrite Ex, Ec. unfold SF64div, SFdiv.
    pose proof (SFdiv_core_binary_nonneg m mc e ec) as Hq.
    destruct (SFdiv_core_binary prec emax (Z.pos m) e (Z.pos mc) ec) as [[mz ez] lz].
    apply binary_round_aux_shape. exact Hq.
  - apply leb_zero_shape. rewrite div_spec, Ex, Ec. simpl. auto.
Qed.

(** Above a positive constant is above zero. *)
Lemma ltb_const_not_negative (c y : float) :
  isPositiveFinite c = true -> PrimFloat.ltb c y = true ->
  PrimFloat.leb 0 y = true.
Proof.
  unfold isPositiveFinite. rewrite ltb_spec. intros Hc Hy.
  destruct (Prim2SF c) as [ | | | [ | ] mc ec] eqn:Ec; try discriminate.
  apply leb_zero_shape. unfold SFltb in Hy.
  destruct (Prim2SF y) as [s | s | | s m e]; simpl in Hy; try discriminate.
  - destruct s; [ discriminate | auto ].
  - destruct s; [ discriminate | eauto ].
Qed.

(** A finite positive constant less a number within [20, 150] is a number. *)
Lemma leb_const_finite (lo hi x : float) :
  isPositiveFinite lo = true -> isPositiveFinite hi = true ->
  PrimFloat.leb lo x = true -> PrimFloat.leb x hi = true ->
  isPositiveFinite x = true.
Proof.
  unfold isPositiveFinite. rewrite !leb_spec. intros Hlo Hhi H1 H2.
  destruct (Prim2SF lo) as [ | | | [ | ] ml el]; try discriminate.
  destruct (Prim2SF hi) as [ | | | [ | ] mh eh]; try discriminate.
  unfold SFleb in H1, H2.
  destruct (Prim2SF x) as [s | s | | s m e]; simpl in H1, H2; try discriminate.
  - destruct s; discriminate.
  - destruct s; [ discriminate | reflexivity ].
Qed.

End Binary64Signs.

Section RuleCases.

Context {num : Type} `{NumberModel num}.

Lemma tierRule_choice (ficoScore : num) :
  exists t, In t tierChoices /\ forall w, tierRule ficoScore w = t w.
Proof.
  unfold tierRule, tierChoices.
  destruct (leb (lit 740) ficoScore); [ | destruct (leb ficoScore (lit 580)) ];
    eexists; (split; [ | intro w; reflexivity ]); simpl; auto.
Qed.

Lemma dtiRule_choice (totalDebt monthlyIncome : num) :
  exists t, In t dtiChoices /\ forall w, dtiRule totalDebt monthlyIncome w = t w.
Proof.
  unfold dtiRule, dtiChoices.
  destruct (ltb (lit 0.45) (debtToIncome totalDebt monthlyIncome));
    eexists; (split; [ | intro w; reflexivity ]); simpl; auto.
Qed.

Lemma overallUtilizationRule_choice (totalDebt totalCreditLimit : num) :
  exists t, In t overallUtilizationChoices
            /\ forall w, overallUtilizationRule totalDebt totalCreditLimit w = t w.
Proof.
  unfold overallUtilizationRule, overallUtilizationChoices.
  destruct (ltb (lit 0) totalCreditLimit);
    [ destruct (ltb (mul (div totalDebt totalCreditLimit) (lit 100)) (lit 30)) | ];
    eexists; (split; [ | intro w; reflexivity ]); simpl; auto.
Qed.

Lemma anchorRule_choice (positiveAccounts : num) :
  exists t, In t anchorChoices /\ forall w, anchorRule positiveAccounts w = t w.
Proof.
  unfold anchorRule, anchorChoices.
  destruct (ltb (lit 0) positiveAccounts);
    eexists; (split; [ | intro w; reflexivity ]); simpl; auto.
Qed.

Lemma ageRule_choice (oldestAccountAge : num) :
  exists t, In t ageChoices /\ forall w, ageRule oldestAccountAge w = t w.
Proof.
  unfold ageRule, ageChoices.
  destruct (ltb oldestAccountAge (lit 4));
    [ | destruct (ltb (lit 10) oldestAccountAge) ];
    eexists; (split; [ | intro w; reflexivity ]); simpl; auto.
Qed.

(** Whatever the profile, the adjusted weights are one of the 72 outcomes. *)
Lemma adjustWeights_in_allAdjusted (f d i p a l : num) :
  In (adjustWeights f d i p a l) allAdjusted.
Proof.
  unfold adjustWeights, allAdjusted.
  destruct (tierRule_choice f) as (t & Ht & ->).
  destruct (dtiRule_choice d i) as (td & Hd & ->).
  destruct (overallUtilizationRule_choice d l) as (to & Ho & ->).
  destruct (anchorRule_choice p) as (tp & Hp & ->).
  destruct (ageRule_choice a) as (ta & Ha & ->).
  apply in_flat_map; exists t; split; [ exact Ht | ].
  apply in_flat_map; exists td; split; [ exact Hd | ].
  apply in_flat_map; exists to; split; [ exact Ho | ].
  apply in_flat_map; exists tp; split; [ exact Hp | ].
  apply in_map_iff; exists ta; split; [ reflexivity | exact Ha ].
Qed.

(** A check that passes on the 72 outcomes holds of every profile. *)
Lemma adjustWeights_forall (P : Weights.t num -> bool) :
  forallb P allAdjusted = true ->
  forall f d i p a l, P (adjustWeights f d i p a l) = true.
Proof.
  intros HP f d i p a l.
  rewrite forallb_forall in HP.
  apply HP, adjustWeights_in_allAdjusted.
Qed.

End RuleCases.

(** ** The fields of the result *)

Section SimulateFacts.

Context {num : Type} `{NumberModel num}.

Lemma simulate_branch (nd : NumericData.t num) :
  (Results.lowPointScore (simulate nd), Results.recoveryMonths (simulate nd),
   Results.impactPenalty (simulate nd))
  = scenarioBranch nd (weightsOf nd).
Proof.
  unfold simulate.
  destruct (scenarioBranch nd (weightsOf nd)) as [[low months] penalty].
  reflexivity.
Qed.

Lemma simulate_initialScore (nd : NumericData.t num) :
  Results.initialScore (simulate nd) = NumericData.ficoScore nd.
Proof.
  unfold simulate.
  destruct (scenarioBranch nd (weightsOf nd)) as [[low months] penalty].
  reflexivity.
Qed.

Lemma simulate_weights (nd : NumericData.t num) :
  Results.weights (simulate nd) = weightsOf nd.
Proof.
  unfold simulate.
  destruct (scenarioBranch nd (weightsOf nd)) as [[low months] penalty].
  reflexivity.
Qed.

Lemma simulate_projectedScore (nd : NumericData.t num) :
  Results.projectedScore (simulate nd)
  = Math_min (lit 850)
      (Math_round
         (add (Results.lowPointScore (simulate nd))
            (potentialGain nd (weightsOf nd)
               (Results.recoveryMonths (simulate nd))))).
Proof.
  unfold simulate.
  destruct (scenarioBranch nd (weightsOf nd)) as [[low months] penalty].
  reflexivity.
Qed.


Lemma simulate_milestones (nd : NumericData.t num) :
  let r := simulate nd in
  let totalGain := sub (Results.projectedScore r) (Results.lowPointScore r) in
  Results.milestoneDipScore r = Results.lowPointScore r
  /\ Results.milestoneStabilizationScore r
     = Math_min (Results.initialScore r)
         (add (Results.lowPointScore r) (Math_round (mul totalGain (lit 0.15))))
  /\ Results.milestoneRecoveryScore r
     = add (Results.lowPointScore r) (Math_round (mul totalGain (lit 0.65))).
Proof.
  unfold simulate.
  destruct (scenarioBranch nd (weightsOf nd)) as [[low months] penalty].
  simpl. auto.
Qed.

Lemma scenarioBranch_pre (nd : NumericData.t num) (w : Weights.t num) :
  NumericData.scenarioType nd = "pre-enrollment" ->
  scenarioBranch nd w
  = (Math_max (lit 300)
       (sub (NumericData.ficoScore nd) (calculateWorstCaseImpact nd w)),
     NumericData.programTimeline nd,
     calculateWorstCaseImpact nd w).
Proof.
  intro Hs. unfold scenarioBranch. rewrite Hs. reflexivity.
Qed.

Lemma scenarioBranch_other (nd : NumericData.t num) (w : Weights.t num) :
  NumericData.scenarioType nd <> "pre-enrollment" ->
  scenarioBranch nd w
  = (NumericData.ficoScore nd,
     Math_max (lit 12)
       (sub (NumericData.programTimeline nd) (NumericData.monthsInProgram nd)),
     lit 0).
Proof.
  intro Hs. unfold scenarioBranch.
  apply String.eqb_neq in Hs. rewrite Hs. reflexivity.
Qed.

Lemma simulate_pre (nd : NumericData.t num) :
  NumericData.scenarioType nd = "pre-enrollment" ->
  Results.lowPointScore (simulate nd)
  = Math_max (lit 300)
      (sub (NumericData.ficoScore nd)
         (calculateWorstCaseImpact nd (weightsOf nd)))
  /\ Results.recoveryMonths (simulate nd) = NumericData.programTimeline nd
  /\ Results.impactPenalty (simulate nd)
     = calculateWorstCaseImpact nd (weightsOf nd).
Proof.
  intro Hs. pose proof (simulate_branch nd) as Hb.
  rewrite scenarioBranch_pre in Hb by exact Hs.
  injection Hb as Hlow Hmonths Hpen. auto.
Qed.

Lemma simulate_other (nd : NumericData.t num) :
  NumericData.scenarioType nd <> "pre-enrollment" ->
  Results.lowPointScore (simulate nd) = NumericData.ficoScore nd
  /\ Results.recoveryMonths (simulate nd)
     = Math_max (lit 12)
         (sub (NumericData.programTimeline nd) (NumericData.monthsInProgram nd))
  /\ Results.impactPenalty (simulate nd) = lit 0.
Proof.
  intro Hs. pose proof (simulate_branch nd) as Hb.
  rewrite scenarioBranch_other in Hb by exact Hs.
  injection Hb as Hlow Hmonths Hpen. auto.
Qed.

End SimulateFacts.

(** The coercion [Number(v) || d] on binary64. *)
Lemma orElse_not_nan (n : option float) (d : float) :
  is_nan d = false -> is_nan (orElse n d) = false.
Proof.
  intro Hd. unfold orElse. destruct n as [x | ]; [ | exact Hd ].
  simpl. unfold Binary64.truthy.
  destruct (is_nan x) eqn:Hx; simpl; [ exact Hd | ].
  destruct (is_zero x); simpl; [ exact Hd | exact Hx ].
Qed.


(** Each literal of the source, rounded to the nearest double by [lit], is
    the double Rocq reads from the same decimal text. *)
Lemma literals_are_nearest_doubles :
  map Binary64.Q2F sourceLiterals
  = [0.35; 0.30; 0.15; 0.10; 0.25; 0.40; 0.20; 0.45; 0.05; 0.55; 0.65;
     740; 580; 12; 100; 30; 10; 5; 2; 500; 20; 15; 150; 36; 300; 250; 50; 25;
     850; 4; 0; 1]%float.
Proof.
  vm_compute. reflexivity.
Qed.

(** [toFixed] on both sides of 10^21: fixed notation below, the exponential
    text of [Number::toString] from there on. *)
Lemma toFixed_texts :
  map (fun x => Binary64.toFixed x 1)
    [0.9375; 1.45; -0.04; 999999999999999900000; 1e21;
     1180591620717411303424; -1.875e29; 1.7976931348623157e308]%float
  = ["0.9"; "1.4"; "-0.0"; "999999999999999868928.0"; "1e+21";
     "1.1805916207174113e+21"; "-1.875e+29"; "1.7976931348623157e+308"].
Proof.
  vm_compute. reflexivity.
Qed.

(** ** The weight model *)

(** Scenario A, checked on binary64 doubles. *)

(** C1. For the worked pre-enrollment scenario the composed simulation
    returns weights 0.30 / 0.30 / 0.15 / 0.15 / 0.10, impactPenalty 37,
    lowPointScore 613, projectedScore 796, scoreGain 146, savings 11000,
    postDTI "0.9", and the milestones 640 and 732. *)
Theorem scenarioA_results :
  let r := runSimulation scenarioA in
  Results.weights r
  = {| Weights.paymentHistory := 0.30%float;
       Weights.utilization := 0.30%float;
       Weights.accountAge := 0.15%float;
       Weights.creditMix := 0.15%float;
       Weights.newCredit := 0.10%float |}
  /\ Results.impactPenalty r = 37%float
  /\ Results.lowPointScore r = 613%float
  /\ Results.projectedScore r = 796%float
  /\ Results.scoreGain r = 146%float
  /\ Results.savings r = 11000%float
  /\ Results.postDTI r = "0.9"
  /\ Results.milestoneStabilizationScore r = 640%float
  /\ Results.milestoneRecoveryScore r = 732%float.
Proof.
  vm_compute. repeat split; reflexivity.
Qed.

(** The check behind the normalisation theorem, run on each of the 72
    outcomes of the rules: the sum, the clamp ranges before step 5, and the
    ranges of the weights that are returned. *)
Lemma allAdjusted_normalized :
  forallb
    (fun pre : Weights.t float =>
       let w := normalizeWeights pre in
       sumsToOneWithin (1 # 1000) w
       && withinClampBounds pre
       && (PrimFloat.leb 0.2174 (Weights.paymentHistory w)
           && PrimFloat.leb 0.1818 (Weights.utilization w)
           && PrimFloat.leb (Weights.utilization w) 0.45
           && PrimFloat.leb 0.05 (Weights.accountAge w)
           && PrimFloat.leb (Weights.accountAge w) 0.25
           && PrimFloat.leb (Weights.creditMix w) 0.20
           && PrimFloat.leb (Weights.newCredit w) 0.20))
    allAdjusted = true.
Proof.
  vm_compute. reflexivity.
Qed.

(** C2, as the code has it.  For every profile the five returned weights sum
    to 1 within 0.001 (the sum is taken exactly, on the rationals the doubles
    stand for), and before normalisation every weight lies within the clamp
    ranges of the rules.  The returned weights keep every clamp bound but
    two: accountAge is within [0.05, 0.25], creditMix and newCredit are at
    most 0.20 and utilization is at most 0.45, while the floors of
    utilization and paymentHistory, divided by a sum that may exceed 1, are
    0.1818 and 0.2174 in place of 0.20 and 0.25. *)
Theorem calculateWeights_normalized (f d i p a l : float) :
  let pre := adjustWeights f d i p a l in
  let w := calculateWeights f d i p a l in
  sumsToOneWithin (1 # 1000) w = true
  /\ withinClampBounds pre = true
  /\ PrimFloat.leb 0.2174 (Weights.paymentHistory w) = true
  /\ PrimFloat.leb 0.1818 (Weights.utilization w) = true
  /\ PrimFloat.leb (Weights.utilization w) 0.45 = true
  /\ PrimFloat.leb 0.05 (Weights.accountAge w) = true
  /\ PrimFloat.leb (Weights.accountAge w) 0.25 = true
  /\ PrimFloat.leb (Weights.creditMix w) 0.20 = true
  /\ PrimFloat.leb (Weights.newCredit w) 0.20 = true.
Proof.
  cbv zeta. unfold calculateWeights.
  pose proof (adjustWeights_forall _ allAdjusted_normalized f d i p a l) as HP.
  cbv beta zeta in HP.
  repeat match goal with
         | A : _ && _ = true |- _ => apply andb_prop in A as [? ?]
         end.
  repeat split; assumption.
Qed.

(** C2 fails as stated, at two floors.  With ficoScore 580, totalDebt 2000,
    monthlyIncome 4000, no positive account, an account of 12 years and a
    credit limit of 10000, the returned utilization weight is 0.1818, below
    0.20; with ficoScore 740, totalDebt 20000, monthlyIncome 1000, no
    positive account, an account of 12 years and no credit limit, the
    returned paymentHistory weight is 0.2174, below 0.25. *)
Lemma calculateWeights_utilization_below_clamp :
  Weights.utilization lowTierLowUtilization = 0.1818%float
  /\ PrimFloat.leb 0.20 (Weights.utilization lowTierLowUtilization) = false
  /\ withinClampBounds lowTierLowUtilization = false
  /\ Weights.paymentHistory (weightsOfProfile highTierInDebtOld) = 0.2174%float
  /\ PrimFloat.leb 0.25 (Weights.paymentHistory (weightsOfProfile highTierInDebtOld))
     = false.
Proof.
  vm_compute. repeat split; reflexivity.
Qed.

(** ** The impact estimator *)

Section Clamps.

(** [Math.max(lo, x)] for a constant [lo] that is a number and not -0. *)
Lemma max_const (lo x : float) :
  is_nan lo = false -> get_sign lo = false -> is_nan x = false ->
  (Binary64.max lo x = x /\ PrimFloat.ltb lo x = true)
  \/ (Binary64.max lo x = lo /\ PrimFloat.ltb lo x = false).
Proof.
  intros Hlo Hs Hx. unfold Binary64.max. rewrite Hlo, Hx, Hs. simpl.
  destruct (PrimFloat.ltb lo x); [ left; auto | right ].
  destruct (PrimFloat.ltb x lo); auto.
Qed.

(** [Math.min(hi, x)] for a constant [hi] that is a number and not -0. *)
Lemma min_const (hi x : float) :
  is_nan hi = false -> get_sign hi = false -> is_nan x = false ->
  (Binary64.min hi x = hi /\ PrimFloat.ltb hi x = true)
  \/ (Binary64.min hi x = x /\ PrimFloat.ltb hi x = false).
Proof.
  intros Hhi Hs Hx. unfold Binary64.min. rewrite Hhi, Hx, Hs. simpl.
  destruct (PrimFloat.ltb hi x); [ left; auto | right ].
  destruct (PrimFloat.ltb x hi); auto.
Qed.

Lemma max_const_bound (lo x : float) :
  is_nan lo = false -> get_sign lo = false -> is_nan x = false ->
  is_nan (Binary64.max lo x) = false
  /\ PrimFloat.leb lo (Binary64.max lo x) = true.
Proof.
  intros Hlo Hs Hx.
  destruct (max_const lo x Hlo Hs Hx) as [[-> Hlt] | [-> Hlt]].
  - split; [ exact Hx | apply ltb_leb, Hlt ].
  - split; [ exact Hlo | apply not_ltb_leb; auto ].
    destruct (PrimFloat.ltb lo lo) eqn:E; [ | reflexivity ].
    exfalso. revert E. rewrite ltb_spec. unfold SFltb.
    apply not_nan_Prim2SF in Hlo.
    destruct (Prim2SF lo) as [s | s | | s m e]; simpl;
      try discriminate; try congruence.
    + destruct s; discriminate.
    + destruct s; rewrite Z.compare_refl, Pos.compare_cont_refl; discriminate.
Qed.

Lemma min_const_bound (hi x : float) :
  is_nan hi = false -> get_sign hi = false -> is_nan x = false ->
  is_nan (Binary64.min hi x) = false
  /\ PrimFloat.leb (Binary64.min hi x) hi = true.
Proof.
  intros Hhi Hs Hx.
  destruct (min_const hi x Hhi Hs Hx) as [[-> Hlt] | [-> Hlt]].
  - split; [ exact Hhi | ].
    destruct (max_const_bound hi hi Hhi Hs Hhi) as [_ Hle].
    destruct (max_const hi hi Hhi Hs Hhi) as [[E _] | [E _]];
      rewrite E in Hle; exact Hle.
  - split; [ exact Hx | apply not_ltb_leb; auto ].
Qed.

End Clamps.


(** The check behind the factor [weights.utilization * 2]: on each of the
    72 outcomes it is finite and above zero. *)
Lemma allAdjusted_utilization_positive :
  forallb
    (fun pre : Weights.t float =>
       isPositiveFinite (Weights.utilization (normalizeWeights pre) * 2)%float)
    allAdjusted = true.
Proof.
  vm_compute. reflexivity.
Qed.

(** The raw drop is a number as soon as the three fields it reads are, the
    doubled utilization weight is finite and positive, and ten times
    positiveAccounts is not +Infinity. *)
Lemma rawDrop_not_nan (nd : NumericData.t float) (w : Weights.t float) :
  is_nan (NumericData.utilization nd) = false ->
  is_nan (NumericData.ficoScore nd) = false ->
  isPositiveFinite (Weights.utilization w * 2)%float = true ->
  PrimFloat.ltb (NumericData.positiveAccounts nd * 10)%float infinity = true ->
  is_nan (rawDrop nd w) = false.
Proof.
  intros Hu Hf Hw Hp. unfold rawDrop.
  set (uf := Math_max (lit 0) (div (sub (lit 100) (NumericData.utilization nd)) (lit 10))).
  set (sf := Math_max (lit 0) (div (sub (NumericData.ficoScore nd) (lit 500)) (lit 20))).
  assert (Huf : PrimFloat.leb 0 uf = true).
  { apply (max_const_bound 0 _ eq_refl eq_refl).
    apply div_not_nan; [ | reflexivity ].
    apply const_sub_not_nan; [ reflexivity | exact Hu ]. }
  assert (Hsf : PrimFloat.leb 0 sf = true).
  { apply (max_const_bound 0 _ eq_refl eq_refl).
    apply div_not_nan; [ | reflexivity ].
    apply sub_const_not_nan; [ exact Hf | reflexivity ]. }
  assert (Hd : PrimFloat.leb 0
                 (add (add (lit 0) (mul (mul uf (lit 5)) (mul (Weights.utilization w) (lit 2))))
                    (mul sf (lit 5))) = true).
  { apply add_not_negative; [ apply add_not_negative; [ reflexivity | ] | ].
    - apply mul_not_negative; [ | exact Hw ].
      apply mul_not_negative; [ exact Huf | reflexivity ].
    - apply mul_not_negative; [ exact Hsf | reflexivity ]. }
  pose proof (sub_not_nan _ _ Hd Hp) as Hdrop.
  cbv zeta.
  destruct (ltb (lit 10) (NumericData.oldestAccountAge nd)); [ | exact Hdrop ].
  apply sub_const_not_nan; [ exact Hdrop | reflexivity ].
Qed.

(** Rounding and then clamping a number, on binary64: the result is the
    double of an integer of [20, 150]. *)
Lemma clamp_round_binary64 (x : float) :
  is_nan x = false ->
  let r := Binary64.min 150 (Binary64.max 20 (Binary64.round x)) in
  PrimFloat.leb 20 r = true /\ PrimFloat.leb r 150 = true
  /\ exists n : Z, (20 <= n <= 150)%Z /\ r = Binary64.Z2F n false.
Proof.
  intros Hx r.
  assert (Hr : r = Binary64.min 150 (Binary64.max 20 (Binary64.round x)))
    by reflexivity.
  clearbody r.
  set (rd := Binary64.round x) in *.
  assert (Hrd : is_nan rd = false) by (apply round_not_nan, Hx).
  destruct (max_const_bound 20 rd eq_refl eq_refl Hrd) as [Hm Hlo].
  destruct (min_const_bound 150 (Binary64.max 20 rd) eq_refl eq_refl Hm) as [_ Hhi].
  rewrite <- Hr in Hhi. split; [ | split; [ exact Hhi | ] ].
  - destruct (min_const 150 (Binary64.max 20 rd) eq_refl eq_refl Hm)
      as [[E _] | [E _]]; rewrite Hr, E; [ reflexivity | exact Hlo ].
  - destruct (min_const 150 (Binary64.max 20 rd) eq_refl eq_refl Hm)
      as [[E _] | [E Hnot]]; rewrite Hr, E; clear E.
    { exists 150%Z. split; [ lia | reflexivity ]. }
    destruct (max_const 20 rd eq_refl eq_refl Hrd) as [[E Hlt] | [E _]];
      rewrite E in *; clear E.
    2:{ exists 20%Z. split; [ lia | reflexivity ]. }
    revert Hlt Hnot. unfold rd, Binary64.round.
    pose proof (Prim2SF_valid x) as Hvalid.
    destruct (Prim2SF x) as [s | s | | s m e] eqn:Ex;
      try (rewrite !ltb_spec, Ex; try destruct s; discriminate).
    destruct (Z.leb_spec 0 e) as [He | He].
    + rewrite !ltb_spec, Ex.
      change (Prim2SF 150) with (S754_finite false 5277655813324800 (-45)).
      unfold SFltb, SFcompare.
      destruct s; [ discriminate | ].
      destruct (Z.compare_spec (-45) e) as [E | E | E];
        [ lia | intros _ Hnot; discriminate Hnot | lia ].
    + intros Hlt Hnot.
      pose proof (roundHalfUp_finiteValue_bound s m e Hvalid He) as Hbound.
      set (n := roundHalfUp (Binary64.finiteValue s m e)) in *.
      pose proof (Z2F_between n s Hbound Hlt Hnot) as Hn.
      exists n. split; [ lia | ].
      destruct n; [ lia | reflexivity | reflexivity ].
Qed.

(** The raw drop of a record is a number when ten times positiveAccounts is
    not +Infinity. *)
Lemma record_rawDrop_not_nan (data : UserData.t float) :
  let nd := numericData data in
  PrimFloat.ltb (NumericData.positiveAccounts nd * 10)%float infinity = true ->
  is_nan (rawDrop nd (weightsOf nd)) = false.
Proof.
  intros nd Hp.
  apply rawDrop_not_nan.
  - apply orElse_not_nan. reflexivity.
  - apply orElse_not_nan. reflexivity.
  - apply (adjustWeights_forall _ allAdjusted_utilization_positive).
  - exact Hp.
Qed.

(** A raw drop that is NaN stays NaN through the rounding and the clamp. *)
Lemma clamp_round_nan (x : float) :
  is_nan x = true ->
  is_nan (Binary64.min 150 (Binary64.max 20 (Binary64.round x))) = true.
Proof.
  intro Hx. unfold Binary64.round.
  rewrite (proj1 (is_nan_Prim2SF x) Hx).
  unfold Binary64.max. rewrite Hx, orb_true_r.
  unfold Binary64.min. reflexivity.
Qed.

(** C3, as the code has it.  [calculateWorstCaseImpact] computes the raw
    drop by the formula of section 4.2, rounds it half-up and then clamps
    it.  Whenever the raw drop is a number the result is an integer of
    [20, 150]; when it is NaN the result is NaN.  The raw drop of a record
    is a number whatever its fields, infinite ones included, as long as ten
    times positiveAccounts is below +Infinity.  Scenario A (a tie, 36.5),
    the top score with the shortest timeline, a score of 250 and an
    infinite utilization give 37, 114, 20 and 150. *)
Theorem calculateWorstCaseImpact_bounds :
  (forall (data : NumericData.t float) (weights : Weights.t float),
      let utilizationFactor :=
        Binary64.max 0 ((100 - NumericData.utilization data) / 10) in
      let severityFactor :=
        Binary64.max 0 ((NumericData.ficoScore data - 500) / 20) in
      let drop :=
        (0 + utilizationFactor * 5 * (Weights.utilization weights * 2)
         + severityFactor * 5
         - NumericData.positiveAccounts data * 10)%float in
      let drop :=
        if PrimFloat.ltb 10 (NumericData.oldestAccountAge data)
        then (drop - 15)%float else drop in
      let r := calculateWorstCaseImpact data weights in
      r = Binary64.min 150 (Binary64.max 20 (Binary64.round drop))
      /\ (is_nan drop = false ->
          PrimFloat.leb 20 r = true /\ PrimFloat.leb r 150 = true
          /\ exists n : Z, (20 <= n <= 150)%Z /\ r = Binary64.Z2F n false)
      /\ (is_nan drop = true -> is_nan r = true))
  /\ (forall data : UserData.t float,
         let nd := numericData data in
         let r := calculateWorstCaseImpact nd (weightsOf nd) in
         PrimFloat.ltb (NumericData.positiveAccounts nd * 10)%float infinity = true ->
         PrimFloat.leb 20 r = true /\ PrimFloat.leb r 150 = true
         /\ exists n : Z, (20 <= n <= 150)%Z /\ r = Binary64.Z2F n false)
  /\ map (fun d => rawDrop (numericData d) (weightsOf (numericData d)))
       [scenarioA; topScoreShortTimeline; lowScoreTracker; infiniteUtilization]
     = [36.5; 114.17; -3.181; infinity]%float
  /\ map (fun d =>
            calculateWorstCaseImpact (numericData d) (weightsOf (numericData d)))
       [scenarioA; topScoreShortTimeline; lowScoreTracker; infiniteUtilization]
     = [37; 114; 20; 150]%float.
Proof.
  split; [ | split; [ | split ] ].
  - intros data weights uf sf drop0 drop r.
    assert (Hdrop : drop = rawDrop data weights) by reflexivity.
    split; [ reflexivity | ]. rewrite Hdrop. split.
    + intro Hn. apply clamp_round_binary64, Hn.
    + intro Hn. apply clamp_round_nan, Hn.
  - intros data nd r Hp.
    apply clamp_round_binary64. apply (record_rawDrop_not_nan data). exact Hp.
  - vm_compute. reflexivity.
  - vm_compute. reflexivity.
Qed.

(** Scenario A is an input of the statement on records: ten times its
    positiveAccounts is 10, and its penalty is the integer 37. *)
Lemma calculateWorstCaseImpact_bounds_witness :
  let nd := numericData scenarioA in
  let r := calculateWorstCaseImpact nd (weightsOf nd) in
  PrimFloat.leb 20 r = true /\ PrimFloat.leb r 150 = true
  /\ exists n : Z, (20 <= n <= 150)%Z /\ r = Binary64.Z2F n false.
Proof.
  apply (proj1 (proj2 calculateWorstCaseImpact_bounds) scenarioA).
  vm_compute. reflexivity.
Defined.

(** C3 fails as stated: the result is not an integer of [20, 150] for every
    input.  With utilization -Infinity and positiveAccounts Infinity the raw
    drop is Infinity - Infinity, and [Math.round], [Math.max] and [Math.min]
    hand the NaN on. *)
Lemma calculateWorstCaseImpact_nan_on_infinite_fields :
  let data := numericData infiniteProfile in
  is_nan (rawDrop data (weightsOf data)) = true
  /\ is_nan (calculateWorstCaseImpact data (weightsOf data)) = true
  /\ PrimFloat.leb 20 (calculateWorstCaseImpact data (weightsOf data)) = false
  /\ PrimFloat.leb (calculateWorstCaseImpact data (weightsOf data)) 150 = false
  /\ is_nan (Results.impactPenalty (runSimulation infiniteProfile)) = true.
Proof.
  vm_compute. repeat split; reflexivity.
Qed.

(** ** The projection *)

(** C4. With scenarioType 'progress-tracker' the engine returns
    impactPenalty 0, the (coerced) ficoScore as lowPointScore, and
    recoveryMonths = max(12, programTimeline - monthsInProgram), whatever the
    number model; scenario B gives 0, 650 and 24. *)
Theorem progress_tracker_branch :
  (forall (num : Type) (M : NumberModel num) (data : UserData.t num),
      UserData.scenarioType data = "progress-tracker" ->
      let nd := numericData data in
      let r := runSimulation data in
      Results.impactPenalty r = lit 0
      /\ Results.lowPointScore r = NumericData.ficoScore nd
      /\ Results.recoveryMonths r
         = Math_max (lit 12)
             (sub (NumericData.programTimeline nd) (NumericData.monthsInProgram nd)))
  /\ (let r := runSimulation scenarioB in
      Results.impactPenalty r = 0%float
      /\ Results.lowPointScore r = 650%float
      /\ Results.recoveryMonths r = 24%float).
Proof.
  split.
  - intros num M data Hs nd r.
    destruct (simulate_other nd) as (Hlow & Hmonths & Hpen).
    { change (NumericData.scenarioType nd) with (UserData.scenarioType data).
      rewrite Hs. discriminate. }
    auto.
  - vm_compute. repeat split; reflexivity.
Qed.

(** Scenario B is an input of the general statement. *)
Lemma progress_tracker_branch_witness :
  let nd := numericData scenarioB in
  let r := runSimulation scenarioB in
  Results.impactPenalty r = 0%float
  /\ Results.lowPointScore r = NumericData.ficoScore nd
  /\ Results.recoveryMonths r
     = Binary64.max 12
         (PrimFloat.sub (NumericData.programTimeline nd) (NumericData.monthsInProgram nd)).
Proof.
  exact (proj1 progress_tracker_branch float Binary64Numbers scenarioB eq_refl).
Defined.

Lemma min_not_nan (a b : float) :
  is_nan (Binary64.min a b) = false -> is_nan a = false /\ is_nan b = false.
Proof.
  unfold Binary64.min.
  destruct (is_nan a), (is_nan b); simpl; auto; discriminate.
Qed.

Lemma max_not_nan (a b : float) :
  is_nan (Binary64.max a b) = false -> is_nan a = false /\ is_nan b = false.
Proof.
  unfold Binary64.max.
  destruct (is_nan a), (is_nan b); simpl; auto; discriminate.
Qed.

(** The check behind the gains: on each of the 72 outcomes the utilization
    gain is not negative and the factors of the two timed gains are finite
    and positive. *)
Lemma allAdjusted_gain_factors :
  forallb
    (fun pre : Weights.t float =>
       let w := normalizeWeights pre in
       PrimFloat.leb 0 (0 + Weights.utilization w * 250)%float
       && isPositiveFinite (Weights.paymentHistory w * 150)%float
       && isPositiveFinite (Weights.accountAge w * 50)%float)
    allAdjusted = true.
Proof.
  vm_compute. reflexivity.
Qed.

(** The potential gain of a record is a number, not below zero, when its
    recoveryMonths is. *)
Lemma potentialGain_not_negative (nd : NumericData.t float) (months : float) :
  PrimFloat.leb 0 months = true ->
  PrimFloat.leb 0 (potentialGain nd (weightsOf nd) months) = true.
Proof.
  intro Hm.
  pose proof (adjustWeights_forall _ allAdjusted_gain_factors
                (NumericData.ficoScore nd) (NumericData.totalDebt nd)
                (NumericData.monthlyIncome nd) (NumericData.positiveAccounts nd)
                (NumericData.oldestAccountAge nd) (NumericData.totalCreditLimit nd))
    as Hw.
  cbv beta zeta in Hw.
  apply andb_prop in Hw as [Hw Ha]. apply andb_prop in Hw as [Hu Hph].
  unfold potentialGain, weightsOf.
  set (w := calculateWeights _ _ _ _ _ _) in *.
  assert (H36 : PrimFloat.leb 0 (months / 36) = true)
    by (apply div_not_negative; [ exact Hm | reflexivity ]).
  cbv zeta.
  apply add_not_negative.
  - apply add_not_negative; [ apply add_not_negative; [ exact Hu | ] | ].
    + apply const_mul_not_negative; [ exact Hph | exact H36 ].
    + apply const_mul_not_negative; [ exact Ha | exact H36 ].
  - destruct (NumericData.securedCard nd), (NumericData.creditBuilder nd),
      (NumericData.authorizedUser nd); reflexivity.
Qed.

(** The scores of a pre-enrollment record are numbers when ten times
    positiveAccounts is not +Infinity and programTimeline is not negative. *)
Lemma pre_enrollment_scores_not_nan (data : UserData.t float) :
  let nd := numericData data in
  let r := runSimulation data in
  UserData.scenarioType data = "pre-enrollment" ->
  PrimFloat.ltb (NumericData.positiveAccounts nd * 10)%float infinity = true ->
  PrimFloat.leb 0 (NumericData.programTimeline nd) = true ->
  is_nan (Results.lowPointScore r) = false
  /\ is_nan (Results.projectedScore r) = false.
Proof.
  intros nd r Hs Hp Ht. unfold r, runSimulation. fold nd.
  assert (Hfico : is_nan (NumericData.ficoScore nd) = false)
    by (apply orElse_not_nan; reflexivity).
  pose proof (record_rawDrop_not_nan data Hp) as Hdrop. fold nd in Hdrop.
  change (UserData.scenarioType data) with (NumericData.scenarioType nd) in Hs.
  clearbody nd. clear r.
  pose proof (simulate_projectedScore nd) as Hproj.
  destruct (simulate_pre nd Hs) as (Hlow & Hmonths & _).
  destruct (clamp_round_binary64 _ Hdrop) as (H20 & H150 & _).
  change (Binary64.min 150 (Binary64.max 20 (Binary64.round (rawDrop nd (weightsOf nd)))))
    with (calculateWorstCaseImpact nd (weightsOf nd)) in H20, H150.
  set (pen := calculateWorstCaseImpact nd (weightsOf nd)) in *.
  assert (Hpen : isPositiveFinite pen = true)
    by (apply (leb_const_finite 20 150); auto).
  assert (Hdiff : is_nan (NumericData.ficoScore nd - pen)%float = false)
    by (apply sub_const_not_nan; [ exact Hfico | exact Hpen ]).
  assert (Hlow0 : is_nan (Results.lowPointScore (simulate nd)) = false
                  /\ PrimFloat.leb 0 (Results.lowPointScore (simulate nd)) = true).
  { rewrite Hlow.
    change (Math_max (lit 300) (sub (NumericData.ficoScore nd) pen))
      with (Binary64.max 300 (NumericData.ficoScore nd - pen)%float).
    destruct (max_const 300 _ eq_refl eq_refl Hdiff) as [[E Hlt] | [E _]];
      rewrite E.
    - split; [ exact Hdiff | ].
      apply (ltb_const_not_negative 300); [ reflexivity | exact Hlt ].
    - split; reflexivity. }
  destruct Hlow0 as [Hnan Hpos]. split; [ exact Hnan | ].
  rewrite Hproj.
  apply (min_const_bound 850 _ eq_refl eq_refl).
  apply round_not_nan.
  apply (leb_not_nan 0).
  apply add_not_negative; [ exact Hpos | ].
  apply potentialGain_not_negative. rewrite Hmonths. exact Ht.
Qed.

(** C5, as the code has it.  The 850 ceiling applies to every projection and
    the 300 floor to the pre-enrollment low point only: with any other
    scenarioType the low point is the coerced ficoScore itself.  In exact
    arithmetic the two bounds hold outright.  On binary64 doubles they hold
    whenever the score in question is a number, and the scores of a
    pre-enrollment record are numbers as long as ten times positiveAccounts
    is not +Infinity and programTimeline is not negative. *)
Theorem score_bounds :
  (forall data : UserData.t Q,
      let r := runSimulation data in
      (Results.projectedScore r <= 850)%Q
      /\ (UserData.scenarioType data = "pre-enrollment" ->
          (300 <= Results.lowPointScore r)%Q)
      /\ (UserData.scenarioType data <> "pre-enrollment" ->
          Results.lowPointScore r = NumericData.ficoScore (numericData data)))
  /\ (forall data : UserData.t float,
         let r := runSimulation data in
         (is_nan (Results.projectedScore r) = false ->
          PrimFloat.leb (Results.projectedScore r) 850 = true)
         /\ (UserData.scenarioType data = "pre-enrollment" ->
             is_nan (Results.lowPointScore r) = false ->
             PrimFloat.leb 300 (Results.lowPointScore r) = true)
         /\ (UserData.scenarioType data <> "pre-enrollment" ->
             Results.lowPointScore r = NumericData.ficoScore (numericData data)))
  /\ (forall data : UserData.t float,
         let nd := numericData data in
         let r := runSimulation data in
         UserData.scenarioType data = "pre-enrollment" ->
         PrimFloat.ltb (NumericData.positiveAccounts nd * 10)%float infinity = true ->
         PrimFloat.leb 0 (NumericData.programTimeline nd) = true ->
         is_nan (Results.lowPointScore r) = false
         /\ is_nan (Results.projectedScore r) = false).
Proof.
  split; [ | split; [ | exact pre_enrollment_scores_not_nan ] ];
    intros data r; unfold r, runSimulation;
    set (nd := numericData data);
    pose proof (simulate_projectedScore nd) as Hp.
  - split; [ | split ].
    + rewrite Hp. apply Q.le_min_l.
    + intro Hs. destruct (simulate_pre nd Hs) as (Hlow & _).
      rewrite Hlow. apply Q.le_max_l.
    + intro Hs. destruct (simulate_other nd Hs) as (Hlow & _). exact Hlow.
  - split; [ | split ].
    + rewrite Hp. intro Hn.
      destruct (min_not_nan _ _ Hn) as [_ Hx].
      apply (min_const_bound 850 _ eq_refl eq_refl Hx).
    + intros Hs. destruct (simulate_pre nd Hs) as (Hlow & _).
      rewrite Hlow. intro Hn.
      destruct (max_not_nan _ _ Hn) as [_ Hx].
      apply (max_const_bound 300 _ eq_refl eq_refl Hx).
    + intro Hs. destruct (simulate_other nd Hs) as (Hlow & _). exact Hlow.
Qed.

(** Scenario A is an input of the binary64 half: its scores are numbers. *)
Lemma score_bounds_witness :
  let r := runSimulation scenarioA in
  PrimFloat.leb (Results.projectedScore r) 850 = true
  /\ PrimFloat.leb 300 (Results.lowPointScore r) = true.
Proof.
  pose proof (proj1 (proj2 score_bounds) scenarioA) as (Hp & Hl & _).
  pose proof (proj2 (proj2 score_bounds) scenarioA eq_refl eq_refl eq_refl)
    as (Hlow & Hproj).
  split; [ apply Hp, Hproj | apply Hl; [ reflexivity | exact Hlow ] ].
Defined.

(** C5 fails as stated: a progress-tracker record with ficoScore 250 has
    lowPointScore 250, below 300. *)
Lemma lowPointScore_below_300 :
  let r := runSimulation lowScoreTracker in
  Results.lowPointScore r = 250%float
  /\ PrimFloat.leb 300 (Results.lowPointScore r) = false.
Proof.
  vm_compute. split; reflexivity.
Qed.

(** ** A loss within the contract *)

(** C10. A profile within the contract can lose points: with ficoScore 850,
    a 12-month timeline, no positive account and no tool, the pre-enrollment
    projection is 846 and scoreGain is -4. *)
Theorem negative_gain_within_contract :
  exists data : UserData.t float,
    withinContract (numericData data) = true
    /\ UserData.scenarioType data = "pre-enrollment"
    /\ Results.initialScore (runSimulation data) = 850%float
    /\ Results.projectedScore (runSimulation data) = 846%float
    /\ Results.scoreGain (runSimulation data) = (-4)%float
    /\ PrimFloat.ltb (Results.projectedScore (runSimulation data))
         (Results.initialScore (runSimulation data)) = true.
Proof.
  exists topScoreShortTimeline. vm_compute. repeat split; reflexivity.
Qed.
(** ** Milestones *)

Section Milestones.

Local Open Scope Q_scope.

Lemma roundHalfUp_integer (k : Z) (x : Q) :
  inject_Z k <= x -> (k <= roundHalfUp x)%Z.
Proof.
  intro Hx. unfold roundHalfUp.
  rewrite <- (Qfloor_Z k). apply Qfloor_resp_le. lra.
Qed.

End Milestones.

(** The check behind the non-negativity of the weights. *)
Lemma allAdjusted_nonnegative :
  forallb (fun pre : Weights.t float => nonNegativeWeights (normalizeWeights pre))
    allAdjusted = true.
Proof.
  vm_compute. reflexivity.
Qed.

(** C6 fails as stated: the progress-tracker record with ficoScore 900 has
    non-negative weights and recoveryMonths 24, and yet projectedScore, capped
    at 850, is below lowPointScore 900, and so is the recovery milestone's
    upper bound. *)
Lemma projectedScore_below_lowPointScore :
  let r := runSimulation highScoreTracker in
  nonNegativeWeights (Results.weights r) = true
  /\ Results.recoveryMonths r = 24%float
  /\ Results.lowPointScore r = 900%float
  /\ Results.projectedScore r = 850%float
  /\ PrimFloat.leb (Results.lowPointScore r) (Results.projectedScore r) = false
  /\ PrimFloat.leb (Results.milestoneRecoveryScore r) (Results.projectedScore r) = false.
Proof.
  vm_compute. repeat split; reflexivity.
Qed.

(** None of the conditions of the amended C6 can be dropped.  A ficoScore
    below 300: before enrollment, with 250, the low point is 300 and the
    stabilization milestone 250.  A ficoScore that is not an integer: the
    progress-tracker record with 849.2 has projectedScore 850 and a recovery
    milestone of 850.2.  An infinite positiveAccounts before enrollment:
    with ficoScore 650 and recoveryMonths 36 the low point and the
    projection are NaN. *)
Lemma milestones_conditions_needed :
  (let r := runSimulation lowScorePreEnrollment in
   Results.lowPointScore r = 300%float
   /\ Results.milestoneStabilizationScore r = 250%float
   /\ PrimFloat.leb (Results.lowPointScore r) (Results.milestoneStabilizationScore r)
      = false)
  /\ (let r := runSimulation fractionalScoreTracker in
      Results.lowPointScore r = 849.2%float
      /\ Results.projectedScore r = 850%float
      /\ Results.milestoneRecoveryScore r = 850.2%float
      /\ PrimFloat.leb (Results.milestoneRecoveryScore r) (Results.projectedScore r)
         = false)
  /\ (let r := runSimulation infiniteProfile in
      NumericData.ficoScore (numericData infiniteProfile) = 650%float
      /\ Results.recoveryMonths r = 36%float
      /\ is_nan (Results.lowPointScore r) = true
      /\ is_nan (Results.projectedScore r) = true
      /\ PrimFloat.leb (Results.lowPointScore r) (Results.projectedScore r) = false).
Proof.
  vm_compute. repeat split; reflexivity.
Qed.

(** ** More on comparisons *)

Lemma not_leb_ltb (x y : float) :
  is_nan x = false -> is_nan y = false ->
  PrimFloat.leb x y = false -> PrimFloat.ltb y x = true.
Proof.
  rewrite !not_nan_Prim2SF, ltb_spec, leb_spec. unfold SFltb, SFleb.
  intros Hx Hy.
  rewrite (SFcompare_antisym (Prim2SF x) (Prim2SF y)).
  pose proof (SFcompare_not_nan _ _ Hx Hy) as Hc.
  destruct (SFcompare (Prim2SF x) (Prim2SF y)) as [[ | | ] | ];
    simpl; congruence.
Qed.

(** A number above a positive constant is truthy. *)
Lemma leb_const_truthy (c x : float) :
  isPositiveFinite c = true -> PrimFloat.leb c x = true ->
  Binary64.truthy x = true.
Proof.
  intros Hc Hx. unfold Binary64.truthy.
  destruct (leb_not_nan _ _ Hx) as [_ Hnan]. rewrite Hnan. simpl.
  unfold is_zero. rewrite FloatAxioms.eqb_spec. rewrite leb_spec in Hx.
  unfold isPositiveFinite in Hc.
  destruct (Prim2SF c) as [ | | | [ | ] mc ec]; try discriminate.
  change (Prim2SF PrimFloat.zero) with (S754_zero false).
  destruct (Prim2SF x) as [sx | sx | | sx mx ex]; simpl in *;
    try discriminate; try reflexivity;
    destruct sx; try discriminate; reflexivity.
Qed.

Lemma ltb_const_truthy (c x : float) :
  PrimFloat.leb 0 c = true -> PrimFloat.ltb c x = true ->
  Binary64.truthy x = true.
Proof.
  intros Hc Hx. unfold Binary64.truthy.
  destruct (ltb_not_nan _ _ Hx) as [_ Hnan]. rewrite Hnan. simpl.
  unfold is_zero. rewrite FloatAxioms.eqb_spec. rewrite ltb_spec in Hx.
  rewrite leb_spec in Hc.
  change (Prim2SF 0) with (S754_zero false) in Hc.
  change (Prim2SF PrimFloat.zero) with (S754_zero false).
  destruct (Prim2SF c) as [sc | sc | | sc mc ec];
    destruct (Prim2SF x) as [sx | sx | | sx mx ex]; simpl in *;
    try discriminate; try reflexivity;
    try (destruct sx; try discriminate; reflexivity);
    try (destruct sc; try discriminate; destruct sx; try discriminate; reflexivity).
Qed.

(** [Number(x) || 0] keeps a number that is not below zero at or above it. *)
Lemma orElse_zero_not_negative (x : float) :
  PrimFloat.leb 0 x = true -> PrimFloat.leb 0 (orElse (Some x) 0%float) = true.
Proof.
  intro Hx. unfold orElse. simpl.
  destruct (Binary64.truthy x); [ exact Hx | reflexivity ].
Qed.

(** ** The form and its handlers *)

Section FormFacts.

#[local] Arguments StringToNumber : simpl never.
#[local] Arguments runSimulation : simpl never.
#[local] Arguments readUserData : simpl never.
#[local] Arguments step1Error : simpl never.
#[local] Arguments step2Error : simpl never.
#[local] Arguments wellFormed : simpl never.

(** Looking up a key after an assignment. *)
Lemma get_assign (key : string) (v : FormValue) (o : Store) (q : string) :
  get q (assign key v o) = if String.eqb key q then Some v else get q o.
Proof.
  induction o as [ | [k w] rest IH]; simpl.
  - reflexivity.
  - destruct (String.eqb k key) eqn:E.
    + apply String.eqb_eq in E. subst k. simpl.
      destruct (String.eqb key q); reflexivity.
    + simpl. destruct (String.eqb k q) eqn:E2.
      * apply String.eqb_eq in E2. subst k. rewrite String.eqb_sym, E. reflexivity.
      * exact IH.
Qed.

Lemma fromInput_true (name type : string) (e : Event.t) :
  fromInput name type e = true -> Event.name e = name /\ Event.type e = type.
Proof.
  unfold fromInput. intro H. apply andb_prop in H as [Hn Ht].
  apply String.eqb_eq in Hn, Ht. auto.
Qed.

Lemma fromChoice_true (name type : string) (values : list string) (e : Event.t) :
  fromChoice name type values e = true ->
  Event.name e = name /\ Event.type e = type
  /\ existsb (String.eqb (Event.value e)) values = true.
Proof.
  unfold fromChoice. intro H. apply andb_prop in H as [H Hv].
  apply fromInput_true in H as [Hn Ht]. auto.
Qed.


Ltac not_among H :=
  simpl in H;
  repeat match type of H with
         | (_ || _) = false => apply orb_false_elim in H as [? H]
         end.

(** The checks of step 1 read eight keys. *)
Lemma step1Error_assign (key : string) (v : FormValue) (o : Store) :
  existsb (String.eqb key)
    ["ficoScore"; "totalDebt"; "accountsEnrolling"; "monthlyIncome";
     "utilization"; "positiveAccounts"; "oldestAccountAge"; "totalCreditLimit"]
  = false ->
  step1Error (assign key v o) = step1Error o.
Proof.
  intro H. not_among H. unfold step1Error.
  rewrite !get_assign.
  repeat match goal with
         | E : String.eqb key _ = false |- _ => rewrite E; clear E
         end.
  reflexivity.
Qed.

(** The check of step 2 reads two keys. *)
Lemma step2Error_assign (key : string) (v : FormValue) (o : Store) :
  existsb (String.eqb key) ["scenarioType"; "monthsInProgram"] = false ->
  step2Error (assign key v o) = step2Error o.
Proof.
  intro H. not_among H. unfold step2Error.
  rewrite !get_assign.
  repeat match goal with
         | E : String.eqb key _ = false |- _ => rewrite E; clear E
         end.
  reflexivity.
Qed.

(** The engine reads fourteen keys. *)
Lemma readUserData_assign (key : string) (v : FormValue) (o : Store) :
  existsb (String.eqb key)
    ["ficoScore"; "totalDebt"; "monthlyIncome"; "utilization";
     "accountsEnrolling"; "positiveAccounts"; "oldestAccountAge";
     "programTimeline"; "totalCreditLimit"; "monthsInProgram"; "scenarioType";
     "securedCard"; "creditBuilder"; "authorizedUser"]
  = false ->
  readUserData (assign key v o) = readUserData o.
Proof.
  intro H. not_among H. unfold readUserData.
  rewrite !get_assign.
  repeat match goal with
         | E : String.eqb key _ = false |- _ => rewrite E; clear E
         end.
  reflexivity.
Qed.

(** A value that may go under a key of a well-formed [userData]. *)
Lemma wellFormed_assign (key : string) (v : FormValue) (o : Store) :
  wellFormed o = true ->
  (existsb (String.eqb key) numberInputs = true -> blankOrNumber (Some v) = true) ->
  (key = "utilization" ->
   oneOfTexts [""; "30"; "50"; "70"; "90"; "100"] (Some v) = true) ->
  (key = "scenarioType" ->
   oneOfTexts ["pre-enrollment"; "progress-tracker"] (Some v) = true) ->
  (existsb (String.eqb key) ["securedCard"; "creditBuilder"; "authorizedUser"]
   = true -> isBoolean (Some v) = true) ->
  wellFormed (assign key v o) = true.
Proof.
  unfold wellFormed, numberInputs. cbn [forallb].
  intros H Hn Hu Hs Ht.
  rewrite !get_assign.
  repeat match goal with
         | A : _ && _ = true |- _ => apply andb_prop in A as [? ?]
         end.
  repeat (apply andb_true_intro; split);
    try reflexivity;
    match goal with
    | |- context [String.eqb key ?k] =>
        destruct (String.eqb key k) eqn:E; [ | assumption ];
        apply String.eqb_eq in E; subst key;
        first [ apply Hn; reflexivity | apply Hu; reflexivity
              | apply Hs; reflexivity | apply Ht; reflexivity ]
    end.
Qed.


Lemma processedValue_number (e : Event.t) :
  Event.type e = "number" -> blankOrNumber (Some (processedValue e)) = true.
Proof.
  intro Ht. unfold processedValue. rewrite Ht. simpl.
  destruct (String.eqb (Event.value e) ""); reflexivity.
Qed.

Lemma processedValue_programTimeline (e : Event.t) :
  Event.name e = "programTimeline" -> Event.type e = "range" ->
  blankOrNumber (Some (processedValue e)) = true.
Proof.
  intros Hn Ht. unfold processedValue. rewrite Hn, Ht. simpl.
  destruct (String.eqb (Event.value e) ""); reflexivity.
Qed.

Lemma processedValue_checkbox (e : Event.t) :
  Event.type e = "checkbox" -> processedValue e = FBoolean (Event.checked e).
Proof.
  intro Ht. unfold processedValue. rewrite Ht. reflexivity.
Qed.

Lemma processedValue_text (e : Event.t) :
  String.eqb (Event.type e) "checkbox" = false ->
  String.eqb (Event.type e) "number" = false ->
  String.eqb (Event.name e) "programTimeline" = false ->
  processedValue e = FText (Event.value e).
Proof.
  intros H1 H2 H3. unfold processedValue. rewrite H1, H2, H3. reflexivity.
Qed.

Ltac split_cases H :=
  repeat match type of H with
         | (_ || _) = true => apply orb_prop in H as [H | H]
         | (_ && _) = true =>
             let H' := fresh "Hshown" in apply andb_prop in H as [H' H]
         end.

Ltac source_of H :=
  first [ apply fromInput_true in H as [? ?]
        | apply fromChoice_true in H as (? & ? & ?) ].

(** The side conditions of [wellFormed_assign] for an event whose name and
    type are known. *)
Ltac fits e :=
  match goal with
  | Hn : Event.name e = _, Ht : Event.type e = _ |- _ =>
      rewrite Hn;
      let K := fresh "K" in
      intro K;
      first [ discriminate K
            | apply (processedValue_number e Ht)
            | apply (processedValue_programTimeline e Hn Ht)
            | rewrite (processedValue_checkbox e Ht); reflexivity
            | rewrite (processedValue_text e) by (rewrite ?Hn, ?Ht; reflexivity);
              assumption ]
  end.

(** Every input writes a value that fits its key. *)
Lemma step1Inputs_fit (e : Event.t) (o : Store) :
  step1Inputs e = true -> wellFormed o = true ->
  wellFormed (assign (Event.name e) (processedValue e) o) = true.
Proof.
  unfold step1Inputs. intros H Hwf. split_cases H; source_of H;
    (apply wellFormed_assign; [ exact Hwf | fits e .. ]).
Qed.

Lemma step2Inputs_fit (userData : Store) (e : Event.t) (o : Store) :
  step2Inputs userData e = true -> wellFormed o = true ->
  wellFormed (assign (Event.name e) (processedValue e) o) = true.
Proof.
  unfold step2Inputs. intros H Hwf. split_cases H; source_of H;
    (apply wellFormed_assign; [ exact Hwf | fits e .. ]).
Qed.

Lemma step3Inputs_fit (e : Event.t) (o : Store) :
  step3Inputs e = true -> wellFormed o = true ->
  wellFormed (assign (Event.name e) (processedValue e) o) = true.
Proof.
  unfold step3Inputs. intros H Hwf. split_cases H; source_of H;
    (apply wellFormed_assign; [ exact Hwf | fits e .. ]).
Qed.

Lemma step4Inputs_fit (results : option (Results.t float)) (e : Event.t)
  (o : Store) :
  step4Inputs results e = true -> wellFormed o = true ->
  wellFormed (assign (Event.name e) (processedValue e) o) = true.
Proof.
  unfold step4Inputs. destruct results; [ | discriminate ].
  intros H Hwf. split_cases H; source_of H;
    (apply wellFormed_assign; [ exact Hwf | fits e .. ]).
Qed.

(** The inputs of steps 2, 3 and 4 leave alone what the earlier checks
    read, and those of step 4 what the engine reads. *)
Lemma step2Inputs_keys (userData : Store) (e : Event.t) :
  step2Inputs userData e = true ->
  existsb (String.eqb (Event.name e))
    ["ficoScore"; "totalDebt"; "accountsEnrolling"; "monthlyIncome";
     "utilization"; "positiveAccounts"; "oldestAccountAge"; "totalCreditLimit"]
  = false.
Proof.
  unfold step2Inputs. intro H. split_cases H; source_of H;
    match goal with Hn : Event.name e = _ |- _ => rewrite Hn end;
    reflexivity.
Qed.

Lemma step3Inputs_keys (e : Event.t) :
  step3Inputs e = true ->
  existsb (String.eqb (Event.name e))
    ["ficoScore"; "totalDebt"; "accountsEnrolling"; "monthlyIncome";
     "utilization"; "positiveAccounts"; "oldestAccountAge"; "totalCreditLimit";
     "scenarioType"; "monthsInProgram"]
  = false.
Proof.
  unfold step3Inputs. intro H. split_cases H; source_of H;
    match goal with Hn : Event.name e = _ |- _ => rewrite Hn end;
    reflexivity.
Qed.

Lemma step4Inputs_keys (results : option (Results.t float)) (e : Event.t) :
  step4Inputs results e = true ->
  existsb (String.eqb (Event.name e))
    ["ficoScore"; "totalDebt"; "monthlyIncome"; "utilization";
     "accountsEnrolling"; "positiveAccounts"; "oldestAccountAge";
     "programTimeline"; "totalCreditLimit"; "monthsInProgram"; "scenarioType";
     "securedCard"; "creditBuilder"; "authorizedUser"]
  = false.
Proof.
  unfold step4Inputs. destruct results; [ | discriminate ].
  intro H. split_cases H; source_of H;
    match goal with Hn : Event.name e = _ |- _ => rewrite Hn end;
    reflexivity.
Qed.

Lemma among_fewer (key : string) (keys more : list string) :
  existsb (String.eqb key) more = false ->
  forallb (fun k => existsb (String.eqb k) more) keys = true ->
  existsb (String.eqb key) keys = false.
Proof.
  intros Hm Hk. induction keys as [ | k keys IH]; [ reflexivity | ].
  simpl in Hk |- *. apply andb_prop in Hk as [Hk Hks].
  rewrite (IH Hks), orb_false_r.
  destruct (String.eqb key k) eqn:E; [ | reflexivity ].
  apply String.eqb_eq in E. subst k. congruence.
Qed.


Lemma invariant_initial : Invariant initialState.
Proof.
  unfold Invariant, initialState. simpl.
  repeat split; try lia; try discriminate; reflexivity.
Qed.

Lemma invariant_handleChange (e : Event.t) (st : App.t) :
  Invariant st -> rendered st e = true -> Invariant (handleChange e st).
Proof.
  intros (Hwf & Hstep & Hload & H1 & H2 & H4 & Hres) Hr.
  unfold rendered in Hr.
  destruct st as [step data res err loading]. simpl in *.
  destruct loading; [ discriminate | ].
  unfold Invariant, handleChange. simpl.
  destruct (step =? 2)%Z eqn:E2;
    [ | destruct (step =? 3)%Z eqn:E3; [ | destruct (step =? 4)%Z eqn:E4 ] ].
  - apply Z.eqb_eq in E2.
    pose proof (step2Inputs_keys _ _ Hr) as Hk.
    repeat split; try lia; try discriminate.
    + exact (step2Inputs_fit _ _ _ Hr Hwf).
    + intro. rewrite step1Error_assign by exact Hk. auto.
    + auto.
  - apply Z.eqb_eq in E3.
    pose proof (step3Inputs_keys _ Hr) as Hk.
    repeat split; try lia; try discriminate.
    + exact (step3Inputs_fit _ _ Hr Hwf).
    + intro. rewrite step1Error_assign; [ auto | ].
      apply (among_fewer _ _ _ Hk). reflexivity.
    + intro. rewrite step2Error_assign; [ auto | ].
      apply (among_fewer _ _ _ Hk). reflexivity.
    + auto.
  - apply Z.eqb_eq in E4.
    pose proof (step4Inputs_keys _ _ Hr) as Hk.
    repeat split; try lia; try discriminate.
    + exact (step4Inputs_fit _ _ _ Hr Hwf).
    + intro. rewrite step1Error_assign; [ auto | ].
      apply (among_fewer _ _ _ Hk). reflexivity.
    + intro. rewrite step2Error_assign; [ auto | ].
      apply (among_fewer _ _ _ Hk). reflexivity.
    + intro. rewrite readUserData_assign by exact Hk. auto.
  - apply Z.eqb_neq in E2, E3, E4.
    repeat split; try lia; try discriminate.
    + exact (step1Inputs_fit _ _ Hr Hwf).
    + auto.
Qed.

Lemma invariant_setError (error : option string) (st : App.t) :
  Invariant st -> Invariant (setError error st).
Proof.
  intro H. exact H.
Qed.

Lemma invariant_handleNext (st : App.t) :
  Invariant st -> App.isLoading st = false -> Invariant (handleNext st).
Proof.
  intros (Hwf & Hstep & Hload & H1 & H2 & H4 & Hres) Hl.
  destruct st as [step data res err loading]. simpl in *. subst loading.
  unfold handleNext. simpl.
  assert (Hcases : step = 1%Z \/ step = 2%Z \/ step = 3%Z \/ step = 4%Z) by lia.
  destruct Hcases as [-> | [-> | [-> | ->]]]; simpl;
    [ destruct (step1Error data) eqn:E
    | destruct (step2Error data) eqn:E | | ];
    unfold Invariant; simpl;
    repeat split; try lia; try discriminate; auto;
    intros _;
    first [ apply H1; lia | apply H2; lia | apply H4; lia | apply Hres; lia ].
Qed.

Lemma invariant_handlePrevious (st : App.t) :
  Invariant st -> App.isLoading st = false -> Invariant (handlePrevious st).
Proof.
  intros (Hwf & Hstep & Hload & H1 & H2 & H4 & Hres) Hl.
  destruct st as [step data res err loading]. simpl in *. subst loading.
  unfold handlePrevious. simpl.
  destruct (1 <? step)%Z eqn:E.
  - apply Z.ltb_lt in E. unfold Invariant; simpl.
    repeat split; try lia; try discriminate.
    + exact Hwf.
    + intro. apply H1. lia.
    + intro. apply H2. lia.
  - unfold Invariant; simpl.
    repeat split; try lia; try discriminate; auto.
Qed.

Lemma invariant_startNewSimulation (st : App.t) :
  Invariant st -> App.isLoading st = false ->
  Invariant (startNewSimulation st).
Proof.
  intros _ Hl.
  destruct st as [step data res err loading]. simpl in *. subst loading.
  unfold Invariant, startNewSimulation. simpl.
  repeat split; try lia; try discriminate; reflexivity.
Qed.

Lemma invariant_resultsTimer (st : App.t) :
  Invariant st -> App.isLoading st = true -> Invariant (resultsTimer st).
Proof.
  intros (Hwf & Hstep & Hload & H1 & H2 & H4 & Hres) Hl.
  specialize (Hload Hl).
  destruct st as [step data res err loading]. simpl in *. subst.
  unfold Invariant, resultsTimer. simpl.
  repeat split; try lia; try discriminate.
  - exact Hwf.
  - intros _. apply H1. lia.
  - intros _. apply H2. lia.
Qed.

Lemma invariant_perform (a : Action) (st : App.t) :
  Invariant st -> enabled st a = true -> Invariant (perform a st).
Proof.
  intros Hinv Hen. destruct a; simpl in *.
  - exact (invariant_handleChange _ _ Hinv Hen).
  - apply andb_prop in Hen as [Hl _]. apply negb_true_iff in Hl.
    exact (invariant_handleNext _ Hinv Hl).
  - apply andb_prop in Hen as [Hl _]. apply negb_true_iff in Hl.
    exact (invariant_handlePrevious _ Hinv Hl).
  - apply andb_prop in Hen as [Hl _]. apply negb_true_iff in Hl.
    exact (invariant_startNewSimulation _ Hinv Hl).
  - exact (invariant_resultsTimer _ Hinv Hen).
  - exact (invariant_setError _ _ Hinv).
Qed.

Lemma invariant_run (actions : list Action) :
  forall st : App.t, Invariant st -> Invariant (run actions st).
Proof.
  induction actions as [ | a rest IH]; intros st Hinv; simpl.
  - exact Hinv.
  - apply IH. destruct (enabled st a) eqn:E.
    + exact (invariant_perform _ _ Hinv E).
    + exact Hinv.
Qed.


(** A number input that passes [isNaN(parseFloat(v))] holds a number. *)
Lemma number_passes_parseFloat (v : option FormValue) :
  blankOrNumber v = true -> isNaN_parseFloat v = false ->
  exists x, v = Some (FNumber x) /\ is_nan x = false.
Proof.
  destruct v as [[s | x | b] | ]; simpl; try discriminate.
  - intro Hs. apply String.eqb_eq in Hs. subst s. vm_compute. discriminate.
  - intros _ Hx. exists x. auto.
Qed.

Lemma number_passes_parseInt (v : option FormValue) :
  blankOrNumber v = true -> isNaN_parseInt v = false ->
  exists x, v = Some (FNumber x) /\ is_nan x = false.
Proof.
  destruct v as [[s | x | b] | ]; simpl; try discriminate.
  - intro Hs. apply String.eqb_eq in Hs. subst s. vm_compute. discriminate.
  - intros _ Hx. exists x. split; [ reflexivity | ].
    apply not_nan_Prim2SF. destruct (Prim2SF x); discriminate.
Qed.

(** What the engine reads from a field that holds a truthy number. *)
Lemma coerced_number (v : option FormValue) (x d : float) :
  v = Some (FNumber x) -> Binary64.truthy x = true ->
  orElse (Number (asJsValue v)) d = x.
Proof.
  intros -> Hx. simpl. rewrite Hx. reflexivity.
Qed.

Ltac pass_check H c E :=
  destruct c eqn:E; [ discriminate H | ]; cbn [orb] in H.

(** The profile behind a [userData] that passes the checks of step 1. *)
Lemma validated_step1 (data : Store) :
  wellFormed data = true -> step1Error data = None ->
  let nd := numericData (readUserData data) in
  PrimFloat.leb 300 (NumericData.ficoScore nd) = true
  /\ PrimFloat.leb (NumericData.ficoScore nd) 850 = true
  /\ PrimFloat.ltb 1000 (NumericData.totalDebt nd) = true
  /\ PrimFloat.leb 1 (NumericData.accountsEnrolling nd) = true
  /\ PrimFloat.ltb 0 (NumericData.monthlyIncome nd) = true
  /\ oneOf [30; 50; 70; 90; 100]%Q (NumericData.utilization nd) = true
  /\ PrimFloat.leb 0 (NumericData.positiveAccounts nd) = true
  /\ PrimFloat.leb 0 (NumericData.oldestAccountAge nd) = true
  /\ PrimFloat.leb 0 (NumericData.totalCreditLimit nd) = true.
Proof.
  unfold wellFormed, numberInputs, step1Error. cbn [forallb].
  intros Hwf Hok.
  repeat match goal with
         | A : _ && _ = true |- _ => apply andb_prop in A as [? ?]
         end.
  pass_check Hok (isNaN_parseFloat (get "ficoScore" data)) P1.
  pass_check Hok (PrimFloat.ltb (toNumber (get "ficoScore" data)) 300) A1.
  pass_check Hok (PrimFloat.ltb 850 (toNumber (get "ficoScore" data))) B1.
  pass_check Hok (isNaN_parseFloat (get "totalDebt" data)) P2.
  pass_check Hok (PrimFloat.leb (toNumber (get "totalDebt" data)) 1000) A2.
  pass_check Hok (isNaN_parseFloat (get "accountsEnrolling" data)) P3.
  pass_check Hok (PrimFloat.ltb (toNumber (get "accountsEnrolling" data)) 1) A3.
  pass_check Hok (isNaN_parseFloat (get "monthlyIncome" data)) P4.
  pass_check Hok (PrimFloat.leb (toNumber (get "monthlyIncome" data)) 0) A4.
  pass_check Hok (isText "" (get "utilization" data)) P5.
  pass_check Hok (isNaN_parseInt (get "positiveAccounts" data)) P6.
  pass_check Hok (PrimFloat.ltb (toNumber (get "positiveAccounts" data)) 0) A6.
  pass_check Hok (isNaN_parseInt (get "oldestAccountAge" data)) P7.
  pass_check Hok (PrimFloat.ltb (toNumber (get "oldestAccountAge" data)) 0) A7.
  pass_check Hok (isNaN_parseInt (get "totalCreditLimit" data)) P8.
  pass_check Hok (PrimFloat.ltb (toNumber (get "totalCreditLimit" data)) 0) A8.
  clear Hok.
  destruct (number_passes_parseFloat (get "ficoScore" data)) as (fico & G1 & N1);
    [ assumption | assumption | ].
  destruct (number_passes_parseFloat (get "totalDebt" data)) as (debt & G2 & N2);
    [ assumption | assumption | ].
  destruct (number_passes_parseFloat (get "accountsEnrolling" data))
    as (accounts & G3 & N3); [ assumption | assumption | ].
  destruct (number_passes_parseFloat (get "monthlyIncome" data))
    as (income & G4 & N4); [ assumption | assumption | ].
  destruct (number_passes_parseInt (get "positiveAccounts" data))
    as (positive & G6 & N6); [ assumption | assumption | ].
  destruct (number_passes_parseInt (get "oldestAccountAge" data))
    as (age & G7 & N7); [ assumption | assumption | ].
  destruct (number_passes_parseInt (get "totalCreditLimit" data))
    as (limit & G8 & N8); [ assumption | assumption | ].
  rewrite G1 in A1, B1. rewrite G2 in A2. rewrite G3 in A3. rewrite G4 in A4.
  rewrite G6 in A6. rewrite G7 in A7. rewrite G8 in A8.
  cbn [toNumber] in A1, B1, A2, A3, A4, A6, A7, A8.
  apply (not_ltb_leb fico 300 N1 eq_refl) in A1.
  apply (not_ltb_leb 850 fico eq_refl N1) in B1.
  apply (not_leb_ltb debt 1000 N2 eq_refl) in A2.
  apply (not_ltb_leb accounts 1 N3 eq_refl) in A3.
  apply (not_leb_ltb income 0 N4 eq_refl) in A4.
  apply (not_ltb_leb positive 0 N6 eq_refl) in A6.
  apply (not_ltb_leb age 0 N7 eq_refl) in A7.
  apply (not_ltb_leb limit 0 N8 eq_refl) in A8.
  unfold readUserData, numericData.
  cbn [NumericData.ficoScore NumericData.totalDebt NumericData.accountsEnrolling
       NumericData.monthlyIncome NumericData.utilization
       NumericData.positiveAccounts NumericData.oldestAccountAge
       NumericData.totalCreditLimit
       UserData.ficoScore UserData.totalDebt UserData.accountsEnrolling
       UserData.monthlyIncome UserData.utilization
       UserData.positiveAccounts UserData.oldestAccountAge
       UserData.totalCreditLimit].
  rewrite (coerced_number _ fico _ G1 (leb_const_truthy 300 _ eq_refl A1)).
  rewrite (coerced_number _ debt _ G2 (ltb_const_truthy 1000 _ eq_refl A2)).
  rewrite (coerced_number _ accounts _ G3 (leb_const_truthy 1 _ eq_refl A3)).
  rewrite (coerced_number _ income _ G4 (ltb_const_truthy 0 _ eq_refl A4)).
  rewrite G6, G7, G8.
  cbn [asJsValue Number].
  repeat split; auto using orElse_zero_not_negative.
  destruct (get "utilization" data) as [[s | x | b] | ]; try discriminate.
  cbn [oneOfTexts existsb] in H5.
  repeat match type of H5 with
         | (_ || _) = true => apply orb_prop in H5 as [H5 | H5]
         end;
    try discriminate H5;
    apply String.eqb_eq in H5; subst s;
    first [ discriminate P5 | vm_compute; reflexivity ].
Qed.

(** The check of step 2 on a progress tracker. *)
Lemma validated_step2 (data : Store) :
  wellFormed data = true -> step2Error data = None ->
  UserData.scenarioType (readUserData data) = "progress-tracker" ->
  PrimFloat.ltb 0
    (NumericData.monthsInProgram (numericData (readUserData data))) = true.
Proof.
  unfold wellFormed, numberInputs, step2Error. cbn [forallb].
  intros Hwf Hok Hs.
  repeat match goal with
         | A : _ && _ = true |- _ => apply andb_prop in A as [? ?]
         end.
  unfold readUserData in Hs. cbn [UserData.scenarioType] in Hs.
  assert (Ht : isText "progress-tracker" (get "scenarioType" data) = true).
  { destruct (get "scenarioType" data) as [[s | x | b] | ]; try discriminate.
    subst s. reflexivity. }
  rewrite Ht in Hok.
  pass_check Hok (isNaN_parseInt (get "monthsInProgram" data)) P.
  pass_check Hok (PrimFloat.leb (toNumber (get "monthsInProgram" data)) 0) A.
  destruct (number_passes_parseInt (get "monthsInProgram" data))
    as (months & G & N); [ assumption | assumption | ].
  rewrite G in A. cbn [toNumber] in A.
  apply (not_leb_ltb months 0 N eq_refl) in A.
  unfold readUserData, numericData.
  cbn [NumericData.monthsInProgram UserData.monthsInProgram].
  rewrite (coerced_number _ months _ G (ltb_const_truthy 0 _ eq_refl A)).
  exact A.
Qed.


Lemma blank_step1Error (data : Store) (key : string) :
  In key
    ["ficoScore"; "totalDebt"; "accountsEnrolling"; "monthlyIncome";
     "utilization"; "positiveAccounts"; "oldestAccountAge"; "totalCreditLimit"] ->
  get key data = Some (FText "") ->
  exists message, step1Error data = Some message.
Proof.
  intros Hin Hb. unfold step1Error. simpl in Hin.
  repeat match type of Hin with
         | _ \/ _ => destruct Hin as [Hin | Hin]
         end;
    try contradiction; subst key; rewrite Hb;
    change (isNaN_parseFloat (Some (FText ""))) with true;
    change (isNaN_parseInt (Some (FText ""))) with true;
    change (isText "" (Some (FText ""))) with true;
    repeat (cbn [orb];
            match goal with
            | |- exists m, Some _ = Some m => eexists; reflexivity
            | |- exists m, (if ?c then _ else _) = Some m =>
                destruct c; [ eexists; reflexivity | ]
            end).
Qed.

(** X2. Whatever text an input other than a checkbox delivers under the key
    of one of the ten coerced fields, the engine computes with
    [Number(text) || default]: it makes no difference whether [handleChange]
    stored the text, [''] or the number. *)
Theorem typed_text_reaches_engine (e : Event.t) (st : App.t) (i : nat) :
  (i < 10)%nat ->
  Event.name e = nth i numericFieldNames "" ->
  Event.type e <> "checkbox" ->
  nth i
    (numericFields
       (numericData (readUserData (App.userData (handleChange e st)))))
    0%float
  = orElse (Some (StringToNumber (Event.value e)))
      (nth i numericFieldDefaults 0%float).
Proof.
  intros Hi Hn Ht.
  assert (Hv : forall d : float,
             orElse (Number (asJsValue (Some (processedValue e)))) d
             = orElse (Some (StringToNumber (Event.value e))) d).
  { intro d. unfold processedValue.
    destruct (String.eqb (Event.type e) "checkbox") eqn:E.
    { apply String.eqb_eq in E. contradiction. }
    destruct (String.eqb (Event.type e) "number"
              || String.eqb (Event.name e) "programTimeline").
    - destruct (String.eqb (Event.value e) "") eqn:Ev.
      + apply String.eqb_eq in Ev. rewrite Ev. vm_compute. reflexivity.
      + reflexivity.
    - cbn [asJsValue Number].
      destruct (is_nan (StringToNumber (Event.value e))) eqn:En.
      + unfold orElse. simpl. unfold Binary64.truthy. rewrite En. reflexivity.
      + reflexivity. }
  unfold handleChange, readUserData, numericData, numericFields.
  cbn [App.userData setUserData
       NumericData.ficoScore NumericData.totalDebt NumericData.monthlyIncome
       NumericData.utilization NumericData.accountsEnrolling
       NumericData.positiveAccounts NumericData.oldestAccountAge
       NumericData.programTimeline NumericData.totalCreditLimit
       NumericData.monthsInProgram
       UserData.ficoScore UserData.totalDebt UserData.monthlyIncome
       UserData.utilization UserData.accountsEnrolling
       UserData.positiveAccounts UserData.oldestAccountAge
       UserData.programTimeline UserData.totalCreditLimit
       UserData.monthsInProgram].
  rewrite !get_assign.
  do 10 (destruct i as [ | i];
         [ cbn [nth numericFieldNames numericFieldDefaults] in Hn |- *;
           rewrite Hn; cbn [String.eqb Ascii.eqb Bool.eqb]; apply Hv | ]).
  lia.
Qed.

(** The score 650 typed into the untouched form. *)
Lemma typed_text_reaches_engine_witness :
  nth 0
    (numericFields
       (numericData
          (readUserData
             (App.userData
                (handleChange
                   {| Event.name := "ficoScore"; Event.value := "650";
                      Event.type := "number"; Event.checked := false |}
                   initialState)))))
    0%float
  = orElse (Some (StringToNumber "650")) 0%float.
Proof.
  apply (typed_text_reaches_engine
           {| Event.name := "ficoScore"; Event.value := "650";
              Event.type := "number"; Event.checked := false |}
           initialState 0).
  - lia.
  - reflexivity.
  - discriminate.
Defined.


(** X3. On step 1 [handleNext] does one of two things.  It shows a message
    and changes nothing else; or it moves to step 2 and changes nothing
    else, and then the profile the engine will read has ficoScore in
    [300, 850], totalDebt above 1000, accountsEnrolling at least 1,
    monthlyIncome above 0, a utilization among the options, and
    positiveAccounts, oldestAccountAge and totalCreditLimit not below 0. *)
Theorem handleNext_validates_profile (st : App.t) :
  App.currentStep st = 1%Z ->
  wellFormed (App.userData st) = true ->
  (exists message, handleNext st = showError message st)
  \/ (handleNext st = setCurrentStep 2 st
      /\ let nd := numericData (readUserData (App.userData st)) in
         PrimFloat.leb 300 (NumericData.ficoScore nd) = true
         /\ PrimFloat.leb (NumericData.ficoScore nd) 850 = true
         /\ PrimFloat.ltb 1000 (NumericData.totalDebt nd) = true
         /\ PrimFloat.leb 1 (NumericData.accountsEnrolling nd) = true
         /\ PrimFloat.ltb 0 (NumericData.monthlyIncome nd) = true
         /\ oneOf [30; 50; 70; 90; 100]%Q (NumericData.utilization nd) = true
         /\ PrimFloat.leb 0 (NumericData.positiveAccounts nd) = true
         /\ PrimFloat.leb 0 (NumericData.oldestAccountAge nd) = true
         /\ PrimFloat.leb 0 (NumericData.totalCreditLimit nd) = true).
Proof.
  intros Hstep Hwf. unfold handleNext. rewrite Hstep. simpl.
  destruct (step1Error (App.userData st)) as [message | ] eqn:E.
  - left. exists message. reflexivity.
  - right. split; [ reflexivity | ].
    exact (validated_step1 _ Hwf E).
Qed.

(** The profile of scenario A typed into step 1: "Next Step" moves on. *)
Lemma handleNext_validates_profile_witness :
  (exists message, handleNext profileEntered = showError message profileEntered)
  \/ (handleNext profileEntered = setCurrentStep 2 profileEntered
      /\ let nd := numericData (readUserData (App.userData profileEntered)) in
         PrimFloat.leb 300 (NumericData.ficoScore nd) = true
         /\ PrimFloat.leb (NumericData.ficoScore nd) 850 = true
         /\ PrimFloat.ltb 1000 (NumericData.totalDebt nd) = true
         /\ PrimFloat.leb 1 (NumericData.accountsEnrolling nd) = true
         /\ PrimFloat.ltb 0 (NumericData.monthlyIncome nd) = true
         /\ oneOf [30; 50; 70; 90; 100]%Q (NumericData.utilization nd) = true
         /\ PrimFloat.leb 0 (NumericData.positiveAccounts nd) = true
         /\ PrimFloat.leb 0 (NumericData.oldestAccountAge nd) = true
         /\ PrimFloat.leb 0 (NumericData.totalCreditLimit nd) = true).
Proof.
  apply (handleNext_validates_profile profileEntered);
    vm_compute; reflexivity.
Defined.

(** X4. A step-1 field left blank stops "Next Step": whichever of the
    eight checked fields holds [''], [handleNext] shows a message and stays
    on step 1 with everything else as it was. *)
Theorem handleNext_rejects_blank (st : App.t) (key : string) :
  App.currentStep st = 1%Z ->
  In key
    ["ficoScore"; "totalDebt"; "accountsEnrolling"; "monthlyIncome";
     "utilization"; "positiveAccounts"; "oldestAccountAge"; "totalCreditLimit"] ->
  get key (App.userData st) = Some (FText "") ->
  exists message, handleNext st = showError message st.
Proof.
  intros Hstep Hin Hb. unfold handleNext. rewrite Hstep. simpl.
  destruct (blank_step1Error _ _ Hin Hb) as (message & E).
  rewrite E. exists message. reflexivity.
Qed.

(** The income left blank in the untouched form. *)
Lemma handleNext_rejects_blank_witness :
  exists message, handleNext initialState = showError message initialState.
Proof.
  apply (handleNext_rejects_blank initialState "monthlyIncome").
  - reflexivity.
  - simpl. tauto.
  - reflexivity.
Defined.

(** X5. Whatever is clicked and typed, [currentStep] stays within 1..4, the
    spinner shows on step 3 only, and the component is on step 4 exactly when
    it holds results: [Step4Results] never takes its branch without
    results. *)
Theorem results_page_has_results (actions : list Action) :
  (1 <= App.currentStep (run actions initialState) <= 4)%Z
  /\ (App.currentStep (run actions initialState) = 4%Z
      <-> App.results (run actions initialState) <> None)
  /\ (App.isLoading (run actions initialState) = true ->
      App.currentStep (run actions initialState) = 3%Z).
Proof.
  destruct (invariant_run actions _ invariant_initial)
    as (_ & Hstep & Hload & _ & _ & H4 & Hres).
  split; [ exact Hstep | ]. split; [ | exact Hload ].
  split.
  - intro E. rewrite (H4 E). discriminate.
  - intro Hr.
    destruct (Z.eq_dec (App.currentStep (run actions initialState)) 4)
      as [E | E]; [ exact E | ].
    exfalso. apply Hr. apply Hres. lia.
Qed.

(** X6. Results on screen are the results of the [userData] in the state,
    and that [userData] has passed the checks of steps 1 and 2: the profile
    the engine read is within the bounds of step 1, a progress tracker has
    monthsInProgram above 0, and the whole contract holds as soon as
    programTimeline is one of the marks of the slider. *)
Theorem results_come_from_a_valid_profile (actions : list Action)
  (r : Results.t float) :
  App.results (run actions initialState) = Some r ->
  let data := readUserData (App.userData (run actions initialState)) in
  let nd := numericData data in
  r = runSimulation data
  /\ PrimFloat.leb 300 (NumericData.ficoScore nd) = true
  /\ PrimFloat.leb (NumericData.ficoScore nd) 850 = true
  /\ PrimFloat.ltb 1000 (NumericData.totalDebt nd) = true
  /\ PrimFloat.leb 1 (NumericData.accountsEnrolling nd) = true
  /\ PrimFloat.ltb 0 (NumericData.monthlyIncome nd) = true
  /\ oneOf [30; 50; 70; 90; 100]%Q (NumericData.utilization nd) = true
  /\ PrimFloat.leb 0 (NumericData.positiveAccounts nd) = true
  /\ PrimFloat.leb 0 (NumericData.oldestAccountAge nd) = true
  /\ PrimFloat.leb 0 (NumericData.totalCreditLimit nd) = true
  /\ (NumericData.scenarioType nd = "progress-tracker" ->
      PrimFloat.ltb 0 (NumericData.monthsInProgram nd) = true)
  /\ (oneOf [12; 24; 36; 48; 60]%Q (NumericData.programTimeline nd) = true ->
      withinContract nd = true).
Proof.
  intros Hr data nd.
  destruct (invariant_run actions _ invariant_initial)
    as (Hwf & Hstep & Hload & H1 & H2 & H4 & Hres).
  set (st := run actions initialState) in *.
  assert (E : App.currentStep st = 4%Z).
  { destruct (Z.eq_dec (App.currentStep st) 4) as [E | E]; [ exact E | ].
    rewrite Hres in Hr by lia. discriminate. }
  rewrite (H4 E) in Hr. injection Hr as Hr.
  assert (Hv1 := validated_step1 _ Hwf (H1 ltac:(lia))).
  assert (Hv2 := validated_step2 _ Hwf (H2 ltac:(lia))).
  fold data in Hv1, Hv2, Hr. fold nd in Hv1, Hv2.
  cbv zeta in Hv1.
  destruct Hv1 as (A1 & A2 & A3 & A4 & A5 & A6 & A7 & A8 & A9).
  change (UserData.scenarioType data) with (NumericData.scenarioType nd) in Hv2.
  clearbody nd.
  repeat split; auto.
  intro Ht. unfold withinContract.
  change (lit 300 <= NumericData.ficoScore nd)%js
    with (PrimFloat.leb 300 (NumericData.ficoScore nd)).
  change (NumericData.ficoScore nd <= lit 850)%js
    with (PrimFloat.leb (NumericData.ficoScore nd) 850).
  change (NumericData.totalDebt nd > lit 1000)%js
    with (PrimFloat.ltb 1000 (NumericData.totalDebt nd)).
  change (NumericData.accountsEnrolling nd >= lit 1)%js
    with (PrimFloat.leb 1 (NumericData.accountsEnrolling nd)).
  change (NumericData.monthlyIncome nd > lit 0)%js
    with (PrimFloat.ltb 0 (NumericData.monthlyIncome nd)).
  change (NumericData.positiveAccounts nd >= lit 0)%js
    with (PrimFloat.leb 0 (NumericData.positiveAccounts nd)).
  change (NumericData.oldestAccountAge nd >= lit 0)%js
    with (PrimFloat.leb 0 (NumericData.oldestAccountAge nd)).
  change (NumericData.totalCreditLimit nd >= lit 0)%js
    with (PrimFloat.leb 0 (NumericData.totalCreditLimit nd)).
  change (NumericData.monthsInProgram nd > lit 0)%js
    with (PrimFloat.ltb 0 (NumericData.monthsInProgram nd)).
  rewrite A1, A2, A3, A4, A5, A6, A7, A8, A9, Ht. cbn [andb].
  destruct (String.eqb (NumericData.scenarioType nd) "progress-tracker") eqn:Es;
    [ | reflexivity ].
  apply String.eqb_eq in Es. exact (Hv2 Es).
Qed.

(** Scenario A typed into the form and carried through the three steps. *)
Lemma results_come_from_a_valid_profile_witness :
  Results.projectedScore
    (runSimulation (readUserData (App.userData (run enterScenarioA initialState))))
  = 796%float
  /\ withinContract
       (numericData (readUserData (App.userData (run enterScenarioA initialState))))
     = true.
Proof.
  destruct (results_come_from_a_valid_profile enterScenarioA
              (runSimulation
                 (readUserData (App.userData (run enterScenarioA initialState)))))
    as (_ & _ & _ & _ & _ & _ & _ & _ & _ & _ & _ & Hc).
  - vm_compute. reflexivity.
  - split; [ vm_compute; reflexivity | ].
    apply Hc. vm_compute. reflexivity.
Defined.

End FormFacts.

(** ** The chart *)

Lemma sub_self_shape (x : float) :
  Prim2SF (x - x) = S754_nan \/ exists s, Prim2SF (x - x) = S754_zero s.
Proof.
  rewrite sub_spec. unfold SF64sub, SFsub.
  destruct (Prim2SF x) as [s | s | | s m e].
  - right. destruct s; eexists; reflexivity.
  - left. destruct s; reflexivity.
  - left. reflexivity.
  - right. cbv zeta. rewrite Z.sub_diag. exists false. reflexivity.
Qed.

Lemma not_finite_shape (x : float) :
  Prim2SF x = S754_nan \/ (exists s, Prim2SF x = S754_infinity s) ->
  is_finite x = false.
Proof.
  unfold is_finite. intros [H | [s H]].
  - apply is_nan_Prim2SF in H. rewrite H. reflexivity.
  - unfold is_infinity. rewrite FloatAxioms.eqb_spec, abs_spec, H.
    rewrite orb_true_r. reflexivity.
Qed.

(** Dividing by a difference that is zero or NaN gives no finite number. *)
Lemma div_by_zero_not_finite (a z : float) :
  Prim2SF z = S754_nan \/ (exists s, Prim2SF z = S754_zero s) ->
  is_finite (a / z * 100) = false.
Proof.
  intro Hz. apply not_finite_shape.
  assert (E : exists m e, Prim2SF 100 = S754_finite false m e)
    by (vm_compute; eauto).
  destruct E as (m & e & E).
  rewrite mul_spec, div_spec, E. unfold SF64mul, SFmul, SF64div, SFdiv.
  destruct Hz as [Hz | [s Hz]]; rewrite Hz;
    destruct (Prim2SF a) as [sa | sa | | sa ma ea]; eauto.
Qed.

(** X7. [ScoreChart] divides by [end - dip] without a test.  When the
    projected score is the score of the dip, no coordinate it computes for
    the start, the stabilization and the recovery is a finite number,
    whatever the scores, NaN and infinities included; the dip and the
    projection keep their places at 0 and 100. *)
Theorem ScoreChart_without_gain
  (start dip stabilization recovery timeline : float) :
  map (fun p => is_finite (ChartPoint.y p))
    (ScoreChart start dip stabilization recovery dip timeline)
  = [false; true; false; false; true].
Proof.
  unfold ScoreChart. cbn [map ChartPoint.y].
  pose proof (sub_self_shape dip) as Hz.
  change (@sub float Binary64Numbers) with PrimFloat.sub.
  change (@div float Binary64Numbers) with PrimFloat.div.
  change (@mul float Binary64Numbers) with PrimFloat.mul.
  change (@lit float Binary64Numbers 100) with 100%float.
  change (@lit float Binary64Numbers 0) with 0%float.
  rewrite !div_by_zero_not_finite by exact Hz.
  reflexivity.
Qed.

(** ** The weights that come back *)

Lemma allAdjusted_returned_bounds :
  forallb (fun pre : Weights.t float => withinReturnedBounds (normalizeWeights pre))
    allAdjusted = true.
Proof.
  vm_compute. reflexivity.
Qed.

(** X8. Whatever the arguments, NaN and infinities included,
    [calculateWeights] returns paymentHistory in [0.2174, 0.4286],
    utilization in [0.1818, 0.4091], accountAge in [0.0909, 0.2381],
    creditMix in [0.087, 0.1579] and newCredit in [0.08, 0.1905]; and each of
    the ten bounds is the weight of some profile. *)
Theorem calculateWeights_returned_bounds :
  (forall ficoScore totalDebt monthlyIncome positiveAccounts oldestAccountAge
          totalCreditLimit : float,
      withinReturnedBounds
        (calculateWeights ficoScore totalDebt monthlyIncome positiveAccounts
           oldestAccountAge totalCreditLimit) = true)
  /\ map (fun p => Weights.paymentHistory (weightsOfProfile p))
       [highTierInDebtOld; lowTierRelievedYoung] = [0.2174; 0.4286]%float
  /\ map (fun p => Weights.utilization (weightsOfProfile p))
       [lowTierRelievedOld; highTierInDebtYoung] = [0.1818; 0.4091]%float
  /\ map (fun p => Weights.accountAge (weightsOfProfile p))
       [lowTierYoung; highTierRelievedOld] = [0.0909; 0.2381]%float
  /\ map (fun p => Weights.creditMix (weightsOfProfile p))
       [highTierInDebtOld; middleTierRelievedAnchoredYoung]
     = [0.087; 0.1579]%float
  /\ map (fun p => Weights.newCredit (weightsOfProfile p))
       [highTierInDebtAnchoredOld; lowTierRelievedYoung]
     = [0.08; 0.1905]%float.
Proof.
  split.
  - exact (adjustWeights_forall _ allAdjusted_returned_bounds).
  - vm_compute. repeat split; reflexivity.
Qed.

(** ** Rounding against a double *)

Section RoundingOrder.

Local Open Scope Z_scope.

Lemma shr_1_value (mrs : shr_record) :
  0 <= shr_m mrs -> shr_m (shr_1 mrs) = shr_m mrs / 2.
Proof.
  destruct mrs as [m r s]. destruct m as [ | [p | p | ] | p]; simpl; intro H;
    try lia; try reflexivity.
  - rewrite Pos2Z.inj_xI. apply Z.div_unique with 1; lia.
  - rewrite Pos2Z.inj_xO. apply Z.div_unique with 0; lia.
Qed.

Lemma iter_shr_1_value (p : positive) :
  forall mrs, 0 <= shr_m mrs ->
  shr_m (iter_pos shr_1 p mrs) = shr_m mrs / 2 ^ Z.pos p.
Proof.
  induction p as [p IH | p IH | ]; intros mrs H; simpl iter_pos.
  - pose proof (shr_1_nonneg mrs H) as H1.
    pose proof (iter_shr_1_nonneg p _ H1) as H2.
    rewrite IH, IH, shr_1_value by assumption.
    rewrite !Z.div_div by lia.
    f_equal.
    replace (Z.pos p~1) with (Z.pos p + Z.pos p + 1) by lia.
    rewrite !Z.pow_add_r by lia. change (2 ^ 1) with 2. ring.
  - pose proof (iter_shr_1_nonneg p _ H) as H2.
    rewrite IH, IH by assumption.
    rewrite !Z.div_div by lia.
    f_equal.
    replace (Z.pos p~0) with (Z.pos p + Z.pos p) by lia.
    rewrite !Z.pow_add_r by lia. ring.
  - rewrite shr_1_value by assumption. reflexivity.
Qed.

(** Shifting right by [n] divides the mantissa by [2^n] and adds [n] to the
    exponent; nothing happens when [n] is not positive. *)
Lemma shr_value (mrs : shr_record) (e n : Z) :
  0 <= shr_m mrs ->
  shr_m (fst (shr mrs e n)) = shr_m mrs / 2 ^ Z.max n 0
  /\ snd (shr mrs e n) = e + Z.max n 0.
Proof.
  intro H. destruct n as [ | p | p]; simpl.
  - rewrite Z.div_1_r. lia.
  - rewrite iter_shr_1_value by exact H.
    rewrite Z.max_l by lia. auto.
  - rewrite Z.div_1_r. lia.
Qed.

Lemma round_nearest_even_bounds (m : Z) (l : location) :
  m <= round_nearest_even m l <= m + 1.
Proof.
  destruct l as [ | [ | | ]]; simpl; try lia.
  destruct (Z.even m); lia.
Qed.

Lemma fexp_value (x : Z) : fexp prec emax x = Z.max (x - 53) (-1074).
Proof.
  reflexivity.
Qed.

(** The shift [binary_round_aux] applies to a positive mantissa. *)
Lemma shr_fexp_value (m : positive) (e : Z) :
  exists mrs,
    shr_fexp prec emax (Z.pos m) e loc_Exact
    = (mrs, e + Z.max (fexp prec emax (Z.pos (digits2_pos m) + e) - e) 0)
    /\ shr_m mrs
       = Z.pos m / 2 ^ Z.max (fexp prec emax (Z.pos (digits2_pos m) + e) - e) 0.
Proof.
  unfold shr_fexp. simpl Zdigits2.
  set (n := fexp prec emax (Z.pos (digits2_pos m) + e) - e).
  destruct (shr_value (shr_record_of_loc (Z.pos m) loc_Exact) e n)
    as [Hm He]; [ simpl; lia | ].
  exists (fst (shr (shr_record_of_loc (Z.pos m) loc_Exact) e n)).
  split; [ | exact Hm ].
  rewrite <- He. apply surjective_pairing.
Qed.

(** Rounding a value that is not below a double does not give less than
    that double: with [mc * 2^ec] a double and [mc * 2^ec <= M * 2^e], the
    rounding of [M * 2^e] compares at or above it. *)
Lemma binary_round_above (mc : positive) (ec : Z) (M : positive) (e : Z) :
  canonical_mantissa prec emax mc ec = true ->
  e <= ec ->
  Z.pos mc * 2 ^ (ec - e) <= Z.pos M ->
  SFleb (S754_finite false mc ec) (binary_round prec emax false M e) = true.
Proof.
  unfold canonical_mantissa. intros Hc He HM.
  apply Z.eqb_eq in Hc. rewrite fexp_value in Hc.
  pose proof (digits2_pos_bounds mc) as Bc.
  pose proof (digits2_pos_bounds M) as BM.
  assert (Hdc : 0 < Z.pos (digits2_pos mc)) by lia.
  assert (Hec : -1074 <= ec) by lia.
  assert (Hpow : 0 < 2 ^ (ec - e)) by (apply Z.pow_pos_nonneg; lia).
  assert (HD : Z.pos (digits2_pos mc) + ec <= Z.pos (digits2_pos M) + e).
  { assert (H1 : 2 ^ (Z.pos (digits2_pos mc) - 1) * 2 ^ (ec - e)
                 <= Z.pos mc * 2 ^ (ec - e))
      by (apply Z.mul_le_mono_nonneg_r; lia).
    rewrite <- Z.pow_add_r in H1 by lia.
    assert (H2 : 2 ^ (Z.pos (digits2_pos mc) - 1 + (ec - e))
                 < 2 ^ Z.pos (digits2_pos M)) by lia.
    apply Z.pow_lt_mono_r_iff in H2; lia. }
  unfold binary_round.
  pose proof (fexp_value (Z.pos (digits2_pos M) + e)) as He0.
  set (e0 := fexp prec emax (Z.pos (digits2_pos M) + e)) in *.
  assert (Hge : ec <= e0) by lia.
  assert (Hal : shl_align M e e0 = (M, e)).
  { unfold shl_align. destruct (e0 - e) eqn:Ek; try reflexivity. lia. }
  rewrite Hal. unfold binary_round_aux.
  (* the first shift *)
  destruct (shr_fexp_value M e) as (mrs1 & Es1 & Hm1).
  fold e0 in Es1, Hm1. rewrite Z.max_l in Es1, Hm1 by lia.
  replace (e + (e0 - e)) with e0 in Es1 by lia.
  rewrite Es1.
  assert (Hsmall : 2 ^ (e0 - e) <= Z.pos M).
  { destruct (Z.max_spec (Z.pos (digits2_pos M) + e - 53) (-1074))
      as [[_ E] | [_ E]]; rewrite <- He0 in E.
    - assert (2 ^ (e0 - e) <= 2 ^ (ec - e)) by (apply Z.pow_le_mono_r; lia).
      nia.
    - assert (2 ^ (e0 - e) <= 2 ^ (Z.pos (digits2_pos M) - 1))
        by (apply Z.pow_le_mono_r; lia).
      lia. }
  assert (Hpow0 : 0 < 2 ^ (e0 - e)) by (apply Z.pow_pos_nonneg; lia).
  assert (H1 : 1 <= shr_m mrs1)
    by (rewrite Hm1; apply Z.div_le_lower_bound; lia).
  pose proof (round_nearest_even_bounds (shr_m mrs1) (loc_of_shr_record mrs1))
    as Hr.
  destruct (round_nearest_even (shr_m mrs1) (loc_of_shr_record mrs1))
    as [ | q | q] eqn:Eq2; try lia.
  (* the second shift *)
  destruct (shr_fexp_value q e0) as (mrs3 & Es3 & Hm3).
  rewrite Es3. rewrite fexp_value in Es3, Hm3 |- *.
  pose proof (digits2_pos_bounds q) as Bq.
  set (d2 := Z.pos (digits2_pos q)) in *.
  destruct (Z.le_gt_cases d2 53) as [Hd2 | Hd2].
  - rewrite (Z.max_r _ 0) in Hm3 |- * by lia.
    rewrite Z.div_1_r in Hm3. rewrite Hm3, Z.add_0_r.
    destruct (e0 <=? emax - prec); [ | reflexivity ].
    unfold SFleb, SFcompare.
    destruct (Z.compare_spec ec e0) as [E | E | E]; try reflexivity; try lia.
    rewrite Pos.compare_cont_spec. simpl Pos.switch_Eq.
    assert (Hmc : Z.pos mc <= shr_m mrs1).
    { rewrite Hm1, <- E. apply Z.div_le_lower_bound; lia. }
    destruct (Pos.compare_spec mc q) as [E' | E' | E']; try reflexivity.
    apply Pos2Z.pos_lt_pos in E'. lia.
  - replace (Z.max (Z.max (d2 + e0 - 53) (-1074) - e0) 0) with (d2 - 53)
      in Hm3 |- * by lia.
    assert (H52 : 2 ^ 52 <= shr_m mrs3).
    { rewrite Hm3. apply Z.div_le_lower_bound.
      - apply Z.pow_pos_nonneg; lia.
      - rewrite <- Z.pow_add_r by lia.
        replace (d2 - 53 + 52) with (d2 - 1) by lia. lia. }
    destruct (shr_m mrs3) as [ | q3 | q3] eqn:E3;
      try (exfalso; change (2 ^ 52) with 4503599627370496 in H52; lia).
    destruct (e0 + (d2 - 53) <=? emax - prec); [ | reflexivity ].
    unfold SFleb, SFcompare.
    destruct (Z.compare_spec ec (e0 + (d2 - 53))) as [E | E | E];
      try reflexivity; lia.
Qed.

Lemma shl_align_value (m : positive) (e e' : Z) :
  e' <= e -> Z.pos (fst (shl_align m e e')) = Z.pos m * 2 ^ (e - e').
Proof.
  intro H. unfold shl_align. destruct (e' - e) as [ | d | d] eqn:E; try lia.
  - replace (e - e') with 0 by lia. simpl. lia.
  - simpl fst. rewrite iter_xO_value. f_equal. f_equal. lia.
Qed.

Lemma SFleb_refl_finite (s : bool) (m : positive) (e : Z) :
  SFleb (S754_finite s m e) (S754_finite s m e) = true.
Proof.
  unfold SFleb, SFcompare. rewrite Z.compare_refl.
  rewrite Pos.compare_cont_refl. destruct s; reflexivity.
Qed.

(** Adding a number that is not negative to a positive double gives no
    less. *)
Lemma add_not_below (c g : float) :
  isPositiveFinite c = true -> PrimFloat.leb 0 g = true ->
  PrimFloat.leb c (c + g) = true.
Proof.
  intros Hc Hg. rewrite leb_spec, add_spec.
  unfold isPositiveFinite in Hc.
  pose proof (Prim2SF_valid c) as Hv.
  destruct (Prim2SF c) as [ | | | [ | ] mc ec]; try discriminate.
  simpl in Hv. unfold bounded in Hv. apply andb_prop in Hv as [Hcan _].
  apply leb_zero_shape in Hg.
  destruct Hg as [[s Hg] | [(mg & eg & Hg) | Hg]]; rewrite Hg.
  - apply SFleb_refl_finite.
  - unfold SF64add, SFadd. cbv zeta. unfold cond_Zopp.
    set (ez := Z.min ec eg).
    change (Z.pos (fst (shl_align mc ec ez)) + Z.pos (fst (shl_align mg eg ez)))
      with (Z.pos (fst (shl_align mc ec ez) + fst (shl_align mg eg ez))).
    unfold binary_normalize.
    apply binary_round_above.
    + exact Hcan.
    + unfold ez. lia.
    + rewrite Pos2Z.inj_add, shl_align_value by (unfold ez; lia). lia.
  - reflexivity.
Qed.

(** *** Values a double holds exactly *)

Lemma iter_pos_iter {A : Type} (f : A -> A) (p : positive) :
  forall x : A, iter_pos f p x = Pos.iter f x p.
Proof.
  induction p as [p IH | p IH | ]; intro x; simpl.
  - rewrite !IH. rewrite <- Pos.iter_swap. f_equal. apply Pos.iter_swap.
  - rewrite !IH. reflexivity.
  - reflexivity.
Qed.

(** Shifting out zeros leaves nothing to round. *)
Lemma iter_shr_1_exact (k : positive) :
  forall m : positive,
  iter_pos shr_1 k (shr_record_of_loc (Z.pos (Pos.iter xO m k)) loc_Exact)
  = shr_record_of_loc (Z.pos m) loc_Exact.
Proof.
  intro m. rewrite iter_pos_iter.
  induction k as [ | k IH] using Pos.peano_ind.
  - reflexivity.
  - rewrite (Pos.iter_succ_r k _ shr_1), (Pos.iter_succ k _ xO).
    simpl shr_1. exact IH.
Qed.

Lemma digits2_pos_iter_xO (m k : positive) :
  Z.pos (digits2_pos (Pos.iter xO m k)) = Z.pos (digits2_pos m) + Z.pos k.
Proof.
  rewrite iter_xO_digits. lia.
Qed.

(** A mantissa that fits its exponent is left as it is. *)
Lemma binary_round_aux_canonical (s : bool) (mc : positive) (ec : Z) :
  bounded prec emax mc ec = true ->
  binary_round_aux prec emax s (Z.pos mc) ec loc_Exact = S754_finite s mc ec.
Proof.
  unfold bounded, canonical_mantissa. intro Hb.
  apply andb_prop in Hb as [Hc Hmax]. apply Z.eqb_eq in Hc.
  unfold binary_round_aux.
  assert (Hshift : shr_fexp prec emax (Z.pos mc) ec loc_Exact
                   = (shr_record_of_loc (Z.pos mc) loc_Exact, ec)).
  { unfold shr_fexp. simpl Zdigits2. rewrite Hc, Z.sub_diag. reflexivity. }
  change (emax - prec) with 971 in Hmax.
  rewrite Hshift. simpl. rewrite Hshift. simpl. rewrite Hmax. reflexivity.
Qed.

(** Rounding a value that a double holds gives that double, however the
    value is written. *)
Lemma binary_round_exact (s : bool) (mc : positive) (ec : Z) (M : positive)
  (e : Z) :
  bounded prec emax mc ec = true ->
  (e <= ec /\ Z.pos M = Z.pos mc * 2 ^ (ec - e))
  \/ (ec <= e /\ Z.pos mc = Z.pos M * 2 ^ (e - ec)) ->
  binary_round prec emax s M e = S754_finite s mc ec.
Proof.
  intros Hb Hval.
  pose proof Hb as Hb'. unfold bounded, canonical_mantissa in Hb'.
  apply andb_prop in Hb' as [Hc Hmax]. apply Z.eqb_eq in Hc.
  unfold binary_round.
  destruct Hval as [[He HM] | [He HM]].
  - destruct (ec - e) as [ | k | k] eqn:Ek; try lia.
    + assert (e = ec) by lia. subst e.
      assert (M = mc) by (simpl in HM; lia). subst M.
      rewrite Hc. unfold shl_align. rewrite Z.sub_diag.
      apply binary_round_aux_canonical. exact Hb.
    + assert (HMk : M = Pos.iter xO mc k)
        by (apply Pos2Z.inj; rewrite iter_xO_value; exact HM).
      subst M. rewrite digits2_pos_iter_xO.
      replace (Z.pos (digits2_pos mc) + Z.pos k + e)
        with (Z.pos (digits2_pos mc) + ec) by lia.
      rewrite Hc. unfold shl_align. rewrite Ek.
      unfold binary_round_aux.
      assert (Hshift : shr_fexp prec emax (Z.pos (Pos.iter xO mc k)) e loc_Exact
                       = (shr_record_of_loc (Z.pos mc) loc_Exact, ec)).
      { unfold shr_fexp. simpl Zdigits2. rewrite digits2_pos_iter_xO.
        replace (Z.pos (digits2_pos mc) + Z.pos k + e)
          with (Z.pos (digits2_pos mc) + ec) by lia.
        rewrite Hc, Ek. unfold shr. rewrite iter_shr_1_exact.
        f_equal. lia. }
      rewrite Hshift. simpl round_nearest_even.
      change (round_nearest_even (Z.pos mc) loc_Exact) with (Z.pos mc).
      assert (Hshift2 : shr_fexp prec emax (Z.pos mc) ec loc_Exact
                        = (shr_record_of_loc (Z.pos mc) loc_Exact, ec)).
      { unfold shr_fexp. simpl Zdigits2. rewrite Hc, Z.sub_diag. reflexivity. }
      change (emax - prec) with 971 in Hmax.
      rewrite Hshift2. simpl. rewrite Hmax. reflexivity.
  - destruct (e - ec) as [ | k | k] eqn:Ek; try lia.
    + assert (e = ec) by lia. subst e.
      assert (M = mc) by (simpl in HM; lia). subst M.
      rewrite Hc. unfold shl_align. rewrite Z.sub_diag.
      apply binary_round_aux_canonical. exact Hb.
    + assert (HMk : mc = Pos.iter xO M k)
        by (apply Pos2Z.inj; rewrite iter_xO_value; exact HM).
      assert (Hd : Z.pos (digits2_pos M) + e = Z.pos (digits2_pos mc) + ec)
        by (rewrite HMk, digits2_pos_iter_xO; lia).
      rewrite Hd, Hc. unfold shl_align.
      replace (ec - e) with (Z.neg k) by lia.
      rewrite <- HMk. apply binary_round_aux_canonical. exact Hb.
Qed.

(** *** The doubles of integers below 2^53 *)

Lemma digits_below_53 (p : positive) :
  Z.pos p < 2 ^ 53 -> Z.pos (digits2_pos p) <= 53.
Proof.
  intro Hp. pose proof (digits2_pos_bounds p) as Hb.
  destruct (Z.le_gt_cases (Z.pos (digits2_pos p)) 53) as [H | H]; [ exact H | ].
  assert (2 ^ 53 <= 2 ^ (Z.pos (digits2_pos p) - 1))
    by (apply Z.pow_le_mono_r; lia).
  lia.
Qed.

(** The double of a positive integer below 2^53: its mantissa, its exponent,
    and the fact that they fit. *)
Lemma Prim2SF_Z2F_pos (p : positive) :
  Z.pos p < 2 ^ 53 ->
  exists mz : positive,
    Prim2SF (Binary64.Z2F (Z.pos p) false)
    = S754_finite false mz (Z.pos (digits2_pos p) - 53)
    /\ Z.pos mz = Z.pos p * 2 ^ (53 - Z.pos (digits2_pos p))
    /\ bounded prec emax mz (Z.pos (digits2_pos p) - 53) = true.
Proof.
  intro Hp.
  destruct (Prim2SF_Z2F_small false p false (digits_below_53 p Hp))
    as (mz & Hr & Hmz).
  cbv iota in Hr. exists mz. split; [ exact Hr | split; [ exact Hmz | ] ].
  pose proof (Prim2SF_valid (Binary64.Z2F (Z.pos p) false)) as Hv.
  rewrite Hr in Hv. exact Hv.
Qed.

(** A positive integer below 2^53 written as [M * 2^-t] rounds to its
    double. *)
Lemma binary_round_integer (N M : positive) (t : Z) :
  Z.pos N < 2 ^ 53 -> 0 <= t -> Z.pos M = Z.pos N * 2 ^ t ->
  binary_round prec emax false M (- t)
  = Prim2SF (Binary64.Z2F (Z.pos N) false).
Proof.
  intros HN Ht HM.
  destruct (Prim2SF_Z2F_pos N HN) as (mz & Hr & Hmz & Hb). rewrite Hr.
  pose proof (digits_below_53 N HN) as Hd.
  set (d := Z.pos (digits2_pos N)) in *.
  apply binary_round_exact; [ exact Hb | ].
  destruct (Z.le_gt_cases (- t) (d - 53)) as [H | H].
  - left. split; [ exact H | ].
    rewrite HM, Hmz, <- Z.mul_assoc, <- Z.pow_add_r by lia.
    f_equal. f_equal. lia.
  - right. split; [ lia | ].
    rewrite HM, Hmz, <- Z.mul_assoc, <- Z.pow_add_r by lia.
    f_equal. f_equal. lia.
Qed.

(** The mantissa of the double of an integer, aligned to a lower exponent. *)
Lemma aligned_integer (p mz : positive) (ez : Z) :
  Z.pos p < 2 ^ 53 ->
  Z.pos mz = Z.pos p * 2 ^ (53 - Z.pos (digits2_pos p)) ->
  ez <= Z.pos (digits2_pos p) - 53 ->
  Z.pos (fst (shl_align mz (Z.pos (digits2_pos p) - 53) ez))
  = Z.pos p * 2 ^ (- ez).
Proof.
  intros Hp Hmz Hez. pose proof (digits_below_53 p Hp) as Hd.
  rewrite shl_align_value by exact Hez.
  rewrite Hmz, <- Z.mul_assoc, <- Z.pow_add_r by lia.
  f_equal. f_equal. lia.
Qed.

(** Sums of integers are exact as long as they stay below 2^53. *)
Lemma Z2F_add (a b : Z) :
  0 <= a -> 0 <= b -> a + b < 2 ^ 53 ->
  (Binary64.Z2F a false + Binary64.Z2F b false)%float
  = Binary64.Z2F (a + b) false.
Proof.
  intros Ha Hb Hab. apply Prim2SF_inj. rewrite add_spec.
  destruct a as [ | pa | pa]; try lia; destruct b as [ | pb | pb]; try lia.
  - reflexivity.
  - destruct (Prim2SF_Z2F_pos pb ltac:(lia)) as (mb & Hrb & _).
    change (Prim2SF (Binary64.Z2F 0 false)) with (S754_zero false).
    rewrite Z.add_0_l, Hrb. reflexivity.
  - destruct (Prim2SF_Z2F_pos pa ltac:(lia)) as (ma & Hra & _).
    change (Prim2SF (Binary64.Z2F 0 false)) with (S754_zero false).
    rewrite Z.add_0_r, Hra. reflexivity.
  - destruct (Prim2SF_Z2F_pos pa ltac:(lia)) as (ma & Hra & Hma & _).
    destruct (Prim2SF_Z2F_pos pb ltac:(lia)) as (mb & Hrb & Hmb & _).
    pose proof (digits_below_53 pa ltac:(lia)) as Hda.
    pose proof (digits_below_53 pb ltac:(lia)) as Hdb.
    rewrite Hra, Hrb. unfold SF64add, SFadd. cbv zeta. unfold cond_Zopp.
    set (ez := Z.min (Z.pos (digits2_pos pa) - 53) (Z.pos (digits2_pos pb) - 53)).
    change (Z.pos pa + Z.pos pb) with (Z.pos (pa + pb)).
    match goal with
    | |- binary_normalize _ _ (Z.pos ?A + Z.pos ?B) _ _ = _ =>
        change (Z.pos A + Z.pos B) with (Z.pos (A + B))
    end.
    unfold binary_normalize.
    replace ez with (- - ez) at 3 by lia.
    apply binary_round_integer.
    + lia.
    + unfold ez. lia.
    + rewrite !Pos2Z.inj_add.
      rewrite (aligned_integer pa ma ez), (aligned_integer pb mb ez)
        by (try assumption; unfold ez; lia).
      ring.
Qed.

(** So are differences. *)
Lemma Z2F_sub (a b : Z) :
  0 <= b -> b <= a -> a < 2 ^ 53 ->
  (Binary64.Z2F a false - Binary64.Z2F b false)%float
  = Binary64.Z2F (a - b) false.
Proof.
  intros Hb Hba Ha. apply Prim2SF_inj. rewrite sub_spec.
  destruct a as [ | pa | pa]; try lia; destruct b as [ | pb | pb]; try lia.
  - reflexivity.
  - destruct (Prim2SF_Z2F_pos pa ltac:(lia)) as (ma & Hra & _).
    change (Prim2SF (Binary64.Z2F 0 false)) with (S754_zero false).
    rewrite Z.sub_0_r, Hra. reflexivity.
  - destruct (Prim2SF_Z2F_pos pa ltac:(lia)) as (ma & Hra & Hma & _).
    destruct (Prim2SF_Z2F_pos pb ltac:(lia)) as (mb & Hrb & Hmb & _).
    pose proof (digits_below_53 pa ltac:(lia)) as Hda.
    pose proof (digits_below_53 pb ltac:(lia)) as Hdb.
    rewrite Hra, Hrb. unfold SF64sub, SFsub. cbv zeta. unfold cond_Zopp.
    set (ez := Z.min (Z.pos (digits2_pos pa) - 53) (Z.pos (digits2_pos pb) - 53)).
    assert (HA := aligned_integer pa ma ez ltac:(lia) Hma ltac:(unfold ez; lia)).
    assert (HB := aligned_integer pb mb ez ltac:(lia) Hmb ltac:(unfold ez; lia)).
    assert (Hpow : 0 < 2 ^ (- ez)) by (apply Z.pow_pos_nonneg; unfold ez; lia).
    destruct (Z.pos pa - Z.pos pb) as [ | q | q] eqn:Eq; try lia.
    + rewrite HA, HB.
      replace (Z.pos pa * 2 ^ (- ez) - Z.pos pb * 2 ^ (- ez)) with 0 by nia.
      reflexivity.
    + rewrite HA, HB.
      assert (Hq : Z.pos pa * 2 ^ (- ez) - Z.pos pb * 2 ^ (- ez)
                   = Z.pos q * 2 ^ (- ez)) by nia.
      rewrite Hq.
      destruct (Z.pos q * 2 ^ (- ez)) as [ | M | M] eqn:EM; try lia.
      unfold binary_normalize.
      replace ez with (- - ez) at 1 by lia.
      apply binary_round_integer.
      * lia.
      * unfold ez. lia.
      * symmetry. exact EM.
Qed.

(** Comparing the doubles of two integers compares the integers. *)
Lemma Z2F_compare (a b : Z) :
  0 <= a < 2 ^ 53 -> 0 <= b < 2 ^ 53 ->
  SFcompare (Prim2SF (Binary64.Z2F a false)) (Prim2SF (Binary64.Z2F b false))
  = Some (a ?= b).
Proof.
  intros Ha Hb.
  destruct a as [ | pa | pa]; try lia; destruct b as [ | pb | pb]; try lia.
  - reflexivity.
  - destruct (Prim2SF_Z2F_pos pb ltac:(lia)) as (mb & Hrb & _).
    change (Prim2SF (Binary64.Z2F 0 false)) with (S754_zero false).
    rewrite Hrb. reflexivity.
  - destruct (Prim2SF_Z2F_pos pa ltac:(lia)) as (ma & Hra & _).
    change (Prim2SF (Binary64.Z2F 0 false)) with (S754_zero false).
    rewrite Hra. reflexivity.
  - destruct (Prim2SF_Z2F_pos pa ltac:(lia)) as (ma & Hra & Hma & _).
    destruct (Prim2SF_Z2F_pos pb ltac:(lia)) as (mb & Hrb & Hmb & _).
    pose proof (digits_below_53 pa ltac:(lia)) as Hda.
    pose proof (digits_below_53 pb ltac:(lia)) as Hdb.
    pose proof (digits2_pos_bounds pa) as Ba.
    pose proof (digits2_pos_bounds pb) as Bb.
    rewrite Hra, Hrb. unfold SFcompare. f_equal.
    set (da := Z.pos (digits2_pos pa)) in *.
    set (db := Z.pos (digits2_pos pb)) in *.
    destruct (Z.compare_spec (da - 53) (db - 53)) as [E | E | E].
    + assert (Ed : da = db) by lia.
      rewrite Pos.compare_cont_spec.
      replace (Pos.switch_Eq Eq (ma ?= mb)%positive) with (ma ?= mb)%positive
        by (destruct (ma ?= mb)%positive; reflexivity).
      change (ma ?= mb)%positive with (Z.pos ma ?= Z.pos mb).
      rewrite Hma, Hmb, Ed.
      assert (HP : 0 < 2 ^ (53 - db)) by (apply Z.pow_pos_nonneg; lia).
      destruct (Z.compare_spec (Z.pos pa) (Z.pos pb)) as [E' | E' | E'].
      * apply Z.compare_eq_iff. rewrite E'. reflexivity.
      * apply Z.compare_lt_iff. nia.
      * apply Z.compare_gt_iff. nia.
    + symmetry. apply Z.compare_lt_iff.
      assert (2 ^ da <= 2 ^ (db - 1)) by (apply Z.pow_le_mono_r; lia).
      lia.
    + symmetry. apply Z.compare_gt_iff.
      assert (2 ^ db <= 2 ^ (da - 1)) by (apply Z.pow_le_mono_r; lia).
      lia.
Qed.

Lemma Z2F_leb (a b : Z) :
  0 <= a < 2 ^ 53 -> 0 <= b < 2 ^ 53 ->
  PrimFloat.leb (Binary64.Z2F a false) (Binary64.Z2F b false) = (a <=? b).
Proof.
  intros Ha Hb. rewrite leb_spec. unfold SFleb.
  rewrite (Z2F_compare a b Ha Hb). unfold Z.leb.
  destruct (a ?= b); reflexivity.
Qed.

Lemma Z2F_ltb (a b : Z) :
  0 <= a < 2 ^ 53 -> 0 <= b < 2 ^ 53 ->
  PrimFloat.ltb (Binary64.Z2F a false) (Binary64.Z2F b false) = (a <? b).
Proof.
  intros Ha Hb. rewrite ltb_spec. unfold SFltb.
  rewrite (Z2F_compare a b Ha Hb). unfold Z.ltb.
  destruct (a ?= b); reflexivity.
Qed.

(** [Math.min] and [Math.max] of the doubles of two integers. *)
Lemma Z2F_min (a b : Z) :
  0 <= a < 2 ^ 53 -> 0 <= b < 2 ^ 53 ->
  Binary64.min (Binary64.Z2F a false) (Binary64.Z2F b false)
  = Binary64.Z2F (Z.min a b) false.
Proof.
  intros Ha Hb. unfold Binary64.min.
  rewrite !Z2F_not_nan. simpl orb. cbv iota.
  rewrite (Z2F_ltb a b Ha Hb), (Z2F_ltb b a Hb Ha).
  destruct (Z.ltb_spec a b) as [H | H].
  - rewrite Z.min_l by lia. reflexivity.
  - destruct (Z.ltb_spec b a) as [H' | H'].
    + rewrite Z.min_r by lia. reflexivity.
    + assert (a = b) by lia. subst b. rewrite Z.min_id.
      destruct (get_sign (Binary64.Z2F a false)); reflexivity.
Qed.

Lemma Z2F_max (a b : Z) :
  0 <= a < 2 ^ 53 -> 0 <= b < 2 ^ 53 ->
  Binary64.max (Binary64.Z2F a false) (Binary64.Z2F b false)
  = Binary64.Z2F (Z.max a b) false.
Proof.
  intros Ha Hb. unfold Binary64.max.
  rewrite !Z2F_not_nan. simpl orb. cbv iota.
  rewrite (Z2F_ltb a b Ha Hb), (Z2F_ltb b a Hb Ha).
  destruct (Z.ltb_spec a b) as [H | H].
  - rewrite Z.max_r by lia. reflexivity.
  - destruct (Z.ltb_spec b a) as [H' | H'].
    + rewrite Z.max_l by lia. reflexivity.
    + assert (a = b) by lia. subst b. rewrite Z.max_id.
      destruct (get_sign (Binary64.Z2F a false)); reflexivity.
Qed.

(** *** Rounding and capping a number that is not below an integer *)

(** A double at or above the double of [k] holds a value at or above [k]. *)
Lemma finiteValue_above (k : positive) (m : positive) (e : Z) :
  Z.pos k < 2 ^ 53 -> e < 0 ->
  bounded prec emax m e = true ->
  SFleb (Prim2SF (Binary64.Z2F (Z.pos k) false)) (S754_finite false m e) = true ->
  (inject_Z (Z.pos k) <= Binary64.finiteValue false m e)%Q.
Proof.
  intros Hk He Hb Hle.
  destruct (Prim2SF_Z2F_pos k Hk) as (mk & Hr & Hmk & _).
  pose proof (digits_below_53 k Hk) as Hdk.
  pose proof (digits2_pos_bounds k) as Bk.
  pose proof (digits2_pos_bounds m) as Bm.
  rewrite Hr in Hle. unfold SFleb, SFcompare in Hle.
  unfold bounded, canonical_mantissa in Hb.
  apply andb_prop in Hb as [Hc _]. apply Z.eqb_eq in Hc.
  rewrite fexp_value in Hc.
  set (dk := Z.pos (digits2_pos k)) in *.
  set (dm := Z.pos (digits2_pos m)) in *.
  assert (Hdk0 : 0 < dk) by (unfold dk; lia).
  assert (Hval : Z.pos k * 2 ^ (- e) <= Z.pos m).
  { destruct (Z.compare_spec (dk - 53) e) as [E | E | E];
      try discriminate Hle.
    - rewrite Pos.compare_cont_spec in Hle.
      replace (Pos.switch_Eq Eq (mk ?= m)%positive) with (mk ?= m)%positive
        in Hle by (destruct (mk ?= m)%positive; reflexivity).
      assert (Hm : Z.pos mk <= Z.pos m).
      { destruct (Pos.compare_spec mk m) as [E' | E' | E'];
          try discriminate Hle; lia. }
      rewrite Hmk in Hm. replace (- e) with (53 - dk) by lia. exact Hm.
    - assert (Hdm : dm = 53) by lia.
      assert (H52 : 2 ^ 52 <= Z.pos m) by (rewrite Hdm in Bm; exact (proj1 Bm)).
      assert (Hp : 2 ^ dk * 2 ^ (- e) <= 2 ^ 52).
      { rewrite <- Z.pow_add_r by lia. apply Z.pow_le_mono_r; lia. }
      assert (0 < 2 ^ (- e)) by (apply Z.pow_pos_nonneg; lia).
      nia. }
  destruct e as [ | q | q]; try lia.
  unfold Binary64.finiteValue, Pos.shiftl.
  unfold Qle. simpl Qnum. simpl Qden.
  rewrite iter_xO_value. change (- Z.neg q) with (Z.pos q) in Hval.
  change (Z.pos 1) with 1. lia.
Qed.

(** [Math.min(cap, Math.round(x))] for [x] at or above an integer [k] that
    is not above the cap: the double of an integer between [k] and the
    cap. *)
Lemma capped_round (k cap : Z) (x : float) :
  1 <= k -> k <= cap -> cap < 2 ^ 52 ->
  PrimFloat.leb (Binary64.Z2F k false) x = true ->
  exists p : Z,
    k <= p <= cap
    /\ Binary64.min (Binary64.Z2F cap false) (Binary64.round x)
       = Binary64.Z2F p false.
Proof.
  intros Hk Hcap H52 Hle.
  assert (Hmin_cap : PrimFloat.ltb (Binary64.Z2F cap false) x = true ->
                     Binary64.min (Binary64.Z2F cap false) x
                     = Binary64.Z2F cap false).
  { intro Hlt. unfold Binary64.min.
    destruct (ltb_not_nan _ _ Hlt) as [-> ->]. simpl. rewrite Hlt. reflexivity. }
  change (2 ^ 52) with 4503599627370496 in H52.
  destruct k as [ | pk | pk]; try lia.
  destruct cap as [ | pc | pc]; try lia.
  destruct (Prim2SF_Z2F_pos pc ltac:(lia)) as (mc & Hrc & Hmc & _).
  pose proof (digits2_pos_bounds pc) as Bc.
  assert (Hdc : Z.pos (digits2_pos pc) <= 52).
  { destruct (Z.le_gt_cases (Z.pos (digits2_pos pc)) 52) as [H | H]; [ exact H | ].
    assert (2 ^ 52 <= 2 ^ (Z.pos (digits2_pos pc) - 1))
      by (apply Z.pow_le_mono_r; lia).
    change (2 ^ 52) with 4503599627370496 in *. lia. }
  pose proof (Prim2SF_valid x) as Hv.
  pose proof Hle as Hle'. rewrite leb_spec in Hle'.
  unfold Binary64.round.
  destruct (Prim2SF x) as [s | s | | s m e] eqn:Ex.
  - destruct (Prim2SF_Z2F_pos pk ltac:(lia)) as (mk & Hrk & _).
    rewrite Hrk in Hle'. discriminate Hle'.
  - exists (Z.pos pc). split; [ lia | ]. apply Hmin_cap.
    rewrite ltb_spec, Ex, Hrc.
    destruct (Prim2SF_Z2F_pos pk ltac:(lia)) as (mk & Hrk & _).
    rewrite Hrk in Hle'. destruct s; [ discriminate Hle' | reflexivity ].
  - destruct (Prim2SF_Z2F_pos pk ltac:(lia)) as (mk & Hrk & _).
    rewrite Hrk in Hle'. discriminate Hle'.
  - assert (Hs : s = false).
    { destruct (Prim2SF_Z2F_pos pk ltac:(lia)) as (mk & Hrk & _).
      rewrite Hrk in Hle'. destruct s; [ discriminate Hle' | reflexivity ]. }
    subst s. simpl in Hv.
    destruct (Z.leb_spec 0 e) as [He | He].
    + exists (Z.pos pc). split; [ lia | ]. apply Hmin_cap.
      rewrite ltb_spec, Ex, Hrc. unfold SFltb, SFcompare.
      destruct (Z.compare_spec (Z.pos (digits2_pos pc) - 53) e) as [E | E | E];
        try reflexivity; lia.
    + pose proof (finiteValue_above pk m e ltac:(lia) He Hv Hle') as Hval.
      pose proof (roundHalfUp_integer _ _ Hval) as Hn.
      pose proof (roundHalfUp_finiteValue_bound false m e Hv He) as Hb.
      change (2 ^ 52) with 4503599627370496 in Hb.
      set (n := roundHalfUp (Binary64.finiteValue false m e)) in *.
      exists (Z.min (Z.pos pc) n). split; [ lia | ].
      apply Z2F_min; change (2 ^ 53) with 9007199254740992; lia.
Qed.

(** *** Order on doubles that are not negative *)

Lemma leb_trans_from_zero (a b c : float) :
  PrimFloat.leb 0 a = true -> PrimFloat.leb a b = true ->
  PrimFloat.leb b c = true -> PrimFloat.leb a c = true.
Proof.
  rewrite !leb_spec. change (Prim2SF 0) with (S754_zero false).
  destruct (Prim2SF a) as [sa | sa | | sa ma ea];
    destruct (Prim2SF b) as [sb | sb | | sb mb eb];
    destruct (Prim2SF c) as [sc | sc | | sc mc ec];
    try destruct sa; try destruct sb; try destruct sc;
    intros H0 H1 H2; try discriminate; try reflexivity.
  unfold SFleb, SFcompare in *.
  destruct (Z.compare_spec ea eb) as [E1 | E1 | E1]; try discriminate;
    destruct (Z.compare_spec eb ec) as [E2 | E2 | E2]; try discriminate;
    destruct (Z.compare_spec ea ec) as [E3 | E3 | E3];
    try reflexivity; try lia.
  rewrite Pos.compare_cont_spec in *. simpl Pos.switch_Eq in *.
  destruct (Pos.compare_spec ma mb) as [F1 | F1 | F1]; try discriminate;
    destruct (Pos.compare_spec mb mc) as [F2 | F2 | F2]; try discriminate;
    destruct (Pos.compare_spec ma mc) as [F3 | F3 | F3];
    try reflexivity; lia.
Qed.

Lemma leb_refl_from_zero (a : float) :
  PrimFloat.leb 0 a = true -> PrimFloat.leb a a = true.
Proof.
  rewrite !leb_spec. change (Prim2SF 0) with (S754_zero false).
  destruct (Prim2SF a) as [sa | sa | | sa ma ea]; try destruct sa;
    intro H0; try discriminate; try reflexivity.
  apply SFleb_refl_finite.
Qed.

(** *** Sums at or above an integer *)

(** A finite double at or above the double of the integer [j], read on its
    mantissa aligned to any exponent [ez] below its own. *)
Lemma integer_below_finite (j m : positive) (e ez : Z) :
  Z.pos j < 2 ^ 53 ->
  bounded prec emax m e = true ->
  SFleb (Prim2SF (Binary64.Z2F (Z.pos j) false)) (S754_finite false m e) = true ->
  ez <= e -> ez <= 0 ->
  Z.pos j * 2 ^ (- ez) <= Z.pos m * 2 ^ (e - ez).
Proof.
  intros Hj Hb Hle Hez Hez0.
  destruct (Prim2SF_Z2F_pos j Hj) as (mj & Hr & Hmj & _).
  pose proof (digits_below_53 j Hj) as Hdj.
  pose proof (digits2_pos_bounds j) as Bj.
  pose proof (digits2_pos_bounds m) as Bm.
  rewrite Hr in Hle. unfold SFleb, SFcompare in Hle.
  unfold bounded, canonical_mantissa in Hb.
  apply andb_prop in Hb as [Hc _]. apply Z.eqb_eq in Hc.
  rewrite fexp_value in Hc.
  set (dj := Z.pos (digits2_pos j)) in *.
  set (dm := Z.pos (digits2_pos m)) in *.
  assert (Hdj0 : 0 < dj) by (unfold dj; lia).
  destruct (Z.compare_spec (dj - 53) e) as [E | E | E]; try discriminate Hle.
  - rewrite Pos.compare_cont_spec in Hle.
    replace (Pos.switch_Eq Eq (mj ?= m)%positive) with (mj ?= m)%positive
      in Hle by (destruct (mj ?= m)%positive; reflexivity).
    assert (Hm : Z.pos mj <= Z.pos m).
    { destruct (Pos.compare_spec mj m) as [E' | E' | E'];
        try discriminate Hle; lia. }
    rewrite Hmj in Hm.
    replace (- ez) with ((53 - dj) + (e - ez)) by lia.
    rewrite Z.pow_add_r, Z.mul_assoc by lia.
    apply Z.mul_le_mono_nonneg_r; [ apply Z.pow_nonneg; lia | exact Hm ].
  - assert (Hdm : dm = 53) by lia.
    assert (H52 : 2 ^ 52 <= Z.pos m) by (rewrite Hdm in Bm; exact (proj1 Bm)).
    assert (H1 : Z.pos j * 2 ^ (- ez) <= 2 ^ dj * 2 ^ (- ez))
      by (apply Z.mul_le_mono_nonneg_r; [ apply Z.pow_nonneg; lia | lia ]).
    assert (H2 : 2 ^ 52 * 2 ^ (e - ez) <= Z.pos m * 2 ^ (e - ez))
      by (apply Z.mul_le_mono_nonneg_r; [ apply Z.pow_nonneg; lia | lia ]).
    rewrite <- Z.pow_add_r in H1, H2 by lia.
    assert (H3 : 2 ^ (dj + - ez) <= 2 ^ (52 + (e - ez)))
      by (apply Z.pow_le_mono_r; lia).
    lia.
Qed.

(** Adding a number at or above the integer [j] to the integer [k] gives at
    least [k + j]. *)
Lemma add_integer_above (k j : Z) (g : float) :
  1 <= k -> 1 <= j -> k + j < 2 ^ 53 ->
  PrimFloat.leb (Binary64.Z2F j false) g = true ->
  PrimFloat.leb (Binary64.Z2F (k + j) false) (Binary64.Z2F k false + g) = true.
Proof.
  intros Hk Hj Hkj Hg.
  destruct k as [ | pk | pk]; try lia. destruct j as [ | pj | pj]; try lia.
  change (Z.pos pk + Z.pos pj) with (Z.pos (pk + pj)) in *.
  rewrite leb_spec, add_spec. rewrite leb_spec in Hg.
  destruct (Prim2SF_Z2F_pos pk ltac:(lia)) as (mk & Hrk & Hmk & Hbk).
  destruct (Prim2SF_Z2F_pos (pk + pj) Hkj) as (mc & Hrc & Hmc & Hbc).
  destruct (Prim2SF_Z2F_pos pj ltac:(lia)) as (mj & Hrj & _).
  pose proof (digits2_pos_bounds pk) as Bk.
  pose proof (digits2_pos_bounds (pk + pj)) as Bc.
  pose proof (digits_below_53 pk ltac:(lia)) as Hdk.
  pose proof (digits_below_53 (pk + pj) Hkj) as Hdc.
  set (dk := Z.pos (digits2_pos pk)) in *.
  set (dc := Z.pos (digits2_pos (pk + pj))) in *.
  assert (Hdkc : dk <= dc).
  { assert (H : 2 ^ (dk - 1) < 2 ^ dc) by lia.
    apply Z.pow_lt_mono_r_iff in H; lia. }
  pose proof (Prim2SF_valid g) as Hv.
  rewrite Hrk, Hrc.
  destruct (Prim2SF g) as [s | s | | s mg eg] eqn:Eg.
  - rewrite Hrj in Hg. discriminate Hg.
  - rewrite Hrj in Hg. destruct s; [ discriminate Hg | reflexivity ].
  - rewrite Hrj in Hg. discriminate Hg.
  - assert (Hs : s = false).
    { rewrite Hrj in Hg. destruct s; [ discriminate Hg | reflexivity ]. }
    subst s. simpl in Hv.
    unfold SF64add, SFadd. cbv zeta. unfold cond_Zopp.
    set (ez := Z.min (dk - 53) eg).
    change (Z.pos (fst (shl_align mk (dk - 53) ez))
            + Z.pos (fst (shl_align mg eg ez)))
      with (Z.pos (fst (shl_align mk (dk - 53) ez) + fst (shl_align mg eg ez))).
    unfold binary_normalize.
    apply binary_round_above.
    + unfold bounded in Hbc. apply andb_prop in Hbc as [Hcan _]. exact Hcan.
    + unfold ez. lia.
    + rewrite Pos2Z.inj_add.
      pose proof (aligned_integer pk mk ez ltac:(lia) Hmk
                    ltac:(unfold ez; lia)) as Hal.
      change (Z.pos (digits2_pos pk)) with dk in Hal. rewrite Hal.
      rewrite (shl_align_value mg eg ez ltac:(unfold ez; lia)).
      pose proof (integer_below_finite pj mg eg ez ltac:(lia) Hv Hg
                    ltac:(unfold ez; lia) ltac:(unfold ez; lia)) as Hval.
      rewrite Hmc, <- Z.mul_assoc, <- Z.pow_add_r by lia.
      replace (53 - dc + (dc - 53 - ez)) with (- ez) by lia.
      rewrite Pos2Z.inj_add. lia.
Qed.

(** Adding a number that is not negative keeps a sum at or above an
    integer. *)
Lemma add_keeps_above (j : Z) (c g : float) :
  1 <= j < 2 ^ 53 ->
  PrimFloat.leb (Binary64.Z2F j false) c = true ->
  PrimFloat.leb 0 g = true ->
  PrimFloat.leb (Binary64.Z2F j false) (c + g) = true.
Proof.
  intros Hj Hc Hg.
  destruct j as [ | pj | pj]; try lia.
  destruct (Prim2SF_Z2F_pos pj ltac:(lia)) as (mj & Hrj & _).
  pose proof Hc as Hc'. rewrite leb_spec, Hrj in Hc'.
  destruct (Prim2SF c) as [s | s | | s mc ec] eqn:Ec; try discriminate Hc'.
  - destruct s; [ discriminate Hc' | ].
    rewrite leb_spec, add_spec, Hrj, Ec.
    apply leb_zero_shape in Hg.
    destruct Hg as [[s Hg] | [(mg & eg & Hg) | Hg]]; rewrite Hg; reflexivity.
  - destruct s; [ discriminate Hc' | ].
    assert (H0 : PrimFloat.leb 0 (Binary64.Z2F (Z.pos pj) false) = true).
    { rewrite leb_spec, Hrj. reflexivity. }
    apply (leb_trans_from_zero _ c _ H0 Hc).
    apply add_not_below; [ | exact Hg ].
    unfold isPositiveFinite. rewrite Ec. reflexivity.
Qed.

End RoundingOrder.

(** ** Scores that are integers, on binary64 *)

Lemma roundedShare_round (c : float) (j n : Z) :
  roundedShare c j = Some n ->
  Binary64.round (Binary64.Z2F j false * c) = Binary64.Z2F n false.
Proof.
  unfold roundedShare, Binary64.round.
  destruct (Prim2SF (Binary64.Z2F j false * c)) as [[ | ] | s | | [ | ] m e] eqn:E;
    try discriminate.
  - intro H. injection H as <-. apply Prim2SF_inj. rewrite E. reflexivity.
  - destruct (Z.ltb_spec e 0) as [He | He]; [ | discriminate ].
    intro H. injection H as <-.
    destruct (Z.leb_spec 0 e); [ lia | reflexivity ].
Qed.

Lemma shares_within_gains : forallb sharesWithinGain gains = true.
Proof.
  vm_compute. reflexivity.
Qed.

Lemma shares_of_gain (j : Z) :
  (0 <= j <= 550)%Z ->
  exists a b : Z,
    (0 <= a /\ a <= b /\ b <= j)%Z
    /\ Binary64.round (Binary64.Z2F j false * 0.15) = Binary64.Z2F a false
    /\ Binary64.round (Binary64.Z2F j false * 0.65) = Binary64.Z2F b false.
Proof.
  intro Hj.
  assert (Hin : In j gains).
  { unfold gains. apply in_map_iff. exists (Z.to_nat j).
    split; [ lia | ]. apply in_seq. lia. }
  pose proof (proj1 (forallb_forall _ _) shares_within_gains j Hin) as Hs.
  unfold sharesWithinGain in Hs.
  destruct (roundedShare 0.15 j) as [a | ] eqn:Ea; [ | discriminate ].
  destruct (roundedShare 0.65 j) as [b | ] eqn:Eb; [ | discriminate ].
  exists a, b.
  apply andb_prop in Hs as [Hs Hb]. apply andb_prop in Hs as [Ha Hab].
  apply Z.leb_le in Ha, Hab, Hb.
  repeat split; try assumption; apply roundedShare_round; assumption.
Qed.

Lemma Z2F_positive_finite (k : Z) :
  (1 <= k < 2 ^ 53)%Z -> isPositiveFinite (Binary64.Z2F k false) = true.
Proof.
  intro Hk. destruct k as [ | p | p]; try lia.
  destruct (Prim2SF_Z2F_pos p ltac:(lia)) as (m & Hr & _).
  unfold isPositiveFinite. rewrite Hr. reflexivity.
Qed.

(** The check behind the least gain: on each of the 72 outcomes the
    utilization gain is at least 45. *)
Lemma allAdjusted_utilization_gain :
  forallb
    (fun pre : Weights.t float =>
       PrimFloat.leb 45 (0 + Weights.utilization (normalizeWeights pre) * 250)%float)
    allAdjusted = true.
Proof.
  vm_compute. reflexivity.
Qed.

(** The potential gain of a record is at least 45 when its recoveryMonths
    is a number not below zero. *)
Lemma potentialGain_above (nd : NumericData.t float) (months : float) :
  PrimFloat.leb 0 months = true ->
  PrimFloat.leb (Binary64.Z2F 45 false)
    (potentialGain nd (weightsOf nd) months) = true.
Proof.
  intro Hm.
  pose proof (adjustWeights_forall _ allAdjusted_gain_factors
                (NumericData.ficoScore nd) (NumericData.totalDebt nd)
                (NumericData.monthlyIncome nd) (NumericData.positiveAccounts nd)
                (NumericData.oldestAccountAge nd) (NumericData.totalCreditLimit nd))
    as Hw.
  pose proof (adjustWeights_forall _ allAdjusted_utilization_gain
                (NumericData.ficoScore nd) (NumericData.totalDebt nd)
                (NumericData.monthlyIncome nd) (NumericData.positiveAccounts nd)
                (NumericData.oldestAccountAge nd) (NumericData.totalCreditLimit nd))
    as Hu.
  cbv beta zeta in Hw, Hu.
  apply andb_prop in Hw as [Hw Ha]. apply andb_prop in Hw as [_ Hph].
  unfold potentialGain, weightsOf.
  set (w := calculateWeights _ _ _ _ _ _) in *.
  assert (H36 : PrimFloat.leb 0 (months / 36) = true)
    by (apply div_not_negative; [ exact Hm | reflexivity ]).
  assert (H45 : (1 <= 45 < 2 ^ 53)%Z) 
    by (change (2 ^ 53)%Z with 9007199254740992%Z; lia).
  cbv zeta.
  apply (add_keeps_above 45 _ _ H45).
  - apply (add_keeps_above 45 _ _ H45);
      [ apply (add_keeps_above 45 _ _ H45); [ exact Hu | ] | ].
    + apply const_mul_not_negative; [ exact Hph | exact H36 ].
    + apply const_mul_not_negative; [ exact Ha | exact H36 ].
  - destruct (NumericData.securedCard nd), (NumericData.creditBuilder nd),
      (NumericData.authorizedUser nd); reflexivity.
Qed.

(** The scores of a record whose score is an integer of [300, 850]. *)
Lemma integer_scores (nd : NumericData.t float) (f : Z) :
  NumericData.ficoScore nd = Binary64.Z2F f false ->
  (300 <= f <= 850)%Z ->
  PrimFloat.leb 0 (Results.recoveryMonths (simulate nd)) = true ->
  (NumericData.scenarioType nd = "pre-enrollment" ->
   is_nan (rawDrop nd (weightsOf nd)) = false) ->
  exists k p s v : Z,
    (300 <= k /\ k <= s /\ s <= v /\ v <= p /\ p <= 850 /\ k <= f /\ s <= f
     /\ Z.min 850 (k + 45) <= p)%Z
    /\ Results.lowPointScore (simulate nd) = Binary64.Z2F k false
    /\ Results.milestoneStabilizationScore (simulate nd) = Binary64.Z2F s false
    /\ Results.milestoneRecoveryScore (simulate nd) = Binary64.Z2F v false
    /\ Results.projectedScore (simulate nd) = Binary64.Z2F p false
    /\ (NumericData.scenarioType nd = "pre-enrollment" -> (k <= 830)%Z)
    /\ (NumericData.scenarioType nd <> "pre-enrollment" -> k = f).
Proof.
  intros Hfico Hf Hmonths Hdrop.
  assert (H53 : (2 ^ 53 = 9007199254740992)%Z) by reflexivity.
  (* the low point *)
  assert (Hlow : exists k : Z,
             (300 <= k <= f)%Z
             /\ Results.lowPointScore (simulate nd) = Binary64.Z2F k false
             /\ (NumericData.scenarioType nd = "pre-enrollment" -> (k <= 830)%Z)
             /\ (NumericData.scenarioType nd <> "pre-enrollment" -> k = f)).
  { destruct (string_dec (NumericData.scenarioType nd) "pre-enrollment")
      as [Hs | Hs].
    - destruct (simulate_pre nd Hs) as (Hlow & _). rewrite Hlow.
      destruct (clamp_round_binary64 _ (Hdrop Hs)) as (_ & _ & n & Hn & Hpen).
      change (calculateWorstCaseImpact nd (weightsOf nd))
        with (Binary64.min 150
                (Binary64.max 20 (Binary64.round (rawDrop nd (weightsOf nd))))).
      rewrite Hpen, Hfico.
      change (@sub float Binary64Numbers) with PrimFloat.sub.
      rewrite Z2F_sub by lia.
      change (@Math_max float Binary64Numbers (lit 300))
        with (Binary64.max (Binary64.Z2F 300 false)).
      rewrite Z2F_max by lia.
      exists (Z.max 300 (f - n)). split; [ lia | ].
      split; [ reflexivity | ]. split; [ lia | contradiction ].
    - destruct (simulate_other nd Hs) as (Hlow & _). rewrite Hlow, Hfico.
      exists f. split; [ lia | ].
      split; [ reflexivity | ]. split; [ contradiction | reflexivity ]. }
  destruct Hlow as (k & Hk & Hlow & Hpre & Hother).
  (* the projection *)
  pose proof (potentialGain_above nd _ Hmonths) as Hgain.
  pose proof (simulate_projectedScore nd) as Hproj.
  rewrite Hlow in Hproj.
  assert (Hx : PrimFloat.leb (Binary64.Z2F (Z.min 850 (k + 45)) false)
                 (Binary64.Z2F k false
                  + potentialGain nd (weightsOf nd)
                      (Results.recoveryMonths (simulate nd)))%float = true).
  { apply (leb_trans_from_zero _ (Binary64.Z2F (k + 45) false)).
    - change 0%float with (Binary64.Z2F 0 false).
      rewrite Z2F_leb by lia. apply Z.leb_le. lia.
    - rewrite Z2F_leb by lia. apply Z.leb_le. lia.
    - apply add_integer_above; [ lia | lia | lia | exact Hgain ]. }
  destruct (capped_round (Z.min 850 (k + 45)) 850 _ ltac:(lia) ltac:(lia)
              ltac:(reflexivity) Hx)
    as (p & Hp & Hcap).
  change (@Math_min float Binary64Numbers (lit 850))
    with (Binary64.min (Binary64.Z2F 850 false)) in Hproj.
  change (@Math_round float Binary64Numbers) with Binary64.round in Hproj.
  change (@add float Binary64Numbers) with PrimFloat.add in Hproj.
  rewrite Hcap in Hproj.
  (* the milestones *)
  destruct (simulate_milestones nd) as (_ & Hstab & Hrec).
  rewrite Hproj, Hlow, simulate_initialScore, Hfico in Hstab.
  rewrite Hproj, Hlow in Hrec.
  change (@sub float Binary64Numbers) with PrimFloat.sub in Hstab, Hrec.
  change (@mul float Binary64Numbers) with PrimFloat.mul in Hstab, Hrec.
  change (@add float Binary64Numbers) with PrimFloat.add in Hstab, Hrec.
  change (@Math_round float Binary64Numbers) with Binary64.round in Hstab, Hrec.
  change (@Math_min float Binary64Numbers) with Binary64.min in Hstab.
  change (@lit float Binary64Numbers 0.15) with 0.15%float in Hstab.
  change (@lit float Binary64Numbers 0.65) with 0.65%float in Hrec.
  rewrite Z2F_sub in Hstab, Hrec by lia.
  destruct (shares_of_gain (p - k) ltac:(lia)) as (a & b & Hab & Ha & Hb).
  rewrite Ha in Hstab. rewrite Hb in Hrec.
  rewrite Z2F_add in Hstab, Hrec by lia.
  rewrite Z2F_min in Hstab by lia.
  exists k, p, (Z.min f (k + a))%Z, (k + b)%Z.
  split; [ lia | ]. repeat split; assumption.
Qed.

(** C6, as the code has it.  On binary64, when the coerced ficoScore is an
    integer of [300, 850], recoveryMonths is not negative and, before
    enrollment, ten times positiveAccounts is below +Infinity: the weights
    are non-negative, projectedScore is at least lowPointScore, and the three
    milestones, which are given by their formulas without any further clamp,
    lie between lowPointScore and projectedScore. *)
Theorem milestones_within_projection (data : UserData.t float) (f : Z) :
  let nd := numericData data in
  let r := runSimulation data in
  let totalGain := (Results.projectedScore r - Results.lowPointScore r)%float in
  NumericData.ficoScore nd = Binary64.Z2F f false ->
  (300 <= f <= 850)%Z ->
  PrimFloat.leb 0 (Results.recoveryMonths r) = true ->
  (UserData.scenarioType data = "pre-enrollment" ->
   PrimFloat.ltb (NumericData.positiveAccounts nd * 10)%float infinity = true) ->
  nonNegativeWeights (Results.weights r) = true
  /\ PrimFloat.leb (Results.lowPointScore r) (Results.projectedScore r) = true
  /\ Results.milestoneDipScore r = Results.lowPointScore r
  /\ Results.milestoneStabilizationScore r
     = Binary64.min (Results.initialScore r)
         (Results.lowPointScore r + Binary64.round (totalGain * 0.15))%float
  /\ Results.milestoneRecoveryScore r
     = (Results.lowPointScore r + Binary64.round (totalGain * 0.65))%float
  /\ PrimFloat.leb (Results.lowPointScore r) (Results.milestoneStabilizationScore r)
     = true
  /\ PrimFloat.leb (Results.milestoneStabilizationScore r) (Results.projectedScore r)
     = true
  /\ PrimFloat.leb (Results.lowPointScore r) (Results.milestoneRecoveryScore r)
     = true
  /\ PrimFloat.leb (Results.milestoneRecoveryScore r) (Results.projectedScore r)
     = true.
Proof.
  intros nd r totalGain Hfico Hf Hmonths Hpos.
  assert (H53 : (2 ^ 53 = 9007199254740992)%Z) by reflexivity.
  destruct (integer_scores nd f Hfico Hf Hmonths)
    as (k & p & s & v & Hord & Hk & Hs & Hv & Hp & _).
  { intro Hsc. apply (record_rawDrop_not_nan data). apply Hpos. exact Hsc. }
  destruct (simulate_milestones nd) as (Hdip & Hstab & Hrec).
  pose proof (simulate_weights nd) as Hw.
  subst r totalGain. change (runSimulation data) with (simulate nd).
  split.
  { rewrite Hw. apply (adjustWeights_forall _ allAdjusted_nonnegative). }
  split; [ rewrite Hk, Hp, Z2F_leb by lia; apply Z.leb_le; lia | ].
  split; [ exact Hdip | ].
  split; [ exact Hstab | ].
  split; [ exact Hrec | ].
  rewrite Hk, Hs, Hv, Hp, !Z2F_leb by lia.
  repeat split; apply Z.leb_le; lia.
Qed.

(** Scenario A, whose scores are 613, 640, 732 and 796. *)
Lemma milestones_within_projection_witness :
  let r := runSimulation scenarioA in
  PrimFloat.leb (Results.lowPointScore r) (Results.projectedScore r) = true
  /\ PrimFloat.leb (Results.lowPointScore r) (Results.milestoneStabilizationScore r)
     = true
  /\ PrimFloat.leb (Results.milestoneStabilizationScore r) (Results.projectedScore r)
     = true
  /\ PrimFloat.leb (Results.lowPointScore r) (Results.milestoneRecoveryScore r)
     = true
  /\ PrimFloat.leb (Results.milestoneRecoveryScore r) (Results.projectedScore r)
     = true.
Proof.
  assert (Hfico : NumericData.ficoScore (numericData scenarioA)
                  = Binary64.Z2F 650 false) by (vm_compute; reflexivity).
  assert (Hrange : (300 <= 650 <= 850)%Z) by lia.
  assert (Hmonths : PrimFloat.leb 0 (Results.recoveryMonths (runSimulation scenarioA))
                    = true) by (vm_compute; reflexivity).
  assert (Hpos : UserData.scenarioType scenarioA = "pre-enrollment" ->
                 PrimFloat.ltb
                   (NumericData.positiveAccounts (numericData scenarioA) * 10)%float
                   infinity = true) by (intros _; vm_compute; reflexivity).
  pose proof (milestones_within_projection scenarioA 650 Hfico Hrange Hmonths Hpos)
    as (_ & H1 & _ & _ & _ & H2).
  exact (conj H1 H2).
Defined.

Lemma Z2F_inj (a b : Z) :
  (0 <= a < 2 ^ 53)%Z -> (0 <= b < 2 ^ 53)%Z ->
  Binary64.Z2F a false = Binary64.Z2F b false -> a = b.
Proof.
  intros Ha Hb E.
  pose proof (Z2F_compare a b Ha Hb) as Hab.
  pose proof (Z2F_compare b b Hb Hb) as Hbb.
  rewrite E, Hbb in Hab. injection Hab as Hab.
  rewrite Z.compare_refl in Hab. symmetry in Hab.
  apply Z.compare_eq in Hab. exact Hab.
Qed.

(** X9. On binary64, for a record whose coerced ficoScore is an integer of
    [300, 850], with recoveryMonths not negative and, before enrollment, ten
    times positiveAccounts below +Infinity: lowPointScore, the two later
    milestones and projectedScore are the doubles of integers k, s, v, p with
    300 <= k <= s <= v <= p <= 850; neither the low point nor the
    stabilization is above the ficoScore; and the projection is at least 45
    points above the low point, or 850. *)
Theorem milestones_on_doubles (data : UserData.t float) (f : Z) :
  let nd := numericData data in
  let r := runSimulation data in
  NumericData.ficoScore nd = Binary64.Z2F f false ->
  (300 <= f <= 850)%Z ->
  PrimFloat.leb 0 (Results.recoveryMonths r) = true ->
  (UserData.scenarioType data = "pre-enrollment" ->
   PrimFloat.ltb (NumericData.positiveAccounts nd * 10)%float infinity = true) ->
  exists k p s v : Z,
    (300 <= k /\ k <= s /\ s <= v /\ v <= p /\ p <= 850 /\ k <= f /\ s <= f
     /\ Z.min 850 (k + 45) <= p)%Z
    /\ Results.lowPointScore r = Binary64.Z2F k false
    /\ Results.milestoneStabilizationScore r = Binary64.Z2F s false
    /\ Results.milestoneRecoveryScore r = Binary64.Z2F v false
    /\ Results.projectedScore r = Binary64.Z2F p false.
Proof.
  intros nd r Hfico Hf Hmonths Hpos.
  destruct (integer_scores nd f Hfico Hf Hmonths)
    as (k & p & s & v & Hord & Hk & Hs & Hv & Hp & _).
  { intro Hsc. apply (record_rawDrop_not_nan data). apply Hpos. exact Hsc. }
  exists k, p, s, v. auto.
Qed.

(** Scenario A, whose scores are 613, 640, 732 and 796. *)
Lemma milestones_on_doubles_witness :
  exists k p s v : Z,
    (300 <= k /\ k <= s /\ s <= v /\ v <= p /\ p <= 850 /\ k <= 650 /\ s <= 650
     /\ Z.min 850 (k + 45) <= p)%Z
    /\ Results.lowPointScore (runSimulation scenarioA) = Binary64.Z2F k false
    /\ Results.milestoneStabilizationScore (runSimulation scenarioA)
       = Binary64.Z2F s false
    /\ Results.milestoneRecoveryScore (runSimulation scenarioA)
       = Binary64.Z2F v false
    /\ Results.projectedScore (runSimulation scenarioA) = Binary64.Z2F p false.
Proof.
  apply (milestones_on_doubles scenarioA 650).
  - vm_compute. reflexivity.
  - lia.
  - vm_compute. reflexivity.
  - intros _. vm_compute. reflexivity.
Defined.

(** *** NaN goes through *)

Lemma nan_add_l (x y : float) : is_nan x = true -> is_nan (x + y) = true.
Proof.
  rewrite !is_nan_Prim2SF, add_spec. intros ->. reflexivity.
Qed.

Lemma nan_add_r (x y : float) : is_nan y = true -> is_nan (x + y) = true.
Proof.
  rewrite !is_nan_Prim2SF, add_spec. intros ->.
  destruct (Prim2SF x); reflexivity.
Qed.

Lemma nan_sub_l (x y : float) : is_nan x = true -> is_nan (x - y) = true.
Proof.
  rewrite !is_nan_Prim2SF, sub_spec. intros ->. reflexivity.
Qed.

Lemma nan_mul_r (x y : float) : is_nan y = true -> is_nan (x * y) = true.
Proof.
  rewrite !is_nan_Prim2SF, mul_spec. intros ->.
  destruct (Prim2SF x); reflexivity.
Qed.

Lemma nan_div_l (x y : float) : is_nan x = true -> is_nan (x / y) = true.
Proof.
  rewrite !is_nan_Prim2SF, div_spec. intros ->. reflexivity.
Qed.

Lemma nan_round (x : float) : is_nan x = true -> is_nan (Binary64.round x) = true.
Proof.
  intro H. unfold Binary64.round.
  rewrite (proj1 (is_nan_Prim2SF x) H). exact H.
Qed.

Lemma nan_min_r (x y : float) : is_nan y = true -> is_nan (Binary64.min x y) = true.
Proof.
  intro H. unfold Binary64.min. rewrite H, orb_true_r. reflexivity.
Qed.

Lemma leb_const_not_negative (c y : float) :
  isPositiveFinite c = true -> PrimFloat.leb c y = true ->
  PrimFloat.leb 0 y = true.
Proof.
  unfold isPositiveFinite. rewrite !leb_spec.
  change (Prim2SF 0) with (S754_zero false).
  destruct (Prim2SF c) as [ | | | [ | ] mc ec]; try discriminate.
  intros _.
  destruct (Prim2SF y) as [s | s | | s m e]; simpl;
    try discriminate; try reflexivity;
    destruct s; try discriminate; reflexivity.
Qed.

(** Without a number of months there is no gain and no projection. *)
Lemma projectedScore_nan (nd : NumericData.t float) :
  is_nan (Results.recoveryMonths (simulate nd)) = true ->
  is_nan (Results.projectedScore (simulate nd)) = true.
Proof.
  intro Hm. rewrite simulate_projectedScore.
  apply nan_min_r, nan_round, nan_add_r.
  unfold potentialGain. cbv zeta.
  apply nan_add_l, nan_add_r, nan_mul_r, nan_div_l. exact Hm.
Qed.

(** X10. An existing client (any scenarioType other than "pre-enrollment")
    whose coerced ficoScore is 850 gets a chart without gain: whatever the
    rest of the record and the timeline, the y coordinates [ScoreChart]
    computes from the results for the start, the stabilization and the
    recovery are not finite numbers; those of the dip and of the projection
    are. *)
Theorem top_score_tracker_chart (data : UserData.t float) (timeline : float) :
  UserData.scenarioType data <> "pre-enrollment" ->
  NumericData.ficoScore (numericData data) = 850%float ->
  map (fun p => is_finite (ChartPoint.y p))
    (chartOf (runSimulation data) timeline)
  = [false; true; false; false; true].
Proof.
  intros Hs Hfico. unfold runSimulation. set (nd := numericData data) in *.
  change (UserData.scenarioType data) with (NumericData.scenarioType nd) in Hs.
  clearbody nd.
  destruct (simulate_other nd Hs) as (Hlow & Hmonths & _).
  destruct (simulate_milestones nd) as (Hdip & _).
  unfold chartOf, ScoreChart. cbn [map ChartPoint.y].
  change (@sub float Binary64Numbers) with PrimFloat.sub.
  change (@div float Binary64Numbers) with PrimFloat.div.
  change (@mul float Binary64Numbers) with PrimFloat.mul.
  change (@lit float Binary64Numbers 100) with 100%float.
  change (@lit float Binary64Numbers 0) with 0%float.
  rewrite Hdip.
  assert (Hz : Prim2SF (Results.projectedScore (simulate nd)
                        - Results.lowPointScore (simulate nd))
               = S754_nan
               \/ exists s, Prim2SF (Results.projectedScore (simulate nd)
                                     - Results.lowPointScore (simulate nd))
                            = S754_zero s).
  { destruct (is_nan (Results.recoveryMonths (simulate nd))) eqn:Hnan.
    - left. apply is_nan_Prim2SF. apply nan_sub_l.
      apply projectedScore_nan. exact Hnan.
    - assert (Hm : PrimFloat.leb 0 (Results.recoveryMonths (simulate nd)) = true).
      { rewrite Hmonths in Hnan |- *.
        change (@Math_max float Binary64Numbers (lit 12))
          with (Binary64.max 12) in Hnan |- *.
        destruct (max_not_nan _ _ Hnan) as [_ Hd].
        destruct (max_const_bound 12 _ eq_refl eq_refl Hd) as [_ H12].
        exact (leb_const_not_negative 12 _ eq_refl H12). }
      destruct (integer_scores nd 850 Hfico ltac:(lia) Hm)
        as (k & p & s & v & Hord & Hl & _ & _ & Hp & _).
      { intro Hpre. contradiction. }
      assert (Hk : k = 850%Z).
      { apply Z2F_inj; [ change (2 ^ 53)%Z with 9007199254740992%Z; lia
                       | change (2 ^ 53)%Z with 9007199254740992%Z; lia | ].
        rewrite <- Hl, Hlow. exact Hfico. }
      assert (Hp850 : p = 850%Z) by lia.
      rewrite Hp, Hl, Hk, Hp850.
      apply (sub_self_shape (Binary64.Z2F 850 false)). }
  rewrite !div_by_zero_not_finite by exact Hz.
  reflexivity.
Qed.

(** The existing client with the top score who comes through the form. *)
Lemma top_score_tracker_chart_witness :
  map (fun p => is_finite (ChartPoint.y p))
    (chartOf
       (runSimulation
          (readUserData (App.userData (run enterTopScoreTracker initialState))))
       24%float)
  = [false; true; false; false; true].
Proof.
  apply (top_score_tracker_chart
           (readUserData (App.userData (run enterTopScoreTracker initialState)))
           24%float).
  - intro H. vm_compute in H. discriminate H.
  - vm_compute. reflexivity.
Defined.

(** ** The chart of integer scores *)

Lemma heights_in_order :
  forallb (fun p => forallb (heightsInOrder p) doubles) doubles = true.
Proof.
  vm_compute. reflexivity.
Qed.

Lemma in_doubles (j : Z) :
  (0 <= j <= 550)%Z -> In (j, Binary64.Z2F j false) doubles.
Proof.
  intro Hj. unfold doubles.
  apply (in_map (fun j => (j, Binary64.Z2F j false))).
  unfold gains. apply in_map_iff. exists (Z.to_nat j).
  split; [ lia | ]. apply in_seq. lia.
Qed.

(** The height of a point [i] above the dip in a chart of gain [j]. *)
Lemma chart_heights (i j : Z) :
  (0 <= i <= 550)%Z -> (1 <= j <= 550)%Z ->
  let y := (Binary64.Z2F i false / Binary64.Z2F j false * 100)%float in
  PrimFloat.leb 0 y = true
  /\ PrimFloat.leb y 100 = (i <=? j)%Z
  /\ ((i < j)%Z ->
      PrimFloat.leb y
        (Binary64.Z2F (i + 1) false / Binary64.Z2F j false * 100)%float = true).
Proof.
  intros Hi Hj y.
  pose proof (proj1 (forallb_forall _ _) heights_in_order _ (in_doubles i Hi))
    as H1.
  pose proof (proj1 (forallb_forall _ _) H1 _ (in_doubles j ltac:(lia))) as H2.
  unfold heightsInOrder in H2.
  apply orb_prop in H2 as [H2 | H2]; [ apply Z.eqb_eq in H2; lia | ].
  apply andb_prop in H2 as [H2 H5]. apply andb_prop in H2 as [H3 H4].
  fold y in H3, H4, H5.
  split; [ exact H3 | ]. split.
  - apply Bool.eqb_prop. exact H4.
  - intro Hlt. apply orb_prop in H5 as [H5 | H5];
      [ apply Z.leb_le in H5; lia | ].
    rewrite <- (Z2F_add i 1) by (change (2 ^ 53)%Z with 9007199254740992%Z; lia).
    exact H5.
Qed.

Lemma chart_heights_ascending (j : Z) (n : nat) :
  (1 <= j <= 550)%Z ->
  forall i : Z, (0 <= i)%Z -> (i + Z.of_nat n <= j)%Z ->
  PrimFloat.leb
    (Binary64.Z2F i false / Binary64.Z2F j false * 100)%float
    (Binary64.Z2F (i + Z.of_nat n) false / Binary64.Z2F j false * 100)%float
  = true.
Proof.
  intro Hj. induction n as [ | n IH]; intros i Hi Hn.
  - rewrite Z.add_0_r. apply leb_refl_from_zero.
    apply (chart_heights i j); lia.
  - destruct (chart_heights i j ltac:(lia) Hj) as (H0 & _ & Hstep).
    apply (leb_trans_from_zero _ _ _ H0 (Hstep ltac:(lia))).
    replace (i + Z.of_nat (S n))%Z with (i + 1 + Z.of_nat n)%Z by lia.
    apply IH; lia.
Qed.

Lemma simulate_chart_inputs (nd : NumericData.t float) :
  Results.initialScore (simulate nd) = NumericData.ficoScore nd
  /\ Results.milestoneDipScore (simulate nd) = Results.lowPointScore (simulate nd).
Proof.
  unfold simulate.
  destruct (scenarioBranch nd (weightsOf nd)) as [[low months] penalty].
  split; reflexivity.
Qed.

(** X11. On binary64, for a record as in X9 that is either before
    enrollment or has a ficoScore below 850, the chart stays in its box from
    the dip on: with the dip at y = 0 and the projection at y = 100, the
    stabilization and the recovery have
    0 <= y(stabilization) <= y(recovery) <= 100.  The start is not below 0,
    and it is at or below 100 exactly when initialScore is not above
    projectedScore. *)
Theorem chart_within_box (data : UserData.t float) (f : Z) (timeline : float) :
  let nd := numericData data in
  let r := runSimulation data in
  NumericData.ficoScore nd = Binary64.Z2F f false ->
  (300 <= f <= 850)%Z ->
  PrimFloat.leb 0 (Results.recoveryMonths r) = true ->
  (UserData.scenarioType data = "pre-enrollment" ->
   PrimFloat.ltb (NumericData.positiveAccounts nd * 10)%float infinity = true) ->
  (UserData.scenarioType data = "pre-enrollment" \/ (f < 850)%Z) ->
  exists y0 y2 y3 : float,
    map ChartPoint.y (chartOf r timeline) = [y0; 0%float; y2; y3; 100%float]
    /\ PrimFloat.leb 0 y0 = true
    /\ PrimFloat.leb y0 100
       = PrimFloat.leb (Results.initialScore r) (Results.projectedScore r)
    /\ PrimFloat.leb 0 y2 = true
    /\ PrimFloat.leb y2 y3 = true
    /\ PrimFloat.leb y3 100 = true.
Proof.
  intros nd r Hfico Hf Hmonths Hpos Hgain.
  assert (H53 : (2 ^ 53 = 9007199254740992)%Z) by reflexivity.
  destruct (integer_scores nd f Hfico Hf Hmonths) 
    as (k & p & s & v & Hord & Hk & Hs & Hv & Hp & Hpre & Hother).
  { intro Hsc. apply (record_rawDrop_not_nan data). apply Hpos. exact Hsc. }
  destruct (simulate_chart_inputs nd) as (Hinit & Hdip).
  subst r. change (runSimulation data) with (simulate nd) in *.
  assert (Hkp : (k < p)%Z).
  { destruct Hgain as [Hsc | Hlt]; [ specialize (Hpre Hsc); lia | ].
    destruct (string_dec (NumericData.scenarioType nd) "pre-enrollment")
      as [Hsc | Hsc]; [ specialize (Hpre Hsc) | specialize (Hother Hsc) ]; lia. }
  clear Hgain Hpre Hother.
  unfold chartOf, ScoreChart. cbn [map ChartPoint.y].
  rewrite Hdip, Hinit, Hk, Hs, Hv, Hp, Hfico.
  change (@sub float Binary64Numbers) with PrimFloat.sub.
  change (@div float Binary64Numbers) with PrimFloat.div.
  change (@mul float Binary64Numbers) with PrimFloat.mul.
  change (@lit float Binary64Numbers 100) with 100%float.
  change (@lit float Binary64Numbers 0) with 0%float.
  rewrite !Z2F_sub by lia.
  rewrite (Z2F_leb f p) by lia.
  eexists _, _, _. split; [ reflexivity | ].
  destruct (chart_heights (f - k) (p - k) ltac:(lia) ltac:(lia)) as (A0 & A1 & _).
  destruct (chart_heights (v - k) (p - k) ltac:(lia) ltac:(lia)) as (_ & B1 & _).
  destruct (chart_heights (s - k) (p - k) ltac:(lia) ltac:(lia)) as (C0 & _ & _).
  split; [ exact A0 | ]. split.
  { rewrite A1. destruct (Z.leb_spec (f - k) (p - k)), (Z.leb_spec f p);
      try reflexivity; lia. }
  split; [ exact C0 | ]. split.
  { pose proof (chart_heights_ascending (p - k) (Z.to_nat (v - s)) ltac:(lia)
                  (s - k)%Z ltac:(lia) ltac:(lia)) as Hasc.
    replace (s - k + Z.of_nat (Z.to_nat (v - s)))%Z with (v - k)%Z in Hasc by lia.
    exact Hasc. }
  rewrite B1. apply Z.leb_le. lia.
Qed.

(** The client with the top score before enrollment: the projection, 841, is
    below the 850 of the start, which the chart puts above its box. *)
Lemma chart_within_box_witness :
  exists y0 y2 y3 : float,
    map ChartPoint.y
      (chartOf
         (runSimulation
            (readUserData
               (App.userData (run enterTopScoreShortProgram initialState))))
         12%float)
    = [y0; 0%float; y2; y3; 100%float]
    /\ PrimFloat.leb 0 y0 = true
    /\ PrimFloat.leb y0 100
       = PrimFloat.leb
           (Results.initialScore
              (runSimulation
                 (readUserData
                    (App.userData (run enterTopScoreShortProgram initialState)))))
           (Results.projectedScore
              (runSimulation
                 (readUserData
                    (App.userData (run enterTopScoreShortProgram initialState)))))
    /\ PrimFloat.leb 0 y2 = true
    /\ PrimFloat.leb y2 y3 = true
    /\ PrimFloat.leb y3 100 = true.
Proof.
  apply (chart_within_box
           (readUserData
              (App.userData (run enterTopScoreShortProgram initialState)))
           850 12%float).
  - vm_compute. reflexivity.
  - lia.
  - vm_compute. reflexivity.
  - intros _. vm_compute. reflexivity.
  - left. vm_compute. reflexivity.
Defined.

(** ** The change shown to an existing client *)

Lemma simulate_scoreGain (nd : NumericData.t float) :
  Results.scoreGain (simulate nd)
  = (Results.projectedScore (simulate nd) - Results.initialScore (simulate nd))%float.
Proof.
  unfold simulate.
  destruct (scenarioBranch nd (weightsOf nd)) as [[low months] penalty].
  reflexivity.
Qed.

(** X12. The change shown to an existing client is never a loss: for a
    record other than "pre-enrollment" whose coerced ficoScore is an integer
    f of [300, 850], with recoveryMonths not negative, scoreGain is the
    double of an integer g with min(45, 850 - f) <= g <= 850 - f, so it is
    above 0 unless the ficoScore is 850. *)
Theorem tracker_scoreGain (data : UserData.t float) (f : Z) :
  let nd := numericData data in
  let r := runSimulation data in
  UserData.scenarioType data <> "pre-enrollment" ->
  NumericData.ficoScore nd = Binary64.Z2F f false ->
  (300 <= f <= 850)%Z ->
  PrimFloat.leb 0 (Results.recoveryMonths r) = true ->
  exists g : Z,
    (Z.min 45 (850 - f) <= g <= 850 - f)%Z
    /\ Results.scoreGain r = Binary64.Z2F g false
    /\ PrimFloat.ltb 0 (Results.scoreGain r) = (f <? 850)%Z.
Proof.
  intros nd r Hsc Hfico Hf Hmonths.
  assert (H53 : (2 ^ 53 = 9007199254740992)%Z) by reflexivity.
  destruct (integer_scores nd f Hfico Hf Hmonths)
    as (k & p & s & v & Hord & Hk & _ & _ & Hp & _ & Hother).
  { intro Hpre. contradiction. }
  specialize (Hother Hsc). subst k.
  subst r. change (runSimulation data) with (simulate nd).
  rewrite simulate_scoreGain, Hp, simulate_initialScore, Hfico.
  rewrite Z2F_sub by lia.
  exists (p - f)%Z. split; [ lia | ]. split; [ reflexivity | ].
  change 0%float with (Binary64.Z2F 0 false).
  rewrite Z2F_ltb by lia.
  destruct (Z.ltb_spec 0 (p - f)), (Z.ltb_spec f 850); try reflexivity; lia.
Qed.

(** Scenario B, twelve months into the program. *)
Lemma tracker_scoreGain_witness :
  exists g : Z,
    (Z.min 45 (850 - 650) <= g <= 850 - 650)%Z
    /\ Results.scoreGain (runSimulation scenarioB) = Binary64.Z2F g false
    /\ PrimFloat.ltb 0 (Results.scoreGain (runSimulation scenarioB))
       = (650 <? 850)%Z.
Proof.
  apply (tracker_scoreGain scenarioB 650).
  - discriminate.
  - vm_compute. reflexivity.
  - lia.
  - vm_compute. reflexivity.
Defined.

(** ** Zero income, coercion, and results that are numbers *)











(** ** The engine keeps no state *)

Section StoreFacts.

Context {num : Type} `{NumberModel num}.

Local Open Scope list_scope.

Lemma nth_error_last (s : Objects.Store) (o : Weights.t num) :
  nth_error (s ++ [o]) (List.length s) = Some o.
Proof.
  rewrite nth_error_app2 by apply Nat.le_refl.
  rewrite Nat.sub_diag. reflexivity.
Qed.

Lemma replaceAt_last (s : Objects.Store) (o o' : Weights.t num) :
  Objects.replaceAt (List.length s) o' (s ++ [o]) = s ++ [o'].
Proof.
  induction s as [ | first rest IH]; simpl; [ reflexivity | ].
  rewrite IH. reflexivity.
Qed.

Lemma readKey_last (s : Objects.Store) (o : Weights.t num) (k : Objects.Key) :
  Objects.readKey (List.length s) k (s ++ [o])
  = Some (Objects.getKey k o, s ++ [o]).
Proof.
  unfold Objects.readKey. rewrite nth_error_last. reflexivity.
Qed.

Lemma writeKey_last (s : Objects.Store) (o : Weights.t num) (k : Objects.Key)
  (x : num) :
  Objects.writeKey (List.length s) k x (s ++ [o])
  = Some (tt, s ++ [Objects.setKey k x o]).
Proof.
  unfold Objects.writeKey. rewrite nth_error_last, replaceAt_last. reflexivity.
Qed.

Ltac store_step :=
  repeat (unfold Objects.bind, Objects.andThen, Objects.skip, Objects.ret;
          rewrite ?readKey_last, ?writeKey_last; cbn beta iota).

(** Each block of [calculateWeights], run on the object it has just
    allocated, leaves there what the rule of the functional reading
    computes. *)
Lemma adjustForTier_store (s : Objects.Store) (o : Weights.t num) (ficoScore : num) :
  Objects.adjustForTier (List.length s) ficoScore (s ++ [o])
  = Some (tt, s ++ [tierRule ficoScore o]).
Proof.
  unfold Objects.adjustForTier, tierRule.
  destruct (leb (lit 740) ficoScore); [ store_step; reflexivity | ].
  destruct (leb ficoScore (lit 580)); store_step; reflexivity.
Qed.

Lemma adjustForDti_store (s : Objects.Store) (o : Weights.t num)
  (totalDebt monthlyIncome : num) :
  Objects.adjustForDti (List.length s) totalDebt monthlyIncome (s ++ [o])
  = Some (tt, s ++ [dtiRule totalDebt monthlyIncome o]).
Proof.
  unfold Objects.adjustForDti, dtiRule, debtToIncome. cbv zeta.
  destruct (ltb (lit 0.45) _); store_step; reflexivity.
Qed.

Lemma adjustForOverallUtilization_store (s : Objects.Store) (o : Weights.t num)
  (totalDebt totalCreditLimit : num) :
  Objects.adjustForOverallUtilization (List.length s) totalDebt totalCreditLimit
    (s ++ [o])
  = Some (tt, s ++ [overallUtilizationRule totalDebt totalCreditLimit o]).
Proof.
  unfold Objects.adjustForOverallUtilization, overallUtilizationRule. cbv zeta.
  destruct (ltb (lit 0) totalCreditLimit); [ | store_step; reflexivity ].
  destruct (ltb _ (lit 30)); store_step; reflexivity.
Qed.

Lemma adjustForAnchors_store (s : Objects.Store) (o : Weights.t num)
  (positiveAccounts : num) :
  Objects.adjustForAnchors (List.length s) positiveAccounts (s ++ [o])
  = Some (tt, s ++ [anchorRule positiveAccounts o]).
Proof.
  unfold Objects.adjustForAnchors, anchorRule.
  destruct (ltb (lit 0) positiveAccounts); store_step; reflexivity.
Qed.

Lemma adjustForAge_store (s : Objects.Store) (o : Weights.t num)
  (oldestAccountAge : num) :
  Objects.adjustForAge (List.length s) oldestAccountAge (s ++ [o])
  = Some (tt, s ++ [ageRule oldestAccountAge o]).
Proof.
  unfold Objects.adjustForAge, ageRule.
  destruct (ltb oldestAccountAge (lit 4)); [ store_step; reflexivity | ].
  destruct (ltb (lit 10) oldestAccountAge); store_step; reflexivity.
Qed.

Lemma normalize_store (s : Objects.Store) (o : Weights.t num) :
  Objects.normalize (List.length s) (s ++ [o])
  = Some (tt, s ++ [normalizeWeights o]).
Proof.
  unfold Objects.normalize, Objects.keys, Objects.readKeys, Objects.forKeys.
  store_step. reflexivity.
Qed.

(** [calculateWeights] allocates one object, leaves in it the weights of the
    functional reading, and touches no object that was there before. *)
Lemma calculateWeights_store (s : Objects.Store) (f d i p a l : num) :
  Objects.calculateWeights f d i p a l s
  = Some (List.length s, s ++ [calculateWeights f d i p a l]).
Proof.
  unfold Objects.calculateWeights, Objects.bind at 1, Objects.newObject.
  unfold Objects.andThen, Objects.bind.
  rewrite adjustForTier_store, adjustForDti_store,
    adjustForOverallUtilization_store, adjustForAnchors_store,
    adjustForAge_store, normalize_store.
  reflexivity.
Qed.

Lemma calculateWorstCaseImpact_store (s : Objects.Store) (o : Weights.t num)
  (nd : NumericData.t num) :
  Objects.calculateWorstCaseImpact nd (List.length s) (s ++ [o])
  = Some (calculateWorstCaseImpact nd o, s ++ [o]).
Proof.
  unfold Objects.calculateWorstCaseImpact. store_step. reflexivity.
Qed.

Lemma contents_later (s more : Objects.Store) (o : Weights.t num)
  (r : Objects.Returned) :
  Objects.weights r = List.length s ->
  Objects.contents (s ++ [o] ++ more) r
  = Objects.contents (s ++ [o]) r.
Proof.
  intro Hr. unfold Objects.contents. rewrite Hr.
  rewrite app_assoc, nth_error_app1, nth_error_last; [ reflexivity | ].
  rewrite length_app. simpl. rewrite Nat.add_1_r. apply Nat.lt_succ_diag_r.
Qed.

(** [runSimulation] allocates the one object of its weights; what a caller
    reads in the returned object is the result of the functional reading,
    whatever the store held before. *)
Lemma runSimulation_store (s : Objects.Store) (data : UserData.t num) :
  exists r : Objects.Returned,
    Objects.runSimulation data s
    = Some (r, s ++ [weightsOf (numericData data)])
    /\ Objects.weights r = List.length s
    /\ Objects.contents (s ++ [weightsOf (numericData data)]) r
       = Some (runSimulation data).
Proof.
  unfold Objects.runSimulation, runSimulation, simulate, scenarioBranch.
  cbv zeta.
  set (nd := numericData data).
  unfold Objects.bind at 1.
  unfold weightsOf. rewrite calculateWeights_store. fold (weightsOf nd).
  destruct (String.eqb (NumericData.scenarioType nd) "pre-enrollment").
  - unfold Objects.bind at 1. unfold Objects.bind at 1.
    rewrite calculateWorstCaseImpact_store.
    store_step.
    eexists. split; [ reflexivity | ]. split; [ reflexivity | ].
    unfold Objects.contents. cbn [Objects.weights].
    rewrite nth_error_last. reflexivity.
  - store_step.
    eexists. split; [ reflexivity | ]. split; [ reflexivity | ].
    unfold Objects.contents. cbn [Objects.weights].
    rewrite nth_error_last. reflexivity.
Qed.

End StoreFacts.

(** C9.  Two invocations of [runSimulation] on the same record, the second
    running on the store the first has left, return objects with the same
    contents, those of the functional reading, whatever the store held
    before the first call.  Each call allocates one object, the weights it
    returns, and writes to no other: the store it finds is a prefix of the
    store it leaves, the two results do not share their weights, and the
    first result reads the same after the second call. *)
Theorem runSimulation_deterministic :
  forall (num : Type) (M : NumberModel num) (data : UserData.t num)
         (s : @Objects.Store num),
    exists (first second : Objects.Returned) (s1 s2 : Objects.Store),
      Objects.runSimulation data s = Some (first, s1)
      /\ Objects.runSimulation data s1 = Some (second, s2)
      /\ Objects.contents s1 first = Some (runSimulation data)
      /\ Objects.contents s2 second = Some (runSimulation data)
      /\ Objects.contents s2 first = Some (runSimulation data)
      /\ Objects.weights first <> Objects.weights second
      /\ (exists o, s1 = (s ++ [o])%list)
      /\ (exists o, s2 = (s1 ++ [o])%list).
Proof.
  intros num M data s.
  destruct (runSimulation_store s data) as (first & E1 & R1 & C1).
  set (w := weightsOf (numericData data)) in *.
  destruct (runSimulation_store (s ++ [w])%list data) as (second & E2 & R2 & C2).
  fold w in E2, C2.
  exists first, second, (s ++ [w])%list, ((s ++ [w]) ++ [w])%list.
  split; [ exact E1 | ]. split; [ exact E2 | ].
  split; [ exact C1 | ]. split; [ exact C2 | ].
  split.
  { rewrite <- app_assoc. rewrite (contents_later s [w] w first R1). exact C1. }
  split.
  { rewrite R1, R2, length_app. simpl. lia. }
  split; eexists; reflexivity.
Qed.
